(** * hytale-packets: the protocol documentation generator

    A shallow embedding of the TypeScript sources under
    [scripts/generate-wiki-ts/src]: the tree-sitter based extractor
    ([parser.ts]) and the batch layout analyzer ([layout-analyzer.ts]),
    together with the properties the specification states about them.

    Conventions of the embedding.
    - JavaScript strings are modelled by [string]; the sources the
      extractor reads are ASCII Java files, so one character is one index.
    - JavaScript numbers that hold integers are modelled by [Z]; [NaN] as
      produced by [parseInt] is [None].  The rounding of integers beyond
      2^53 to a double is not modelled.
    - [Map<string, V>] is [gmap string V]; the claims only look entries up.
    - Mutable variables captured by a traversal callback become the state
      threaded through [traverseTree].
    - Console output is not part of the model. *)

From Stdlib Require Import ZArith String Ascii List Lia Bool.
From stdpp Require Import base option list gmap strings.

Import ListNotations.
Set Warnings "-register-all".
Local Open Scope string_scope.
Local Open Scope list_scope.

(** ** JavaScript string primitives used by the sources *)

Module Js.

(** [String.prototype.substring(start, end)]: both indices are clamped to
    the length and swapped when out of order. *)
Definition substring (s : string) (i j : nat) : string :=
  let len := String.length s in
  let a := Nat.min i len in
  let b := Nat.min j len in
  String.substring (Nat.min a b) (Nat.max a b - Nat.min a b) s.

(** [hay.includes(needle)] *)
Fixpoint includes (hay needle : string) : bool :=
  String.prefix needle hay
  || match hay with
     | EmptyString => false
     | String _ rest => includes rest needle
     end.

(** [s.endsWith(suffix)] *)
Definition endsWith (s suffix : string) : bool :=
  let n := String.length s in
  let k := String.length suffix in
  (k <=? n)%nat && String.eqb (String.substring (n - k) k s) suffix.

(** White space in the sense of [trim], [parseInt] and the class [\s] of a
    regular expression, on ASCII text: TAB, LF, VT, FF, CR and SPACE.
    JavaScript counts some characters outside the ASCII range as white
    space too (U+00A0, U+FEFF, the Unicode space separators); what is
    proved from this definition about white space is stated for ASCII
    text. *)
Definition isWhiteSpace (c : ascii) : bool :=
  let n := nat_of_ascii c in
  ((9 <=? n) && (n <=? 13))%nat || (n =? 32)%nat.

Fixpoint trimStart (s : string) : string :=
  match s with
  | String c rest => if isWhiteSpace c then trimStart rest else s
  | EmptyString => EmptyString
  end.

Fixpoint trimEnd (s : string) : string :=
  match s with
  | EmptyString => EmptyString
  | String c rest =>
      match trimEnd rest with
      | EmptyString => if isWhiteSpace c then EmptyString else String c EmptyString
      | r => String c r
      end
  end.

Definition trim (s : string) : string := trimEnd (trimStart s).

(** Truthiness of a string: the empty string is falsy. *)
Definition truthy (s : string) : bool :=
  match s with EmptyString => false | _ => true end.

(** The value of a character as a digit in radix 10 or 16, as [parseInt]
    reads it. *)
Definition digitValue (radix : Z) (c : ascii) : option Z :=
  let n := Z.of_nat (nat_of_ascii c) in
  let v :=
    if ((48 <=? n)%Z && (n <=? 57)%Z)%bool then Some (n - 48)%Z
    else if ((97 <=? n)%Z && (n <=? 122)%Z)%bool then Some (n - 97 + 10)%Z
    else if ((65 <=? n)%Z && (n <=? 90)%Z)%bool then Some (n - 65 + 10)%Z
    else None in
  match v with
  | Some d => if (d <? radix)%Z then Some d else None
  | None => None
  end.

(** Reads the longest prefix of radix digits; [acc] is the value so far and
    [seen] tells whether a digit was read. *)
Fixpoint readDigits (radix : Z) (s : string) (acc : Z) (seen : bool) : option Z :=
  match s with
  | EmptyString => if seen then Some acc else None
  | String c rest =>
      match digitValue radix c with
      | Some d => readDigits radix rest (acc * radix + d)%Z true
      | None => if seen then Some acc else None
      end
  end.

(** [parseInt(s)] without a radix argument (ECMA-262, 19.2.5): leading
    white space is skipped, an optional sign is read, a [0x]/[0X] prefix
    selects radix 16, and the longest digit prefix is the value; [None]
    stands for [NaN].  The result here is the integer the digits denote.
    [parseInt] returns it as a Number, which is that integer as long as
    its magnitude is at most [2^53] and the nearest double beyond; what is
    proved from this definition about a value read from the source is
    stated for values within that bound. *)
Definition parseInt (s : string) : option Z :=
  let s1 := trimStart s in
  let '(sign, s2) :=
    match s1 with
    | String "-" rest => ((-1)%Z, rest)
    | String "+" rest => (1%Z, rest)
    | _ => (1%Z, s1)
    end in
  let '(radix, s3) :=
    match s2 with
    | String "0" (String "x" rest) => (16%Z, rest)
    | String "0" (String "X" rest) => (16%Z, rest)
    | _ => (10%Z, s2)
    end in
  match readDigits radix s3 0%Z false with
  | Some v => Some (sign * v)%Z
  | None => None
  end.

(** [s.replace(/\\/g, '/')] *)
Fixpoint replaceBackslashes (s : string) : string :=
  match s with
  | EmptyString => EmptyString
  | String c rest =>
      String (if Ascii.eqb c "\" then "/"%char else c) (replaceBackslashes rest)
  end.

(** [a || b] on strings *)
Definition orElse (a b : string) : string := if truthy a then a else b.

(** The character of a digit below 16, as [Number.prototype.toString]
    writes it: [0]-[9], then [a]-[f]. *)
Definition digitChar (d : Z) : ascii :=
  ascii_of_nat (Z.to_nat (if (d <? 10)%Z then 48 + d else 87 + d)%Z).

(** The hexadecimal digits of [n >= 0] in front of [acc]; [fuel] bounds
    the number of digits. *)
Fixpoint hexDigits (fuel : nat) (n : Z) (acc : string) : string :=
  match fuel with
  | O => acc
  | S fuel' =>
      if (n <? 16)%Z then String (digitChar n) acc
      else hexDigits fuel' (n / 16)%Z (String (digitChar (n mod 16)%Z) acc)
  end.

(** [n.toString(16)] for an integer [n]: a minus sign for a negative
    number, then the digits of its magnitude. *)
Definition toStringHex (n : Z) : string :=
  let m := Z.abs n in
  let digits := hexDigits (S (Z.to_nat (Z.log2 m))) m EmptyString in
  if (n <? 0)%Z then String "-" digits else digits.

Fixpoint repeatChar (n : nat) (c : ascii) : string :=
  match n with
  | O => EmptyString
  | S k => String c (repeatChar k c)
  end.

(** [s.padStart(targetLength, c)] for a pad string of one character. *)
Definition padStart (targetLength : nat) (c : ascii) (s : string) : string :=
  String.append (repeatChar (targetLength - String.length s) c) s.

(** [s.toUpperCase()] on the ASCII range: the letters [a]-[z] become
    [A]-[Z], every other character below 128 is kept. *)
Fixpoint toUpperCase (s : string) : string :=
  match s with
  | EmptyString => EmptyString
  | String c rest =>
      let n := nat_of_ascii c in
      String (if ((97 <=? n) && (n <=? 122))%nat then ascii_of_nat (n - 32) else c)
             (toUpperCase rest)
  end.

End Js.

(** ** The syntax tree handed out by tree-sitter *)

Module Tree.

(** A [Parser.SyntaxNode]: its grammar type, the span of the source text
    it covers, whether it is a named node, the field of its parent it is
    attached to (what [childForFieldName] looks up) and its children. *)
Inductive SyntaxNode : Type :=
  Node (type : string) (startIndex endIndex : nat) (isNamed : bool)
       (field : option string) (children : list SyntaxNode).

Definition type (n : SyntaxNode) : string :=
  match n with Node t _ _ _ _ _ => t end.
Definition startIndex (n : SyntaxNode) : nat :=
  match n with Node _ a _ _ _ _ => a end.
Definition endIndex (n : SyntaxNode) : nat :=
  match n with Node _ _ b _ _ _ => b end.
Definition isNamed (n : SyntaxNode) : bool :=
  match n with Node _ _ _ b _ _ => b end.
Definition field (n : SyntaxNode) : option string :=
  match n with Node _ _ _ _ f _ => f end.
Definition children (n : SyntaxNode) : list SyntaxNode :=
  match n with Node _ _ _ _ _ cs => cs end.

Definition hasType (t : string) (n : SyntaxNode) : bool := String.eqb (type n) t.

Definition hasField (f : string) (n : SyntaxNode) : bool :=
  match field n with Some g => String.eqb g f | None => false end.

(** [node.childForFieldName(f)] *)
Definition childForFieldName (n : SyntaxNode) (f : string) : option SyntaxNode :=
  List.find (hasField f) (children n).

(** [node.namedChildren] *)
Definition namedChildren (n : SyntaxNode) : list SyntaxNode :=
  List.filter isNamed (children n).

(** [getNodeText(node, content)] *)
Definition getNodeText (node : option SyntaxNode) (content : string) : string :=
  match node with
  | None => ""
  | Some n => Js.substring content (startIndex n) (endIndex n)
  end.

(** The text of the [modifiers] child, or the empty string: the idiom
    [node.children.find(c => c.type === 'modifiers')] followed by
    [modifiers ? getNodeText(modifiers, content) : ''] of the source. *)
Definition modifiersText (n : SyntaxNode) (content : string) : string :=
  match List.find (hasType "modifiers") (children n) with
  | Some m => getNodeText (Some m) content
  | None => ""
  end.

(** [traverseTree(node, callback)]: the callback runs on the node, then
    the children are traversed from left to right.  The callback may
    follow [node.parent]; since a value of [SyntaxNode] has no parent
    pointer, the traversal hands the chain of ancestors (nearest first)
    to the callback.  The variables the callback assigns are the state
    [s]. *)
Fixpoint traverseTree {S : Type} (callback : list SyntaxNode -> SyntaxNode -> S -> S)
    (parents : list SyntaxNode) (node : SyntaxNode) (s : S) : S :=
  (fix each (cs : list SyntaxNode) (s : S) : S :=
     match cs with
     | [] => s
     | child :: rest => each rest (traverseTree callback (node :: parents) child s)
     end) (children node) (callback parents node s).

(** The nodes in the order [traverseTree] visits them, each with its
    ancestors. *)
Fixpoint preorder (parents : list SyntaxNode) (node : SyntaxNode)
    : list (list SyntaxNode * SyntaxNode) :=
  (parents, node) ::
  (fix each (cs : list SyntaxNode) : list (list SyntaxNode * SyntaxNode) :=
     match cs with
     | [] => []
     | child :: rest => preorder (node :: parents) child ++ each rest
     end) (children node).

(** [findParentClass(node)]: the nearest ancestor that is a class
    declaration. *)
Definition findParentClass (parents : list SyntaxNode) : option SyntaxNode :=
  List.find (hasType "class_declaration") parents.

End Tree.

Import Tree.

(** ** The records of [types.ts] *)

Module EnumValue.
Record t : Type := mk { name : string; value : Z }.
End EnumValue.

Module EnumInfo.
Record t : Type := mk {
  name : string;
  package : string;
  category : string;
  sourcePath : string;
  values : list EnumValue.t
}.
End EnumInfo.

Module FieldInfo.
Record t : Type := mk {
  name : string;
  javaType : string;
  nullable : bool;
  defaultValue : option string;
  maxLength : option Z;
  wireOffset : option Z;
  wireSize : option Z;
  isVariable : bool;
  encoding : string
}.

(** The object literal [{ name, javaType, nullable, isVariable: false,
    encoding: '' }] both extractors build. *)
Definition fresh (name javaType : string) (nullable : bool) : t :=
  mk name javaType nullable None None None None false "".
End FieldInfo.

Module DataClassInfo.
Record t : Type := mk {
  name : string;
  package : string;
  category : string;
  sourcePath : string;
  fields : list FieldInfo.t;
  imports : list string
}.
End DataClassInfo.

Module PacketInfo.
Record t : Type := mk {
  name : string;
  package : string;
  category : string;
  packetId : option Z;
  isCompressed : bool;
  nullableBitFieldSize : Z;
  fixedBlockSize : Z;
  variableFieldCount : Z;
  variableBlockStart : Z;
  maxSize : Z;
  fields : list FieldInfo.t;
  imports : list string;
  isEnum : bool;
  isDataClass : bool;
  deserializeContext : option string
}.

(** Assignments to single properties of a packet. *)
Definition set_packetId (v : Z) (p : t) : t :=
  mk (name p) (package p) (category p) (Some v) (isCompressed p)
     (nullableBitFieldSize p) (fixedBlockSize p) (variableFieldCount p)
     (variableBlockStart p) (maxSize p) (fields p) (imports p) (isEnum p)
     (isDataClass p) (deserializeContext p).
Definition set_isCompressed (v : bool) (p : t) : t :=
  mk (name p) (package p) (category p) (packetId p) v
     (nullableBitFieldSize p) (fixedBlockSize p) (variableFieldCount p)
     (variableBlockStart p) (maxSize p) (fields p) (imports p) (isEnum p)
     (isDataClass p) (deserializeContext p).
Definition set_nullableBitFieldSize (v : Z) (p : t) : t :=
  mk (name p) (package p) (category p) (packetId p) (isCompressed p)
     v (fixedBlockSize p) (variableFieldCount p)
     (variableBlockStart p) (maxSize p) (fields p) (imports p) (isEnum p)
     (isDataClass p) (deserializeContext p).
Definition set_fixedBlockSize (v : Z) (p : t) : t :=
  mk (name p) (package p) (category p) (packetId p) (isCompressed p)
     (nullableBitFieldSize p) v (variableFieldCount p)
     (variableBlockStart p) (maxSize p) (fields p) (imports p) (isEnum p)
     (isDataClass p) (deserializeContext p).
Definition set_variableFieldCount (v : Z) (p : t) : t :=
  mk (name p) (package p) (category p) (packetId p) (isCompressed p)
     (nullableBitFieldSize p) (fixedBlockSize p) v
     (variableBlockStart p) (maxSize p) (fields p) (imports p) (isEnum p)
     (isDataClass p) (deserializeContext p).
Definition set_variableBlockStart (v : Z) (p : t) : t :=
  mk (name p) (package p) (category p) (packetId p) (isCompressed p)
     (nullableBitFieldSize p) (fixedBlockSize p) (variableFieldCount p)
     v (maxSize p) (fields p) (imports p) (isEnum p)
     (isDataClass p) (deserializeContext p).
Definition set_maxSize (v : Z) (p : t) : t :=
  mk (name p) (package p) (category p) (packetId p) (isCompressed p)
     (nullableBitFieldSize p) (fixedBlockSize p) (variableFieldCount p)
     (variableBlockStart p) v (fields p) (imports p) (isEnum p)
     (isDataClass p) (deserializeContext p).
Definition set_fields (v : list FieldInfo.t) (p : t) : t :=
  mk (name p) (package p) (category p) (packetId p) (isCompressed p)
     (nullableBitFieldSize p) (fixedBlockSize p) (variableFieldCount p)
     (variableBlockStart p) (maxSize p) v (imports p) (isEnum p)
     (isDataClass p) (deserializeContext p).
Definition set_deserializeContext (v : string) (p : t) : t :=
  mk (name p) (package p) (category p) (packetId p) (isCompressed p)
     (nullableBitFieldSize p) (fixedBlockSize p) (variableFieldCount p)
     (variableBlockStart p) (maxSize p) (fields p) (imports p) (isEnum p)
     (isDataClass p) (Some v).
End PacketInfo.

Module ParsedResults.
Record t : Type := mk {
  packetsByCategory : gmap string (list PacketInfo.t);
  enums : gmap string EnumInfo.t;
  dataClasses : gmap string DataClassInfo.t
}.
End ParsedResults.

(** ** What the extractor takes from its environment *)

(** The tree-sitter Java parser and the context bundler are used as black
    boxes: [parse] is [this.parser.parse(content)] followed by the test
    [!tree || !tree.rootNode] ([None] also covers a parser that throws, which
    every caller catches with the same outcome), and
    [extractDeserializeContext] is the method of that name, which only
    assembles text. *)
Class Externals : Type := {
  parse : string -> option SyntaxNode;
  extractDeserializeContext :
    SyntaxNode -> SyntaxNode -> string -> PacketInfo.t -> string
}.

(** The directory tree under the protocol directory, as [readdirSync],
    [statSync] and [readFileSync] show it.  A file whose content is [None]
    cannot be read ([readFileSync] throws). *)
Inductive FsEntry : Type :=
| File (name : string) (content : option string)
| Directory (name : string) (entries : list FsEntry).

(** [path.join] has a platform dependent separator. *)
Inductive Platform : Type := Posix | Win32.

(** ** [parser.ts]: class [JavaProtocolParser] *)

Module Parser.

Definition sep (pf : Platform) : string :=
  match pf with Posix => "/" | Win32 => "\" end.

(** [join(relPath, entry)] for an [entry] returned by [readdirSync]: such
    a name has no separator and is neither [.] nor [..], so normalisation
    leaves the joined path as it is; an empty [relPath] is dropped. *)
Definition join (pf : Platform) (relPath entry : string) : string :=
  if Js.truthy relPath then relPath ++ sep pf ++ entry else entry.

(** *** The regular expressions of [extractPackage] and [extractImports] *)

Definition isWordOrDot (c : ascii) : bool :=
  let n := nat_of_ascii c in
  (((48 <=? n) && (n <=? 57)) || ((65 <=? n) && (n <=? 90))
   || ((97 <=? n) && (n <=? 122)) || (n =? 95) || (n =? 46))%nat.

Fixpoint span (p : ascii -> bool) (s : string) : string * string :=
  match s with
  | String c rest =>
      if p c then let '(a, b) := span p rest in (String c a, b) else (EmptyString, s)
  | EmptyString => (EmptyString, EmptyString)
  end.

Fixpoint drop (n : nat) (s : string) : string :=
  match n, s with
  | S k, String _ rest => drop k rest
  | _, _ => s
  end.

(** A match of [/kw\s+([\w.]+);/] anchored at the start of [s]: the
    captured group and the length of the whole match. *)
Definition matchDeclaration (kw s : string) : option (string * nat) :=
  if String.prefix kw s then
    let '(ws, r1) := span Js.isWhiteSpace (drop (String.length kw) s) in
    let '(cap, r2) := span isWordOrDot r1 in
    match ws, cap, r2 with
    | String _ _, String _ _, String ";" _ =>
        Some (cap, String.length kw + String.length ws + String.length cap + 1)
    | _, _, _ => None
    end
  else None.

Fixpoint extractPackage (content : string) : string :=
  match matchDeclaration "package" content with
  | Some (cap, _) => cap
  | None =>
      match content with
      | String _ rest => extractPackage rest
      | EmptyString => ""
      end
  end.

(** [skip] counts the characters left of the previous match. *)
Fixpoint importsFrom (skip : nat) (content : string) : list string :=
  match content with
  | EmptyString => []
  | String _ rest =>
      match skip with
      | S k => importsFrom k rest
      | O =>
          match matchDeclaration "import" content with
          | Some (cap, len) => cap :: importsFrom (len - 1) rest
          | None => importsFrom 0 rest
          end
      end
  end.

Definition extractImports (content : string) : list string := importsFrom 0 content.

(** *** Enumerations *)

(** The body of the callback of [extractEnumInfo]; [values] is the array
    it pushes to. *)
Definition enumConstantCallback (content : string)
    (_ : list SyntaxNode) (child : SyntaxNode) (values : list EnumValue.t)
    : list EnumValue.t :=
  if hasType "enum_constant" child then
    let name := getNodeText (childForFieldName child "name") content in
    if Js.truthy name then
      let index := Z.of_nat (length values) in
      let value :=
        match childForFieldName child "arguments" with
        | Some args =>
            match namedChildren args with
            | firstArg :: _ =>
                match Js.parseInt (getNodeText (Some firstArg) content) with
                | Some parsed => parsed
                | None => index
                end
            | [] => index
            end
        | None => index
        end in
      values ++ [EnumValue.mk name value]
    else values
  else values.

Definition extractEnumInfo (parents : list SyntaxNode) (node : SyntaxNode)
    (content category relPath : string) : option EnumInfo.t :=
  let enumName := getNodeText (childForFieldName node "name") content in
  if negb (Js.truthy enumName) then None
  else
    let packageName := extractPackage content in
    let values :=
      match childForFieldName node "body" with
      | Some body => traverseTree (enumConstantCallback content) (node :: parents) body []
      | None => []
      end in
    Some (EnumInfo.mk enumName packageName category relPath values).

(** *** Fields *)

Definition extractFieldInfo (node : SyntaxNode) (content : string) : option FieldInfo.t :=
  match childForFieldName node "type",
        List.find (hasType "variable_declarator") (children node) with
  | Some typeNode, Some declarator =>
      let name := getNodeText (childForFieldName declarator "name") content in
      let javaType := getNodeText (Some typeNode) content in
      if negb (Js.truthy name) || negb (Js.truthy javaType) then None
      else
        let nullable := Js.includes (modifiersText node content) "@Nullable" in
        Some (FieldInfo.fresh name javaType nullable)
  | _, _ => None
  end.

Definition isParameter (p : SyntaxNode) : bool :=
  hasType "formal_parameter" p || hasType "spread_parameter" p.

(** [params.namedChildren.filter(...).length] *)
Definition paramCount (params : SyntaxNode) : nat :=
  length (List.filter isParameter (namedChildren params)).

(** The test that makes the callback return early on a copy
    constructor. *)
Definition isCopyConstructor (content : string) (parents : list SyntaxNode)
    (params : SyntaxNode) : bool :=
  if (paramCount params =? 1)%nat then
    match List.find (hasType "formal_parameter") (namedChildren params) with
    | Some firstParam =>
        let paramType := getNodeText (childForFieldName firstParam "type") content in
        match findParentClass parents with
        | Some parentClass =>
            let className := getNodeText (childForFieldName parentClass "name") content in
            String.eqb paramType className
        | None => false
        end
    | None => false
    end
  else false.

(** The callback of [extractFieldsFromConstructor]; the state is the pair
    of [bestConstructor] and [maxParams]. *)
Definition constructorCallback (content : string)
    (parents : list SyntaxNode) (child : SyntaxNode)
    (st : option SyntaxNode * nat) : option SyntaxNode * nat :=
  if hasType "constructor_declaration" child then
    match childForFieldName child "parameters" with
    | Some params =>
        if isCopyConstructor content parents params then st
        else if (snd st <? paramCount params)%nat then (Some child, paramCount params)
        else st
    | None => st
    end
  else st.

(** The loop that turns the parameters of the chosen constructor into
    fields. *)
Definition parameterField (content : string) (param : SyntaxNode) : option FieldInfo.t :=
  if hasType "formal_parameter" param then
    match childForFieldName param "type", childForFieldName param "name" with
    | Some typeNode, Some nameNode =>
        let javaType := getNodeText (Some typeNode) content in
        let name := getNodeText (Some nameNode) content in
        let nullable := Js.includes (modifiersText param content) "@Nullable" in
        Some (FieldInfo.fresh name javaType nullable)
    | _, _ => None
    end
  else None.

Definition extractFieldsFromConstructor (parents : list SyntaxNode)
    (body : SyntaxNode) (content : string) : list FieldInfo.t :=
  match fst (traverseTree (constructorCallback content) parents body (None, 0%nat)) with
  | None => []
  | Some bestConstructor =>
      match childForFieldName bestConstructor "parameters" with
      | None => []
      | Some params =>
          fold_left
            (fun fields param =>
               match parameterField content param with
               | Some f => fields ++ [f]
               | None => fields
               end)
            (namedChildren params) []
      end
  end.

(** The callback of the fall-back loop of [extractFields]. *)
Definition fieldDeclarationCallback (content : string)
    (_ : list SyntaxNode) (child : SyntaxNode) (packet : PacketInfo.t) : PacketInfo.t :=
  if hasType "field_declaration" child then
    if Js.includes (modifiersText child content) "static" then packet
    else
      match extractFieldInfo child content with
      | Some fieldInfo =>
          PacketInfo.set_fields (PacketInfo.fields packet ++ [fieldInfo]) packet
      | None => packet
      end
  else packet.

Definition extractFields (parents : list SyntaxNode) (node : SyntaxNode)
    (content : string) (packet : PacketInfo.t) : PacketInfo.t :=
  match childForFieldName node "body" with
  | None => packet
  | Some body =>
      let constructorFields := extractFieldsFromConstructor (node :: parents) body content in
      if (0 <? length constructorFields)%nat then
        PacketInfo.set_fields constructorFields packet
      else
        traverseTree (fieldDeclarationCallback content) (node :: parents) body packet
  end.

(** *** Layout constants *)

(** The chain of assignments on the name of a numeric constant. *)
Definition assignNumeric (name : string) (numValue : Z) (packet : PacketInfo.t)
    : PacketInfo.t :=
  if String.eqb name "PACKET_ID" then PacketInfo.set_packetId numValue packet
  else if String.eqb name "NULLABLE_BIT_FIELD_SIZE" then
    PacketInfo.set_nullableBitFieldSize numValue packet
  else if String.eqb name "FIXED_BLOCK_SIZE" then PacketInfo.set_fixedBlockSize numValue packet
  else if String.eqb name "VARIABLE_FIELD_COUNT" then
    PacketInfo.set_variableFieldCount numValue packet
  else if String.eqb name "VARIABLE_BLOCK_START" then
    PacketInfo.set_variableBlockStart numValue packet
  else if String.eqb name "MAX_SIZE" then PacketInfo.set_maxSize numValue packet
  else packet.

(** What the callback does once [name] and [value] are both non-empty. *)
Definition assignConstant (name value : string) (packet : PacketInfo.t) : PacketInfo.t :=
  if String.eqb name "IS_COMPRESSED" then
    PacketInfo.set_isCompressed (String.eqb value "true") packet
  else
    match Js.parseInt value with
    | Some numValue => assignNumeric name numValue packet
    | None => packet
    end.

(** The [name] and [value] texts the callback of [extractConstants] reads
    off a node: present for a [static final] field declaration whose
    first declarator has both. *)
Definition constantDeclaration (content : string) (child : SyntaxNode)
    : option (string * string) :=
  if hasType "field_declaration" child then
    let modText := modifiersText child content in
    if Js.includes modText "static" && Js.includes modText "final" then
      match List.find (hasType "variable_declarator") (children child) with
      | Some declarator =>
          let name := getNodeText (childForFieldName declarator "name") content in
          let value := getNodeText (childForFieldName declarator "value") content in
          if Js.truthy name && Js.truthy value then Some (name, value) else None
      | None => None
      end
    else None
  else None.

Definition constantCallback (content : string)
    (_ : list SyntaxNode) (child : SyntaxNode) (packet : PacketInfo.t) : PacketInfo.t :=
  match constantDeclaration content child with
  | Some (name, value) => assignConstant name value packet
  | None => packet
  end.

Definition extractConstants (parents : list SyntaxNode) (node : SyntaxNode)
    (content : string) (packet : PacketInfo.t) : PacketInfo.t :=
  match childForFieldName node "body" with
  | None => packet
  | Some body => traverseTree (constantCallback content) (node :: parents) body packet
  end.

Section WithExternals.
Context {ext : Externals}.

(** *** The deserialize method and its context *)

Definition deserializeCallback (content : string)
    (_ : list SyntaxNode) (child : SyntaxNode) (found : option SyntaxNode)
    : option SyntaxNode :=
  if hasType "method_declaration" child then
    if String.eqb (getNodeText (childForFieldName child "name") content) "deserialize"
    then Some child else found
  else found.

Definition extractLayout (parents : list SyntaxNode) (node : SyntaxNode)
    (content : string) (packet : PacketInfo.t) : PacketInfo.t :=
  match childForFieldName node "body" with
  | None => packet
  | Some body =>
      match traverseTree (deserializeCallback content) (node :: parents) body None with
      | Some deserializeMethod =>
          PacketInfo.set_deserializeContext
            (extractDeserializeContext node deserializeMethod content packet) packet
      | None => packet
      end
  end.

(** *** Packets *)

Definition extractPacketInfo (parents : list SyntaxNode) (node : SyntaxNode)
    (content category : string) : PacketInfo.t :=
  let className := Js.orElse (getNodeText (childForFieldName node "name") content) "Unknown" in
  let packageName := extractPackage content in
  let packet :=
    PacketInfo.mk className packageName category None false 0 0 0 0 0 []
      (extractImports content) false false None in
  let packet := extractConstants parents node content packet in
  let packet := extractFields parents node content packet in
  extractLayout parents node content packet.

Definition packetFileCallback (content category : string)
    (parents : list SyntaxNode) (node : SyntaxNode) (packetInfo : option PacketInfo.t)
    : option PacketInfo.t :=
  if hasType "class_declaration" node then
    if Js.truthy (getNodeText (childForFieldName node "name") content) then
      Some (extractPacketInfo parents node content category)
    else packetInfo
  else packetInfo.

(** [parsePacketFile]; [file] is what [readFileSync] finds at
    [filePath].  Every exception is caught and turned into [null]. *)
Definition parsePacketFile (file : option string) (relPath : string)
    : option PacketInfo.t :=
  match file with
  | None => None
  | Some content =>
      if (String.length (Js.trim content) =? 0)%nat then None
      else
        match parse content with
        | None => None
        | Some rootNode =>
            let category := Js.orElse (Js.replaceBackslashes relPath) "uncategorized" in
            traverseTree (packetFileCallback content category) [] rootNode None
        end
  end.

Definition addPacket (relPath : string) (packet : PacketInfo.t)
    (result : gmap string (list PacketInfo.t)) : gmap string (list PacketInfo.t) :=
  let category := Js.orElse (Js.replaceBackslashes relPath) "uncategorized" in
  let result := if decide (is_Some (result !! category)) then result
                else <[category := []]> result in
  <[category := default [] (result !! category) ++ [packet]]> result.

(** The body of the loop of [parsePacketDirectory] for one entry. *)
Fixpoint parsePacketEntry (pf : Platform) (entry : FsEntry) (relPath : string)
    (result : gmap string (list PacketInfo.t)) : gmap string (list PacketInfo.t) :=
  match entry with
  | Directory name entries =>
      (fix each (es : list FsEntry) (result : gmap string (list PacketInfo.t)) :=
         match es with
         | [] => result
         | e :: rest => each rest (parsePacketEntry pf e (join pf relPath name) result)
         end) entries result
  | File name content =>
      if Js.endsWith name ".java" then
        match parsePacketFile content relPath with
        | Some packet => addPacket relPath packet result
        | None => result
        end
      else result
  end.

Definition parsePacketDirectory (pf : Platform) (entries : list FsEntry)
    (relPath : string) (result : gmap string (list PacketInfo.t))
    : gmap string (list PacketInfo.t) :=
  fold_left (fun result entry => parsePacketEntry pf entry relPath result) entries result.

(** *** Enumerations and data classes outside the packets directory *)

Definition fieldInfoCallback (content : string)
    (_ : list SyntaxNode) (child : SyntaxNode) (fields : list FieldInfo.t)
    : list FieldInfo.t :=
  if hasType "field_declaration" child then
    match extractFieldInfo child content with
    | Some fieldInfo => fields ++ [fieldInfo]
    | None => fields
    end
  else fields.

Definition extractDataClassInfo (parents : list SyntaxNode) (node : SyntaxNode)
    (content category relPath : string) : option DataClassInfo.t :=
  let className := getNodeText (childForFieldName node "name") content in
  if negb (Js.truthy className) then None
  else
    let fields :=
      match childForFieldName node "body" with
      | Some body => traverseTree (fieldInfoCallback content) (node :: parents) body []
      | None => []
      end in
    Some (DataClassInfo.mk className (extractPackage content) category relPath fields
            (extractImports content)).

(** The two maps the parser object owns: [this.enums] and
    [this.dataClasses]. *)
Record Maps : Type := mkMaps {
  enums : gmap string EnumInfo.t;
  dataClasses : gmap string DataClassInfo.t
}.

Definition entityFileCallback (content category relPath : string)
    (parents : list SyntaxNode) (node : SyntaxNode) (this : Maps) : Maps :=
  if hasType "enum_declaration" node then
    match extractEnumInfo parents node content category relPath with
    | Some enumInfo => mkMaps (<[EnumInfo.name enumInfo := enumInfo]> (enums this)) (dataClasses this)
    | None => this
    end
  else if hasType "class_declaration" node then
    match extractDataClassInfo parents node content category relPath with
    | Some dataClassInfo =>
        if negb (Js.includes (DataClassInfo.name dataClassInfo) "Packet") then
          mkMaps (enums this)
            (<[DataClassInfo.name dataClassInfo := dataClassInfo]> (dataClasses this))
        else this
    | None => this
    end
  else this.

Definition parseEntityFile (file : option string) (relPath : string) (this : Maps) : Maps :=
  match file with
  | None => this
  | Some content =>
      if (String.length (Js.trim content) =? 0)%nat then this
      else
        match parse content with
        | None => this
        | Some rootNode =>
            let category := Js.orElse (Js.replaceBackslashes relPath) "root" in
            traverseTree (entityFileCallback content category relPath) [] rootNode this
        end
  end.

Fixpoint parseEntityEntry (pf : Platform) (entry : FsEntry) (relPath : string)
    (this : Maps) : Maps :=
  match entry with
  | Directory name entries =>
      if String.eqb name "packets" then this
      else
        (fix each (es : list FsEntry) (this : Maps) :=
           match es with
           | [] => this
           | e :: rest => each rest (parseEntityEntry pf e (join pf relPath name) this)
           end) entries this
  | File name content =>
      if Js.endsWith name ".java" then parseEntityFile content relPath this else this
  end.

Definition parseEntityDirectory (pf : Platform) (entries : list FsEntry)
    (relPath : string) (this : Maps) : Maps :=
  fold_left (fun this entry => parseEntityEntry pf entry relPath this) entries this.

(** *** The second pass: enumerations next to the packets *)

Definition enumsFileCallback (content category relPath : string)
    (parents : list SyntaxNode) (node : SyntaxNode) (this : Maps) : Maps :=
  if hasType "enum_declaration" node then
    match extractEnumInfo parents node content category relPath with
    | Some enumInfo =>
        if negb (bool_decide (is_Some (enums this !! EnumInfo.name enumInfo))) then
          mkMaps (<[EnumInfo.name enumInfo := enumInfo]> (enums this)) (dataClasses this)
        else this
    | None => this
    end
  else this.

Definition parseEnumsFromFile (file : option string) (relPath : string) (this : Maps) : Maps :=
  match file with
  | None => this
  | Some content =>
      if (String.length (Js.trim content) =? 0)%nat then this
      else
        match parse content with
        | None => this
        | Some rootNode =>
            let category := Js.orElse (Js.replaceBackslashes relPath) "root" in
            traverseTree (enumsFileCallback content category relPath) [] rootNode this
        end
  end.

Fixpoint parseEnumsFromPacketsEntry (pf : Platform) (entry : FsEntry) (relPath : string)
    (this : Maps) : Maps :=
  match entry with
  | Directory name entries =>
      (fix each (es : list FsEntry) (this : Maps) :=
         match es with
         | [] => this
         | e :: rest => each rest (parseEnumsFromPacketsEntry pf e (join pf relPath name) this)
         end) entries this
  | File name content =>
      if Js.endsWith name ".java" then parseEnumsFromFile content relPath this else this
  end.

Definition parseEnumsFromPacketsDirectory (pf : Platform) (entries : list FsEntry)
    (relPath : string) (this : Maps) : Maps :=
  fold_left (fun this entry => parseEnumsFromPacketsEntry pf entry relPath this) entries this.

(** *** [parseAll] *)

(** [readdirSync(this.packetsDir)]: the entries of the directory
    [packets] directly under the protocol directory; [None] when there
    is no such directory and [readdirSync] throws. *)
Definition packetsDir (root : list FsEntry) : option (list FsEntry) :=
  match List.find (fun e => match e with
                            | Directory name _ => String.eqb name "packets"
                            | File name _ => String.eqb name "packets"
                            end) root with
  | Some (Directory _ entries) => Some entries
  | _ => None
  end.

(** [parseAll] on a parser constructed for a protocol directory with the
    entries [root]; [None] when an exception escapes. *)
Definition parseAll (pf : Platform) (root : list FsEntry) : option ParsedResults.t :=
  let this := parseEntityDirectory pf root "" (mkMaps ∅ ∅) in
  match packetsDir root with
  | None => None
  | Some packets =>
      let packetsByCategory := parsePacketDirectory pf packets "" ∅ in
      let this := parseEnumsFromPacketsDirectory pf packets "" this in
      Some (ParsedResults.mk packetsByCategory (enums this) (dataClasses this))
  end.

End WithExternals.

End Parser.

(** ** [layout-analyzer.ts] *)

(** The objects the zod schemas [FieldLayoutSchema], [NullBitMappingEntry]
    and [LayoutAnalysisSchema] accept: [z.number().int()] is an integer,
    [.nullable()] an option. *)
Module FieldLayoutSchema.
Record t : Type := mk {
  name : string;
  wireOffset : Z;
  wireSize : Z;
  encoding : string;
  isVariable : bool;
  nullBit : option Z;
  notes : option string
}.
End FieldLayoutSchema.

Module NullBitMappingEntry.
Record t : Type := mk { bit : string; fieldName : string }.
End NullBitMappingEntry.

Module LayoutAnalysisSchema.
Record t : Type := mk {
  fields : list FieldLayoutSchema.t;
  totalFixedSize : Z;
  hasVariableSection : bool;
  variableSectionStart : option Z;
  nullBitMappings : list NullBitMappingEntry.t;
  notes : option string
}.
End LayoutAnalysisSchema.

Module FieldLayoutInfo.
Record t : Type := mk {
  name : string;
  wireOffset : option Z;
  wireSize : option Z;
  encoding : string;
  isVariable : bool;
  nullBit : option Z;
  notes : option string
}.
End FieldLayoutInfo.

Module LayoutAnalysis.
Record t : Type := mk {
  packetName : string;
  fields : list FieldLayoutInfo.t;
  totalFixedSize : Z;
  hasVariableSection : bool;
  variableSectionStart : option Z;
  nullBitMapping : option (gmap string string);
  notes : option string
}.
End LayoutAnalysis.

Module Analyzer.

(** *** Asynchronous computations that may throw *)

(** How a call ends: it returns a value or throws (a promise resolves or
    rejects). *)
Inductive Outcome (A : Type) : Type :=
| Returned (a : A)
| Thrown (error : string).
Arguments Returned {A} a.
Arguments Thrown {A} error.

(** The only effect of the analyzer on the outside is its calls of
    [generateText]; the state is the list of the prompts of these calls,
    in the order of the calls. *)
Definition Requests : Type := list string.

Definition Async (A : Type) : Type := Requests -> Outcome A * Requests.

Definition ret {A : Type} (a : A) : Async A := fun w => (Returned a, w).

Definition bind {A B : Type} (m : Async A) (k : A -> Async B) : Async B :=
  fun w =>
    match m w with
    | (Returned a, w') => k a w'
    | (Thrown e, w') => (Thrown e, w')
    end.

(** [try { m } catch (error) { handler }] *)
Definition tryCatch {A : Type} (m : Async A) (handler : string -> Async A) : Async A :=
  fun w =>
    match m w with
    | (Returned a, w') => (Returned a, w')
    | (Thrown e, w') => handler e w'
    end.

(** [Promise.all]: every member runs (the members are started in order,
    which fixes the order of their requests); the result rejects with the
    first rejection, and otherwise holds the values in the order of the
    members. *)
Fixpoint promiseAll {A : Type} (members : list (Async A)) : Async (list A) :=
  match members with
  | [] => ret []
  | m :: rest =>
      fun w =>
        let '(o, w1) := m w in
        let '(os, w2) := promiseAll rest w1 in
        (match o, os with
         | Thrown e, _ => Thrown e
         | Returned _, Thrown e => Thrown e
         | Returned a, Returned l => Returned (a :: l)
         end, w2)
  end.

(** *** The inference service *)

(** How one call of [generateText] with [Output.object] ends: it rejects
    (transport error, or a response that does not validate against the
    schema), or it resolves, with or without a structured output.  This is
    the end of the call as the analyzer sees it, after whatever the SDK
    does on its own behind the call. *)
Inductive Response : Type :=
| Rejects (message : string)
| Resolves (output : option LayoutAnalysisSchema.t).

(** The analyzer object: the service behind [this.openrouter(this.model)],
    which tells how the [n]-th call of [generateText] ends by looking at
    its prompt, and [this.maxConcurrency]. *)
Record LayoutAnalyzer : Type := mkAnalyzer {
  service : nat -> string -> Response;
  maxConcurrency : Z
}.

(** The constructor: [options.maxConcurrency || 5]. *)
Definition new (service : nat -> string -> Response) (maxConcurrency : option Z)
    : LayoutAnalyzer :=
  mkAnalyzer service
    (match maxConcurrency with
     | Some k => if (k =? 0)%Z then 5%Z else k
     | None => 5%Z
     end).

Definition generateText (this : LayoutAnalyzer) (prompt : string)
    : Async (option LayoutAnalysisSchema.t) :=
  fun w =>
    (match service this (length w) prompt with
     | Rejects message => Thrown message
     | Resolves output => Returned output
     end, w ++ [prompt]).

(** The requests on the wire.  The source hands [generateText] no
    [maxRetries], so the SDK applies its own policy and may send the
    request of one call again after a failure that it takes to be
    transient.  [resends n prompt] is the number of times the SDK sends the
    request of the [n]-th call again; the analyzer neither sets nor sees
    it. *)
Definition Resends : Type := nat -> string -> nat.

Definition wire (resends : Resends) (calls : Requests) : list string :=
  concat (imap (fun n prompt => repeat prompt (S (resends n prompt))) calls).

(** *** [normalizeLayout] *)

Definition normalizeField (field : FieldLayoutSchema.t) : FieldLayoutInfo.t :=
  FieldLayoutInfo.mk
    (FieldLayoutSchema.name field)
    (Some (FieldLayoutSchema.wireOffset field))
    (Some (FieldLayoutSchema.wireSize field))
    (FieldLayoutSchema.encoding field)
    (FieldLayoutSchema.isVariable field)
    (FieldLayoutSchema.nullBit field)
    (FieldLayoutSchema.notes field).

(** [object[key] = value] for a string [value] on an object made by the
    literal [{}]; the map holds the own properties of the object.  The
    assignment adds or replaces the own property [key], except for the key
    [__proto__]: there it reaches the setter that [Object.prototype]
    defines, and the setter ignores a value that is not an object, so the
    object stays as it is. *)
Definition assignProperty (key value : string) (object : gmap string string)
    : gmap string string :=
  if String.eqb key "__proto__" then object else <[key := value]> object.

Definition normalizeLayout (parsed : LayoutAnalysisSchema.t) (packet : PacketInfo.t)
    : LayoutAnalysis.t :=
  let fields := map normalizeField (LayoutAnalysisSchema.fields parsed) in
  let nullBitMapping :=
    if (0 <? length (LayoutAnalysisSchema.nullBitMappings parsed))%nat then
      Some (fold_left
              (fun (m : gmap string string) entry =>
                 assignProperty (NullBitMappingEntry.bit entry)
                   (NullBitMappingEntry.fieldName entry) m)
              (LayoutAnalysisSchema.nullBitMappings parsed) ∅)
    else None in
  LayoutAnalysis.mk
    (PacketInfo.name packet)
    fields
    (LayoutAnalysisSchema.totalFixedSize parsed)
    (LayoutAnalysisSchema.hasVariableSection parsed)
    (LayoutAnalysisSchema.variableSectionStart parsed)
    nullBitMapping
    (LayoutAnalysisSchema.notes parsed).

(** *** [analyzePacket] *)

(** Truthiness of [packet.deserializeContext]: present and not empty. *)
Definition hasContext (packet : PacketInfo.t) : bool :=
  match PacketInfo.deserializeContext packet with
  | Some context => Js.truthy context
  | None => false
  end.

Definition analyzePacket (this : LayoutAnalyzer) (packet : PacketInfo.t)
    : Async (option LayoutAnalysis.t) :=
  if negb (hasContext packet) then ret None
  else
    tryCatch
      (bind (generateText this (default "" (PacketInfo.deserializeContext packet)))
         (fun output =>
            match output with
            | None => ret None
            | Some parsed => ret (Some (normalizeLayout parsed packet))
            end))
      (fun error => ret None).

(** *** [analyzePackets] *)

(** [queue.splice(0, k)]: the removed elements and what is left; a
    negative count removes nothing. *)
Definition splice0 {A : Type} (queue : list A) (k : Z) : list A * list A :=
  (firstn (Z.to_nat k) queue, skipn (Z.to_nat k) queue).

(** The function mapped over a batch. *)
Definition analyzeMember (this : LayoutAnalyzer) (packet : PacketInfo.t)
    : Async (string * option LayoutAnalysis.t) :=
  bind (analyzePacket this packet)
    (fun layout => ret (PacketInfo.name packet, layout)).

(** The [for] loop that merges the results of a batch. *)
Definition mergeBatch (batchResults : list (string * option LayoutAnalysis.t))
    (results : gmap string LayoutAnalysis.t) : gmap string LayoutAnalysis.t :=
  fold_left
    (fun results '(name, layout) =>
       match layout with
       | Some l => <[name := l]> results
       | None => results
       end)
    batchResults results.

(** The [while] loop.  The loop of the source need not terminate, so the
    model counts iterations down from [fuel] and answers [None] when they
    are used up.  Next to the map it returns the successive values of
    [batch], one for each iteration: the groups of calls that ran
    concurrently. *)
Fixpoint drain (fuel : nat) (this : LayoutAnalyzer) (queue : list PacketInfo.t)
    (results : gmap string LayoutAnalysis.t) (batches : list (list PacketInfo.t))
    : Async (option (gmap string LayoutAnalysis.t * list (list PacketInfo.t))) :=
  match queue with
  | [] => ret (Some (results, batches))
  | _ :: _ =>
      match fuel with
      | O => ret None
      | S fuel' =>
          let '(batch, queue') := splice0 queue (maxConcurrency this) in
          bind (promiseAll (map (analyzeMember this) batch))
            (fun batchResults =>
               drain fuel' this queue' (mergeBatch batchResults results)
                 (batches ++ [batch]))
      end
  end.

Definition analyzePackets (fuel : nat) (this : LayoutAnalyzer) (packets : list PacketInfo.t)
    : Async (option (gmap string LayoutAnalysis.t * list (list PacketInfo.t))) :=
  let queue := List.filter hasContext packets in
  drain fuel this queue ∅ [].

End Analyzer.

(** ** [parser.ts]: the context bundler *)

(** The methods of [JavaProtocolParser] that assemble the text handed to
    the inference service.  A [Set<string>] is a list without repetition
    in the order of insertion, which is the order [Array.from] reads it
    in. *)
Module Bundler.

(** [set.add(x)] *)
Definition add (x : string) (set : list string) : list string :=
  if existsb (String.eqb x) set then set else (set ++ [x])%list.

(** [set.has(x)] *)
Definition has (x : string) (set : list string) : bool := existsb (String.eqb x) set.

(** [parts.join(sep)] *)
Definition joinWith (sep : string) (parts : list string) : string := String.concat sep parts.

(** [getMethodName]: the text of the [name] child, else of the [field] of
    an [object] that is a field access, else [null]. *)
Definition getMethodName (node : SyntaxNode) (content : string) : option string :=
  match childForFieldName node "name" with
  | Some nameNode => Some (getNodeText (Some nameNode) content)
  | None =>
      match childForFieldName node "object" with
      | Some objectNode =>
          if hasType "field_access" objectNode then
            match childForFieldName objectNode "field" with
            | Some fieldNode => Some (getNodeText (Some fieldNode) content)
            | None => None
            end
          else None
      | None => None
      end
  end.

(** Truthiness of a [string | null]. *)
Definition truthyName (name : option string) : bool :=
  match name with Some s => Js.truthy s | None => false end.

Definition relevantNames : list string :=
  [ "PACKET_ID"; "IS_COMPRESSED"; "NULLABLE_BIT_FIELD_SIZE";
    "FIXED_BLOCK_SIZE"; "VARIABLE_FIELD_COUNT"; "VARIABLE_BLOCK_START"; "MAX_SIZE" ].

(** The callback of [extractRelevantConstants]. *)
Definition relevantConstantCallback (content : string)
    (_ : list SyntaxNode) (child : SyntaxNode) (constants : list string) : list string :=
  if hasType "field_declaration" child then
    let modText := modifiersText child content in
    if Js.includes modText "static" && Js.includes modText "final" then
      match List.find (hasType "variable_declarator") (children child) with
      | Some declarator =>
          let name := getNodeText (childForFieldName declarator "name") content in
          if Js.truthy name && existsb (String.eqb name) relevantNames then
            (constants ++ [Js.trim (getNodeText (Some child) content)])%list
          else constants
      | None => constants
      end
    else constants
  else constants.

Definition extractRelevantConstants (parents : list SyntaxNode) (body : SyntaxNode)
    (content : string) : list string :=
  traverseTree (relevantConstantCallback content) parents body [].

(** The first callback of [extractStaticMethods]: the names called inside
    the deserialize method. *)
Definition calledMethodCallback (content : string)
    (_ : list SyntaxNode) (node : SyntaxNode) (calledMethods : list string) : list string :=
  if hasType "method_invocation" node then
    match getMethodName node content with
    | Some methodName => if Js.truthy methodName then add methodName calledMethods
                         else calledMethods
    | None => calledMethods
    end
  else calledMethods.

(** The second callback of [extractStaticMethods]. *)
Definition staticMethodCallback (content : string) (calledMethods : list string)
    (_ : list SyntaxNode) (child : SyntaxNode) (methods : list string) : list string :=
  if hasType "method_declaration" child then
    if Js.includes (modifiersText child content) "static" then
      let methodName := getNodeText (childForFieldName child "name") content in
      if Js.truthy methodName
         && (has methodName calledMethods
             || String.eqb methodName "computeBytesConsumed"
             || String.eqb methodName "validateStructure")
      then (methods ++ [getNodeText (Some child) content])%list
      else methods
    else methods
  else methods.

Definition extractStaticMethods (parents : list SyntaxNode) (body : SyntaxNode)
    (content : string) (methodParents : list SyntaxNode) (deserializeMethod : SyntaxNode)
    : list string :=
  let calledMethods :=
    traverseTree (calledMethodCallback content) methodParents deserializeMethod [] in
  traverseTree (staticMethodCallback content calledMethods) parents body [].

(** The callback that collects the external dependencies; the state is the
    pair of [referencedMethods] and [referencedTypes]. *)
Definition dependencyCallback (content : string)
    (_ : list SyntaxNode) (node : SyntaxNode) (st : list string * list string)
    : list string * list string :=
  if hasType "method_invocation" node then
    match getMethodName node content with
    | Some methodName =>
        if Js.truthy methodName then
          let objectNode := childForFieldName node "object" in
          let st :=
            match objectNode with
            | Some o => (add (getNodeText (Some o) content ++ "." ++ methodName) (fst st), snd st)
            | None => st
            end in
          if String.eqb methodName "deserialize" || String.eqb methodName "fromValue" then
            match objectNode with
            | Some o => (fst st, add (getNodeText (Some o) content) (snd st))
            | None => st
            end
          else st
        else st
    | None => st
    end
  else st.

(** The sets [referencedMethods] and [referencedTypes] after the walk of
    the deserialize method. *)
Definition referenced (content : string) (deserializeMethod : SyntaxNode)
    : list string * list string :=
  traverseTree (dependencyCallback content) [] deserializeMethod ([], []).

(** The line written for a field. *)
Definition fieldLine (field : FieldInfo.t) : string :=
  (if FieldInfo.nullable field then "@Nullable " else "@Nonnull ")
  ++ FieldInfo.javaType field ++ " " ++ FieldInfo.name field ++ ";".

(** The fixed glossary that ends every context. *)
Definition glossary : list string :=
  [ "// === COMMON PACKETIO METHODS REFERENCE ===";
    "// PacketIO.readFixedAsciiString(buf, offset, length) - reads fixed-length ASCII string";
    "// PacketIO.readVarString(buf, pos, charset) - reads variable-length string with VarInt prefix";
    "// PacketIO.readVarAsciiString(buf, pos, maxLen) - reads variable ASCII string";
    "// PacketIO.readUUID(buf, offset) - reads 16-byte UUID";
    "// VarInt.peek(buf, pos) - reads VarInt value without advancing";
    "// VarInt.length(buf, pos) - gets byte length of VarInt at position";
    "// buf.getByte(offset) - reads 1 byte";
    "// buf.getIntLE(offset) - reads 4-byte little-endian int";
    "// buf.getLongLE(offset) - reads 8-byte little-endian long";
    "// buf.getShortLE(offset) - reads 2-byte little-endian short" ].

(** The array [contextParts] when [extractDeserializeContext] joins it.
    The callbacks do not look at the ancestors of the nodes they visit, so
    the walks below the class body and the method start without any. *)
Definition contextParts (classNode deserializeMethod : SyntaxNode) (content : string)
    (packet : PacketInfo.t) : list string :=
  let className := getNodeText (childForFieldName classNode "name") content in
  let body := childForFieldName classNode "body" in
  let header :=
    [ ("// Packet: " ++ className)%string;
      ("// Package: " ++ PacketInfo.package packet)%string; "" ] in
  let constants :=
    match body with
    | Some b =>
        let constants := extractRelevantConstants [] b content in
        if (0 <? length constants)%nat
        then ([ "// === CONSTANTS ===" ] ++ constants ++ [ "" ])%list
        else []
    | None => []
    end in
  let fields :=
    ([ "// === FIELDS ===" ] ++ map fieldLine (PacketInfo.fields packet) ++ [ "" ])%list in
  let method :=
    [ "// === DESERIALIZE METHOD ==="; getNodeText (Some deserializeMethod) content; "" ] in
  let '(referencedMethods, referencedTypes) := referenced content deserializeMethod in
  let helpers :=
    match body with
    | Some b =>
        let staticMethods := extractStaticMethods [] b content [] deserializeMethod in
        if (0 <? length staticMethods)%nat
        then ([ "// === STATIC HELPER METHODS (same class) ===" ] ++ staticMethods ++ [ "" ])%list
        else []
    | None => []
    end in
  let dependencies :=
    if (0 <? length referencedMethods)%nat || (0 <? length referencedTypes)%nat then
      ([ "// === EXTERNAL DEPENDENCIES ===" ]
       ++ (if (0 <? length referencedMethods)%nat
           then [ ("// Methods used: " ++ joinWith ", " referencedMethods)%string ] else [])
       ++ (if (0 <? length referencedTypes)%nat
           then [ ("// Types referenced: " ++ joinWith ", " referencedTypes)%string ] else [])
       ++ [ "" ])%list
    else [] in
  (header ++ constants ++ fields ++ method ++ helpers ++ dependencies ++ glossary)%list.

(** [extractDeserializeContext] *)
Definition extractDeserializeContext (classNode deserializeMethod : SyntaxNode)
    (content : string) (packet : PacketInfo.t) : string :=
  joinWith (String (ascii_of_nat 10) "") (contextParts classNode deserializeMethod content packet).

(** The extractor with this bundler and a given parser. *)
Definition externals (parser : string -> option SyntaxNode) : Externals :=
  Build_Externals parser extractDeserializeContext.

End Bundler.

(** ** [wiki-generator.ts] and the main script: what the pages count and
    how they write a message identifier *)
Module Wiki.

(** [Array.from(packetsByCategory.values()).reduce((sum, pkts) => sum +
    pkts.length, 0)], the total the main script prints and
    [generateVersionHome] writes.  The sum does not depend on the order in
    which the map hands out its values. *)
Definition totalPackets (packetsByCategory : gmap string (list PacketInfo.t)) : nat :=
  map_fold (fun _ pkts sum => sum + length pkts) 0 packetsByCategory.

(** [packetId.toString(16).padStart(2, '0').toUpperCase()] *)
Definition hexId (packetId : Z) : string :=
  Js.toUpperCase (Js.padStart 2 "0" (Js.toStringHex packetId)).

(** The identifier cell of the packet index of [generateCategoryPage]. *)
Definition idCell (packet : PacketInfo.t) : string :=
  match PacketInfo.packetId packet with
  | Some packetId => "`0x" ++ hexId packetId ++ "`"
  | None => "-"
  end.

End Wiki.

(** ** The notions the specification uses, stated over the syntax tree *)

Module Spec.

(** The nodes below (and including) [node], in the order of a pre-order
    walk. *)
Definition nodes (parents : list SyntaxNode) (node : SyntaxNode) : list SyntaxNode :=
  map snd (preorder parents node).

(** The nodes of the body of a declaration; none when it has no body. *)
Definition bodyNodes (parents : list SyntaxNode) (node : SyntaxNode)
    : list (list SyntaxNode * SyntaxNode) :=
  match childForFieldName node "body" with
  | Some body => preorder (node :: parents) body
  | None => []
  end.

(** *** Numbers in the source text *)

(** A decimal digit, a text of decimal digits that is not empty, and the
    number such a text denotes in base 10. *)
Definition isDigit (c : ascii) : bool :=
  let n := nat_of_ascii c in ((48 <=? n) && (n <=? 57))%nat.

Definition isDecimal (s : string) : bool :=
  match s with
  | EmptyString => false
  | String _ _ => forallb isDigit (list_ascii_of_string s)
  end.

Definition decimalValue (s : string) : Z :=
  fold_left (fun acc c => (acc * 10 + (Z.of_nat (nat_of_ascii c) - 48))%Z)
    (list_ascii_of_string s) 0%Z.

(** A number that a JavaScript Number holds exactly whatever its digits:
    an integer of magnitude at most [2^53].  Nothing is asked of a number
    that is not there. *)
Definition safe (v : option Z) : Prop :=
  match v with
  | Some z => (Z.abs z <= 2 ^ 53)%Z
  | None => True
  end.

(** *** Enumerations *)

Definition constantName (content : string) (c : SyntaxNode) : string :=
  getNodeText (childForFieldName c "name") content.

(** The extracted constants of an enum declaration: the enum constants
    of its body that have a name, in declaration order. *)
Definition extractedConstants (content : string) (parents : list SyntaxNode)
    (node : SyntaxNode) : list SyntaxNode :=
  List.filter
    (fun c => hasType "enum_constant" c && Js.truthy (constantName content c))
    (map snd (bodyNodes parents node)).

(** The integer the first constructor argument of a constant parses to,
    when the constant has an argument list with a first argument, and
    that argument parses. *)
Definition literalArgument (content : string) (c : SyntaxNode) : option Z :=
  match childForFieldName c "arguments" with
  | Some args =>
      match namedChildren args with
      | firstArg :: _ => Js.parseInt (getNodeText (Some firstArg) content)
      | [] => None
      end
  | None => None
  end.

(** The value the specification gives the [i]-th extracted constant. *)
Definition declaredValue (content : string) (i : nat) (c : SyntaxNode) : EnumValue.t :=
  EnumValue.mk (constantName content c)
    (match literalArgument content c with
     | Some z => z
     | None => Z.of_nat i
     end).

(** The text of the first named child of the argument list of a
    constant, if the constant has an argument list with a named child.
    The syntax tree counts a comment as a named child. *)
Definition firstNamedArgument (content : string) (c : SyntaxNode) : option string :=
  match childForFieldName c "arguments" with
  | Some args =>
      match namedChildren args with
      | firstArg :: _ => Some (getNodeText (Some firstArg) content)
      | [] => None
      end
  | None => None
  end.

(** The claim in the words of the specification.  The first constructor
    argument of a constant is the first expression of its argument list
    (a comment is no argument); it is an integer literal when the tree
    calls it one.  The claim gives the [i]-th constant the integer of that
    literal (for a run of decimal digits: the number they denote), and the
    index [i] when there is no first argument or it is no integer
    literal. *)
Definition isComment (n : SyntaxNode) : bool :=
  hasType "block_comment" n || hasType "line_comment" n || hasType "comment" n.

Definition isIntegerLiteral (n : SyntaxNode) : bool :=
  hasType "decimal_integer_literal" n || hasType "hex_integer_literal" n
  || hasType "octal_integer_literal" n || hasType "binary_integer_literal" n.

Definition firstArgument (c : SyntaxNode) : option SyntaxNode :=
  match childForFieldName c "arguments" with
  | Some args => List.find (fun a => negb (isComment a)) (namedChildren args)
  | None => None
  end.

Definition claimedValue (content : string) (i : nat) (c : SyntaxNode) (value : Z) : Prop :=
  match firstArgument c with
  | Some a =>
      if isIntegerLiteral a then
        isDecimal (getNodeText (Some a) content) = true ->
        value = decimalValue (getNodeText (Some a) content)
      else value = Z.of_nat i
  | None => value = Z.of_nat i
  end.

(** *** Packet files *)

(** The class declarations of a file that have a name, each with its
    ancestors, in the order of the pre-order walk. *)
Definition classDeclarations (content : string) (rootNode : SyntaxNode)
    : list (list SyntaxNode * SyntaxNode) :=
  List.filter
    (fun pn => hasType "class_declaration" (snd pn)
               && Js.truthy (getNodeText (childForFieldName (snd pn) "name") content))
    (preorder [] rootNode).

(** *** Layout constants *)

(** A [static final] declaration: a field declaration whose modifiers,
    taken as text, contain the word [static] and the word [final]. *)
Definition isStaticFinal (content : string) (n : SyntaxNode) : bool :=
  hasType "field_declaration" n
  && Js.includes (modifiersText n content) "static"
  && Js.includes (modifiersText n content) "final".

(** The first declarator of a field declaration.  A declaration of
    several variables ([static final int A = 1, B = 2;]) has one
    declarator for each; only the first one is looked at. *)
Definition firstDeclarator (n : SyntaxNode) : option SyntaxNode :=
  List.find (hasType "variable_declarator") (children n).

(** The constant a node declares: for a [static final] declaration whose
    first declarator has a name and an initialiser, both not empty, the
    text of the name and the text of the initialiser. *)
Definition declaredConstant (content : string) (n : SyntaxNode) : option (string * string) :=
  if isStaticFinal content n then
    match firstDeclarator n with
    | Some declarator =>
        let name := getNodeText (childForFieldName declarator "name") content in
        let value := getNodeText (childForFieldName declarator "value") content in
        if String.eqb name "" || String.eqb value "" then None else Some (name, value)
    | None => None
    end
  else None.

(** The constants declared anywhere in the body of a class (the bodies of
    nested declarations included), as pairs of name and initialiser text,
    in declaration order. *)
Definition constantDeclarations (content : string) (parents : list SyntaxNode)
    (node : SyntaxNode) : list (string * string) :=
  omap (declaredConstant content) (map snd (bodyNodes parents node)).

(** The initialiser of a declaration as a number, when the declaration is
    called [name] and its initialiser parses. *)
Definition numericLiteral (name : string) (decl : string * string) : option Z :=
  if String.eqb (fst decl) name then Js.parseInt (snd decl) else None.

(** The initialiser of a declaration of [IS_COMPRESSED] as a flag. *)
Definition flagLiteral (decl : string * string) : option bool :=
  if String.eqb (fst decl) "IS_COMPRESSED" then Some (String.eqb (snd decl) "true") else None.

(** Whether a class declares the constant [name]. *)
Definition declares (name : string) (decls : list (string * string)) : bool :=
  existsb (fun decl => String.eqb (fst decl) name) decls.

(** The seven layout constants of a packet. *)
Definition constantsOf (p : PacketInfo.t)
    : option Z * bool * Z * Z * Z * Z * Z :=
  (PacketInfo.packetId p, PacketInfo.isCompressed p, PacketInfo.nullableBitFieldSize p,
 PacketInfo.fixedBlockSize p, PacketInfo.variableFieldCount p,
 PacketInfo.variableBlockStart p, PacketInfo.maxSize p).

(** *** Fields *)

Definition parametersOf (c : SyntaxNode) : option SyntaxNode :=
  childForFieldName c "parameters".

(** The parameter count of a constructor: its formal and its variadic
    parameters. *)
Definition parameterCount (c : SyntaxNode) : nat :=
  match parametersOf c with
  | Some params =>
      length (List.filter
                (fun p => hasType "formal_parameter" p || hasType "spread_parameter" p)
                (namedChildren params))
  | None => 0%nat
  end.

(** A copy constructor: a constructor with a single parameter whose type
    is the name of the class that encloses the constructor. *)
Definition isCopy (content : string) (pn : list SyntaxNode * SyntaxNode) : bool :=
  match parametersOf (snd pn) with
  | Some params => Parser.isCopyConstructor content (fst pn) params
  | None => false
  end.

(** A constructor with a parameter list that is not a copy constructor. *)
Definition isCandidate (content : string) (pn : list SyntaxNode * SyntaxNode) : bool :=
  hasType "constructor_declaration" (snd pn)
  && bool_decide (is_Some (parametersOf (snd pn)))
  && negb (isCopy content pn).

(** The non-copy constructors found in the body of a class, in the order
    of the walk. *)
Definition constructors (content : string) (parents : list SyntaxNode) (node : SyntaxNode)
    : list SyntaxNode :=
  map snd (List.filter (isCandidate content) (bodyNodes parents node)).

(** The fields a constructor gives: one for each formal parameter that has
    a type and a name, in the order of the parameter list.  A variadic
    parameter gives none. *)
Definition formalParameters (content : string) (c : SyntaxNode) : list FieldInfo.t :=
  match parametersOf c with
  | Some params => omap (Parser.parameterField content) (namedChildren params)
  | None => []
  end.

(** The names of the parameters of a constructor, in order: of the
    formal parameters and of a variadic parameter, whose name the syntax
    tree keeps in a declarator. *)
Definition parameterName (content : string) (p : SyntaxNode) : option string :=
  if hasType "formal_parameter" p then
    Some (getNodeText (childForFieldName p "name") content)
  else if hasType "spread_parameter" p then
    match List.find (hasType "variable_declarator") (children p) with
    | Some declarator => Some (getNodeText (childForFieldName declarator "name") content)
    | None => None
    end
  else None.

Definition parameterNames (content : string) (c : SyntaxNode) : list string :=
  match parametersOf c with
  | Some params => omap (parameterName content) (namedChildren params)
  | None => []
  end.

(** The field of a field declaration that is not static. *)
Definition instanceField (content : string) (n : SyntaxNode) : option FieldInfo.t :=
  if hasType "field_declaration" n && negb (Js.includes (modifiersText n content) "static")
  then Parser.extractFieldInfo n content
  else None.

(** The non-static field declarations of a class body, in declaration
    order. *)
Definition declaredFields (content : string) (parents : list SyntaxNode) (node : SyntaxNode)
    : list FieldInfo.t :=
  omap (instanceField content) (map snd (bodyNodes parents node)).

(** The comparison the constructor callback makes, on its own: a
    constructor replaces the best one so far when it has more parameters. *)
Definition keepFuller (st : option SyntaxNode * nat) (c : SyntaxNode)
    : option SyntaxNode * nat :=
  if (snd st <? parameterCount c)%nat then (Some c, parameterCount c) else st.

(** *** Directories and categories *)

(** The relative path the directory walks hand to the file parsers for a
    directory that is reached from the start of the walk, where the relative
    path is [base], through the directories [segments]. *)
Definition relPathFrom (pf : Platform) (base : string) (segments : list string) : string :=
  fold_left (Parser.join pf) segments base.

(** The [.java] files below an entry, each with the names of the
    directories that lead to it from the start of the walk and its content.
    The walk over the protocol entities skips every directory called
    [packets]. *)
Fixpoint filesOfEntry (skipPackets : bool) (segments : list string) (entry : FsEntry)
    : list (list string * option string) :=
  match entry with
  | File name content =>
    if Js.endsWith name ".java" then [(segments, content)] else []
  | Directory name entries =>
    if skipPackets && String.eqb name "packets" then []
    else
      (fix each (es : list FsEntry) : list (list string * option string) :=
         match es with
         | [] => []
         | e :: rest => filesOfEntry skipPackets (segments ++ [name]) e ++ each rest
         end) entries
  end.

Definition javaFiles (skipPackets : bool) (entries : list FsEntry)
    : list (list string * option string) :=
  flat_map (filesOfEntry skipPackets []) entries.

(** The category of a file in the directory [segments] below the scanned
    directory: the relative path with every backslash replaced by a slash, or
    [fallback] at the top level. *)
Definition categoryOf (fallback : string) (pf : Platform) (segments : list string) : string :=
  Js.orElse (Js.replaceBackslashes (relPathFrom pf "" segments)) fallback.

(** Lower case, as the specification asks of a category. *)
Definition toLowerCase (s : string) : string :=
  string_of_list_ascii
  (map (fun c => let n := nat_of_ascii c in
                 if ((65 <=? n) && (n <=? 90))%nat then ascii_of_nat (n + 32) else c)
     (list_ascii_of_string s)).

(** [e] is what [extractEnumInfo] makes of an enum declaration of the file
    [file], parsed with the relative path [relPath]. *)
Definition enumOfFile `{Externals} (file : option string) (relPath : string)
    (e : EnumInfo.t) : Prop :=
  exists content rootNode pn,
    file = Some content
    /\ parse content = Some rootNode
    /\ pn ∈ preorder [] rootNode
    /\ Parser.extractEnumInfo (fst pn) (snd pn) content
         (Js.orElse (Js.replaceBackslashes relPath) "root") relPath = Some e.

(** [d] is what [extractDataClassInfo] makes of a class declaration of the
    file [file], parsed with the relative path [relPath]. *)
Definition dataClassOfFile `{Externals} (file : option string) (relPath : string)
    (d : DataClassInfo.t) : Prop :=
  exists content rootNode pn,
    file = Some content
    /\ parse content = Some rootNode
    /\ pn ∈ preorder [] rootNode
    /\ Parser.extractDataClassInfo (fst pn) (snd pn) content
         (Js.orElse (Js.replaceBackslashes relPath) "root") relPath = Some d.

(** [d] is the data class of a class declaration of the file [file],
    parsed with the relative path [relPath]: a node of the syntax tree of
    the file that has the type [class_declaration], and what
    [extractDataClassInfo] makes of it. *)
Definition classOfFile `{Externals} (file : option string) (relPath : string)
    (d : DataClassInfo.t) : Prop :=
  exists content rootNode pn,
    file = Some content
    /\ parse content = Some rootNode
    /\ pn ∈ preorder [] rootNode
    /\ hasType "class_declaration" (snd pn) = true
    /\ Parser.extractDataClassInfo (fst pn) (snd pn) content
         (Js.orElse (Js.replaceBackslashes relPath) "root") relPath = Some d.

(** A text of ASCII characters only. *)
Definition isAscii (s : string) : bool :=
  forallb (fun c => (nat_of_ascii c <? 128)%nat) (list_ascii_of_string s).

(** A directory name that is not empty and has no backslash. *)
Definition plainName (s : string) : Prop :=
  s <> "" /\ Js.replaceBackslashes s = s.

(** *** The batch of inference requests *)

(** The prompt of a packet: its deserialization context. *)
Definition prompt (packet : PacketInfo.t) : string :=
  default "" (PacketInfo.deserializeContext packet).

(** What the inference yields for a packet whose request is the [n]-th one
    the service receives: a layout when the service resolves with a
    structured output, nothing when it rejects or has no output. *)
Definition answer (this : Analyzer.LayoutAnalyzer) (n : nat) (packet : PacketInfo.t)
    : option LayoutAnalysis.t :=
  match Analyzer.service this n (prompt packet) with
  | Analyzer.Rejects _ => None
  | Analyzer.Resolves None => None
  | Analyzer.Resolves (Some parsed) => Some (Analyzer.normalizeLayout parsed packet)
  end.

(** The names and answers of the packets of a queue whose first request is
    the [start]-th one. *)
Definition answers (this : Analyzer.LayoutAnalyzer) (start : nat) (queue : list PacketInfo.t)
    : list (string * option LayoutAnalysis.t) :=
  imap (fun i packet => (PacketInfo.name packet, answer this (start + i) packet)) queue.

(** [ceil(n / k)]: for a positive [k], the least [m] with [n <= m * k]. *)
Definition ceilDiv (n k : nat) : nat := ((n + k - 1) / k)%nat.

(** The layout a batch entry holds for the name [n], if any. *)
Definition layoutFor (n : string) (entry : string * option LayoutAnalysis.t)
    : option LayoutAnalysis.t :=
  if String.eqb (fst entry) n then snd entry else None.

(** A power of two: 1, 2, 4, 8, ... *)
Definition isPowerOfTwo (z : Z) : bool :=
  ((0 <? z)%Z && (Z.land z (z - 1) =? 0)%Z)%bool.

(** *** Further notions: the files a walk can use, and what it extracts *)

(** A file the parsers can use: it can be read, is not blank and parses. *)
Definition usable `{Externals} (file : option string) : bool :=
  match file with
  | Some content =>
      negb (String.length (Js.trim content) =? 0)%nat
      && bool_decide (is_Some (parse content))
  | None => false
  end.

(** The packets the [.java] files below the packets directory give, in the
    order of the walk. *)
Definition extractedPackets `{Externals} (pf : Platform) (packets : list FsEntry)
    : list PacketInfo.t :=
  omap (fun f => Parser.parsePacketFile (snd f) (relPathFrom pf "" (fst f)))
    (javaFiles false packets).

(** A declaration of a method named [deserialize]. *)
Definition isDeserialize (content : string) (n : SyntaxNode) : bool :=
  hasType "method_declaration" n
  && String.eqb (getNodeText (childForFieldName n "name") content) "deserialize".

(** The declarations of a method named [deserialize] anywhere in the body
    of a class, in the order of the walk. *)
Definition deserializeMethods (content : string) (parents : list SyntaxNode)
    (node : SyntaxNode) : list SyntaxNode :=
  List.filter (isDeserialize content) (map snd (bodyNodes parents node)).

(** The field name an entry of the response gives for the bit [b]. *)
Definition fieldForBit (b : string) (entry : NullBitMappingEntry.t) : option string :=
  if String.eqb (NullBitMappingEntry.bit entry) b
  then Some (NullBitMappingEntry.fieldName entry)
  else None.

(** *** Further notions: invariants of the maps, the lists and the scans *)

(** The entries of the two maps sit under their own name, which is not
    empty; no data class has [Packet] in its name. *)
Definition keyed (this : Parser.Maps) : Prop :=
  map_Forall (fun k e => EnumInfo.name e = k /\ k <> "") (Parser.enums this)
  /\ map_Forall (fun k d => DataClassInfo.name d = k /\ k <> ""
                            /\ Js.includes k "Packet" = false)
       (Parser.dataClasses this).

(** The list a category has after more packets were filed: what it had,
    followed by the new packets of that category. *)
Definition filed (before : option (list PacketInfo.t)) (new : list PacketInfo.t)
    : option (list PacketInfo.t) :=
  match before, new with
  | None, [] => None
  | _, _ => Some (default [] before ++ new)
  end.

(** What a match of the declaration pattern means for the text. *)
Definition declarationAt (kw capture s : string) : Prop :=
  exists ws rest,
    s = (kw ++ ws ++ capture ++ ";" ++ rest)%string
    /\ ws <> "" /\ forallb Js.isWhiteSpace (list_ascii_of_string ws) = true
    /\ capture <> "" /\ forallb Parser.isWordOrDot (list_ascii_of_string capture) = true.

(** What the walk of the deserialize method keeps true of the two sets. *)
Definition referencedInv (st : list string * list string) : Prop :=
  NoDup (fst st) /\ NoDup (snd st)
  /\ forall t, t ∈ snd st ->
       (t ++ ".deserialize")%string ∈ fst st \/ (t ++ ".fromValue")%string ∈ fst st.

End Spec.

(** ** Sample sources *)

Module Samples.

(** Places a node on the first occurrence of [text] in [content] at or
    after [from]. *)
Definition at_ (content : string) (from : nat) (text : string) : nat :=
  match String.index from text content with
  | Some i => i
  | None => 0%nat
  end.

Definition node (content : string) (from : nat) (type : string) (field : option string)
    (text : string) (children : list SyntaxNode) : SyntaxNode :=
  Node type (at_ content from text) (at_ content from text + String.length text)
    true field children.

Definition token (content : string) (from : nat) (text : string) : SyntaxNode :=
  Node text (at_ content from text) (at_ content from text + String.length text)
    false None [].

(** An enum with and without explicit values. *)
Definition colorSource : string :=
  "package proto; enum Color { RED, GREEN(5), BLUE, ALPHA(0x10, 2) }".

Definition colorEnum : SyntaxNode :=
  let c := colorSource in
  node c 0 "enum_declaration" None "enum Color { RED, GREEN(5), BLUE, ALPHA(0x10, 2) }"
    [ token c 0 "enum";
      node c 0 "identifier" (Some "name") "Color" [];
      node c 0 "enum_body" (Some "body") "{ RED, GREEN(5), BLUE, ALPHA(0x10, 2) }"
        [ token c 0 "{";
          node c 0 "enum_constant" None "RED"
            [ node c 0 "identifier" (Some "name") "RED" [] ];
          token c 0 ",";
          node c 0 "enum_constant" None "GREEN(5)"
            [ node c 0 "identifier" (Some "name") "GREEN" [];
              node c 0 "argument_list" (Some "arguments") "(5)"
                [ token c 0 "("; node c 0 "decimal_integer_literal" None "5" []; token c 0 ")" ] ];
          token c 0 ",";
          node c 0 "enum_constant" None "BLUE"
            [ node c 0 "identifier" (Some "name") "BLUE" [] ];
          token c 0 ",";
          node c 0 "enum_constant" None "ALPHA(0x10, 2)"
            [ node c 0 "identifier" (Some "name") "ALPHA" [];
              node c 0 "argument_list" (Some "arguments") "(0x10, 2)"
                [ token c 0 "("; node c 0 "hex_integer_literal" None "0x10" [];
                  token c 0 ","; node c 0 "decimal_integer_literal" None "2" [];
                  token c 0 ")" ] ];
          token c 0 "}" ] ].

Definition colorRoot : SyntaxNode :=
  let c := colorSource in
  node c 0 "program" None c
  [ node c 0 "package_declaration" None "package proto;" []; colorEnum ].

(** A second declaration of the enum [Color], as it could sit next to the
    packets. *)
Definition otherColorSource : string := "enum Color { CYAN }".

Definition otherColorRoot : SyntaxNode :=
  let c := otherColorSource in
  node c 0 "program" None c
  [ node c 0 "enum_declaration" None c
      [ token c 0 "enum";
        node c 0 "identifier" (Some "name") "Color" [];
        node c 0 "enum_body" (Some "body") "{ CYAN }"
          [ token c 0 "{";
            node c 0 "enum_constant" None "CYAN"
              [ node c 0 "identifier" (Some "name") "CYAN" [] ];
            token c 0 "}" ] ] ].

(** A packet file with a nested class. *)
Definition nestedSource : string :=
  "package proto.packets; public class Outer { public static class Inner { } }".

Definition nestedInner : SyntaxNode :=
  let c := nestedSource in
  node c 0 "class_declaration" None "public static class Inner { }"
    [ node c 0 "modifiers" None "public static" [];
      token c 30 "class";
      node c 0 "identifier" (Some "name") "Inner" [];
      node c 0 "class_body" (Some "body") "{ }" [] ].

Definition nestedOuter : SyntaxNode :=
  let c := nestedSource in
  node c 0 "class_declaration" None "public class Outer { public static class Inner { } }"
    [ node c 0 "modifiers" None "public" [];
      token c 0 "class";
      node c 0 "identifier" (Some "name") "Outer" [];
      node c 0 "class_body" (Some "body") "{ public static class Inner { } }"
        [ token c 0 "{"; nestedInner; token c 70 "}" ] ].

Definition nestedRoot : SyntaxNode :=
  let c := nestedSource in
  node c 0 "program" None c
    [ node c 0 "package_declaration" None "package proto.packets;" [];
      nestedOuter ].

(** A [static final] field declaration with an initialiser. *)
Definition constant (content text modifiers type name value : string) : SyntaxNode :=
  let s := at_ content 0 text in
  let v := at_ content s "=" in
  node content s "field_declaration" None text
  [ node content s "modifiers" None modifiers [];
    node content s "type_identifier" (Some "type") type [];
    node content s "variable_declarator" (Some "declarator") (name ++ " = " ++ value)
      [ node content s "identifier" (Some "name") name [];
        token content s "=";
        node content v "literal" (Some "value") value [] ];
    token content s ";" ].

(** A packet class that declares some layout constants but no
    [PACKET_ID]. *)
Definition pingBody : string :=
  "{ public static final int FIXED_BLOCK_SIZE = 9; public static final boolean IS_COMPRESSED = true; public static final int MAX_SIZE = 0x10; static final int FIXED_BLOCK_SIZE = 12; }".

Definition pingText : string := "public class Ping " ++ pingBody.

Definition pingSource : string :=
  "package proto.packets; import io.ByteBuf; " ++ pingText.

Definition pingClass : SyntaxNode :=
  let c := pingSource in
  node c 0 "class_declaration" None pingText
  [ node c 0 "modifiers" None "public" [];
    token c 0 "class";
    node c 0 "identifier" (Some "name") "Ping" [];
    node c 0 "class_body" (Some "body") pingBody
      [ token c 0 "{";
        constant c "public static final int FIXED_BLOCK_SIZE = 9;"
          "public static final" "int" "FIXED_BLOCK_SIZE" "9";
        constant c "public static final boolean IS_COMPRESSED = true;"
          "public static final" "boolean" "IS_COMPRESSED" "true";
        constant c "public static final int MAX_SIZE = 0x10;"
          "public static final" "int" "MAX_SIZE" "0x10";
        constant c "static final int FIXED_BLOCK_SIZE = 12;"
          "static final" "int" "FIXED_BLOCK_SIZE" "12";
        token c (at_ c 0 "= 12;") "}" ] ].

Definition pingRoot : SyntaxNode :=
  let c := pingSource in
  node c 0 "program" None c
  [ node c 0 "package_declaration" None "package proto.packets;" [];
    node c 0 "import_declaration" None "import io.ByteBuf;" [];
    pingClass ].

(** A field declaration without initialiser, a formal parameter and a
    constructor. *)
Definition fieldDecl (content text modifiers type name : string) : SyntaxNode :=
  let s := at_ content 0 text in
  node content s "field_declaration" None text
  [ node content s "modifiers" None modifiers [];
    node content s "type_identifier" (Some "type") type [];
    node content s "variable_declarator" (Some "declarator") name
      [ node content s "identifier" (Some "name") name [] ];
    token content s ";" ].

Definition formal (content : string) (from : nat) (text annotation type name : string)
    : SyntaxNode :=
  let s := at_ content from text in
  node content s "formal_parameter" None text
  ((if Js.truthy annotation
    then [ node content s "modifiers" None annotation
             [ node content s "marker_annotation" None annotation [] ] ]
    else [])
   ++ [ node content s "type_identifier" (Some "type") type [];
        node content (s + String.length text - String.length name) "identifier"
          (Some "name") name [] ]).

Definition spread (content : string) (from : nat) (text type name : string) : SyntaxNode :=
  let s := at_ content from text in
  node content s "spread_parameter" None text
  [ node content s "type_identifier" None type [];
    token content s "...";
    node content (s + String.length text - String.length name) "variable_declarator" None name
      [ node content (s + String.length text - String.length name) "identifier"
          (Some "name") name [] ] ].

Definition constructor (content text name : string)
    (params : nat -> list SyntaxNode) : SyntaxNode :=
  let s := at_ content 0 text in
  let o := at_ content s "(" in
  let e := at_ content s ")" in
  node content s "constructor_declaration" None text
  [ node content s "modifiers" None "public" [];
    node content s "identifier" (Some "name") name [];
    Node "formal_parameters" o (e + 1) true (Some "parameters")
      ([ token content o "(" ] ++ params o ++ [ token content e ")" ]);
    node content e "constructor_body" (Some "body") "{ }" [] ].

(** A packet class whose field declarations are in another order than
    the parameters of its full constructor; it also has an empty
    constructor, a copy constructor and a second constructor with as many
    parameters as the first. *)
Definition chatBody : string :=
  "{ public String text; public int id; public static int COUNT; public Chat() { } public Chat(int id, @Nullable String text) { } public Chat(Chat other) { } public Chat(String a, int b) { } }".

Definition chatText : string := "public class Chat " ++ chatBody.

Definition chatSource : string := "package proto.packets; " ++ chatText.

Definition chatClass : SyntaxNode :=
  let c := chatSource in
  node c 0 "class_declaration" None chatText
  [ node c 0 "modifiers" None "public" [];
    token c 0 "class";
    node c 0 "identifier" (Some "name") "Chat" [];
    node c 0 "class_body" (Some "body") chatBody
      [ token c 0 "{";
        fieldDecl c "public String text;" "public" "String" "text";
        fieldDecl c "public int id;" "public" "int" "id";
        fieldDecl c "public static int COUNT;" "public static" "int" "COUNT";
        constructor c "public Chat() { }" "Chat" (fun _ => []);
        constructor c "public Chat(int id, @Nullable String text) { }" "Chat"
          (fun o => [ formal c o "int id" "" "int" "id"; token c o ",";
                      formal c o "@Nullable String text" "@Nullable" "String" "text" ]);
        constructor c "public Chat(Chat other) { }" "Chat"
          (fun o => [ formal c o "Chat other" "" "Chat" "other" ]);
        constructor c "public Chat(String a, int b) { }" "Chat"
          (fun o => [ formal c o "String a" "" "String" "a"; token c o ",";
                      formal c o "int b" "" "int" "b" ]) ] ].

Definition chatRoot : SyntaxNode :=
  let c := chatSource in
  node c 0 "program" None c
  [ node c 0 "package_declaration" None "package proto.packets;" []; chatClass ].

(** A packet class whose only constructor has a variadic parameter. *)
Definition logBody : string :=
  "{ public String[] lines; public int level; public Log(int level, String... lines) { } }".

Definition logText : string := "public class Log " ++ logBody.

Definition logSource : string := "package proto.packets; " ++ logText.

Definition logConstructor : SyntaxNode :=
  let c := logSource in
  constructor c "public Log(int level, String... lines) { }" "Log"
  (fun o => [ formal c o "int level" "" "int" "level"; token c o ",";
              spread c o "String... lines" "String" "lines" ]).

Definition logClass : SyntaxNode :=
  let c := logSource in
  node c 0 "class_declaration" None logText
  [ node c 0 "modifiers" None "public" [];
    token c 0 "class";
    node c 0 "identifier" (Some "name") "Log" [];
    node c 0 "class_body" (Some "body") logBody
      [ token c 0 "{";
        fieldDecl c "public String[] lines;" "public" "String[]" "lines";
        fieldDecl c "public int level;" "public" "int" "level";
        logConstructor ] ].

Definition logRoot : SyntaxNode :=
  let c := logSource in
  node c 0 "program" None c
  [ node c 0 "package_declaration" None "package proto.packets;" []; logClass ].

(** The parser on the sample sources, and a bundler that only writes the
    header line. *)
Definition sampleParse (content : string) : option SyntaxNode :=
  if String.eqb content colorSource then Some colorRoot
  else if String.eqb content otherColorSource then Some otherColorRoot
  else if String.eqb content nestedSource then Some nestedRoot
  else if String.eqb content pingSource then Some pingRoot
  else if String.eqb content chatSource then Some chatRoot
  else if String.eqb content logSource then Some logRoot
  else None.

Definition sampleExternals : Externals := {|
  parse := sampleParse;
  extractDeserializeContext := fun _ _ _ _ => "// Packet"
  |}.

(** A protocol directory: an enum at the top level, a data class in a
    directory with an upper-case name, and packets in and below the
    [packets] directory, next to a second declaration of the enum. *)
Definition protocolDir : list FsEntry :=
  [ File "Color.java" (Some colorSource);
  Directory "Chat" [ File "Chat.java" (Some chatSource); File "notes.txt" (Some "n/a") ];
  Directory "packets"
    [ File "Ping.java" (Some pingSource);
      File "Color.java" (Some otherColorSource);
      Directory "Auth" [ Directory "v2" [ File "Outer.java" (Some nestedSource) ];
                         File "Empty.java" (Some "  ");
                         File "Locked.java" None ] ] ].

(** Packets for the analyzer, and a service that answers the first
    request with a layout, rejects the second, resolves the third without
    output and answers every later one with a layout that names fields the
    packet does not have and uses the bit 3 twice. *)
Definition packetNamed (name : string) (context : option string) : PacketInfo.t :=
  PacketInfo.mk name "proto.packets" "uncategorized" None false 0 0 0 0 0
  [FieldInfo.fresh "id" "int" false] [] false false context.

Definition idLayout : LayoutAnalysisSchema.t :=
  LayoutAnalysisSchema.mk
  [ FieldLayoutSchema.mk "id" 0 4 "int32_le" false None None ]
  4 false None [] None.

Definition bogusLayout : LayoutAnalysisSchema.t :=
  LayoutAnalysisSchema.mk
  [ FieldLayoutSchema.mk "bogus" 0 1 "byte" false (Some 3%Z) None;
    FieldLayoutSchema.mk "other" (-1) (-1) "varint" true (Some 3%Z) None ]
  1 true (Some 1%Z)
  [ NullBitMappingEntry.mk "3" "bogus"; NullBitMappingEntry.mk "3" "other" ] None.

Definition sampleService (n : nat) (prompt : string) : Analyzer.Response :=
  match n with
  | 0%nat => Analyzer.Resolves (Some idLayout)
  | 1%nat => Analyzer.Rejects "503"
  | 2%nat => Analyzer.Resolves None
  | _ => Analyzer.Resolves (Some bogusLayout)
  end.

Definition sampleAnalyzer : Analyzer.LayoutAnalyzer :=
  Analyzer.new sampleService (Some 2%Z).

(** An SDK that sends the request of the first call twice, as it does
    when the first attempt meets a failure that it takes to be transient
    (a status 503) and the second attempt succeeds. *)
Definition sampleResends : Analyzer.Resends :=
  fun n _ => match n with 0%nat => 1%nat | _ => 0%nat end.

Definition samplePackets : list PacketInfo.t :=
  [ packetNamed "Ping" (Some "// Packet: Ping");
  packetNamed "Silent" None;
  packetNamed "Chat" (Some "// Packet: Chat");
  packetNamed "Log" (Some "// Packet: Log");
  packetNamed "Empty" (Some "");
  packetNamed "Pong" (Some "// Packet: Pong");
  packetNamed "Last" (Some "// Packet: Last") ].

(** What the batch over [samplePackets] comes to: the groups, the
    requests and the accepted layouts. *)
Definition sampleGroups : list (list PacketInfo.t) :=
  [ [ packetNamed "Ping" (Some "// Packet: Ping"); packetNamed "Chat" (Some "// Packet: Chat") ];
  [ packetNamed "Log" (Some "// Packet: Log"); packetNamed "Pong" (Some "// Packet: Pong") ];
  [ packetNamed "Last" (Some "// Packet: Last") ] ].

Definition sampleRequests : list string :=
  [ "// Packet: Ping"; "// Packet: Chat"; "// Packet: Log"; "// Packet: Pong";
  "// Packet: Last" ].

Definition sampleResults : gmap string LayoutAnalysis.t :=
  list_to_map
  [ ("Ping", Analyzer.normalizeLayout idLayout (packetNamed "Ping" (Some "// Packet: Ping")));
    ("Pong", Analyzer.normalizeLayout bogusLayout (packetNamed "Pong" (Some "// Packet: Pong")));
    ("Last", Analyzer.normalizeLayout bogusLayout (packetNamed "Last" (Some "// Packet: Last"))) ].

(** A packet class with a deserialize method that calls a method of
    another class, the deserialize method of a nested type twice and a
    static helper of its own. *)
Definition authMethod : string :=
  "public static Auth deserialize(ByteBuf buf) { VarInt.peek(buf); HostAddress.deserialize(buf); HostAddress.deserialize(buf); check(buf); return null; }".

Definition authHelper : string := "static void check(ByteBuf buf) { }".

Definition authBody : string :=
  "{ public static final int PACKET_ID = 7; public HostAddress host; "
  ++ authMethod ++ " " ++ authHelper ++ " }".

Definition authText : string := "public class Auth " ++ authBody.

Definition authSource : string := "package proto.packets; " ++ authText.

(** A call [object.name(buf)], or [name(buf)] when [object] is empty,
    placed at or after [from]. *)
Definition call (content : string) (from : nat) (object name : string) : SyntaxNode :=
  let text := ((if Js.truthy object then object ++ "." else "") ++ name ++ "(buf)")%string in
  let s := at_ content from text in
  node content s "method_invocation" None text
  ((if Js.truthy object
    then [ node content s "identifier" (Some "object") object []; token content s "." ]
    else [])
   ++ [ node content (s + String.length text - String.length (name ++ "(buf)")) "identifier"
          (Some "name") name [];
        node content s "argument_list" (Some "arguments") "(buf)" [] ]).

Definition authDeserialize : SyntaxNode :=
  let c := authSource in
  let s := at_ c 0 authMethod in
  let second := (at_ c s "HostAddress.deserialize(buf)" + 1)%nat in
  node c s "method_declaration" None authMethod
  [ node c s "modifiers" None "public static" [];
    node c s "type_identifier" (Some "type") "Auth" [];
    node c s "identifier" (Some "name") "deserialize" [];
    node c s "formal_parameters" (Some "parameters") "(ByteBuf buf)" [];
    node c s "block" (Some "body")
      "{ VarInt.peek(buf); HostAddress.deserialize(buf); HostAddress.deserialize(buf); check(buf); return null; }"
      [ node c s "expression_statement" None "VarInt.peek(buf);" [ call c s "VarInt" "peek" ];
        node c s "expression_statement" None "HostAddress.deserialize(buf);"
          [ call c s "HostAddress" "deserialize" ];
        node c second "expression_statement" None "HostAddress.deserialize(buf);"
          [ call c second "HostAddress" "deserialize" ];
        node c s "expression_statement" None "check(buf);" [ call c s "" "check" ];
        node c s "return_statement" None "return null;" [] ] ].

Definition authCheck : SyntaxNode :=
  let c := authSource in
  let s := at_ c 0 authHelper in
  node c s "method_declaration" None authHelper
  [ node c s "modifiers" None "static" [];
    node c s "void_type" (Some "type") "void" [];
    node c s "identifier" (Some "name") "check" [];
    node c s "formal_parameters" (Some "parameters") "(ByteBuf buf)" [];
    node c s "block" (Some "body") "{ }" [] ].

Definition authClass : SyntaxNode :=
  let c := authSource in
  node c 0 "class_declaration" None authText
  [ node c 0 "modifiers" None "public" [];
    token c 0 "class";
    node c 0 "identifier" (Some "name") "Auth" [];
    node c 0 "class_body" (Some "body") authBody
      [ token c 0 "{";
        constant c "public static final int PACKET_ID = 7;"
          "public static final" "int" "PACKET_ID" "7";
        fieldDecl c "public HostAddress host;" "public" "HostAddress" "host";
        authDeserialize;
        authCheck ] ].

(** An enum whose first constant has a first argument that is no integer
    literal but starts with a digit, and whose second constant has a
    comment in front of its integer literal. *)
Definition kindSource : string := "enum Kind { K(1.9e3), E(/* c */ 7) }".

Definition kindEnum : SyntaxNode :=
  let c := kindSource in
  node c 0 "enum_declaration" None c
    [ token c 0 "enum";
      node c 0 "identifier" (Some "name") "Kind" [];
      node c 0 "enum_body" (Some "body") "{ K(1.9e3), E(/* c */ 7) }"
        [ token c 0 "{";
          node c 0 "enum_constant" None "K(1.9e3)"
            [ node c 0 "identifier" (Some "name") "K" [];
              node c 0 "argument_list" (Some "arguments") "(1.9e3)"
                [ token c 0 "(";
                  node c 0 "decimal_floating_point_literal" None "1.9e3" [];
                  token c 0 ")" ] ];
          token c 0 ",";
          node c 0 "enum_constant" None "E(/* c */ 7)"
            [ node c 0 "identifier" (Some "name") "E" [];
              node c 0 "argument_list" (Some "arguments") "(/* c */ 7)"
                [ token c 0 "(";
                  node c 0 "block_comment" None "/* c */" [];
                  node c 0 "decimal_integer_literal" None "7" [];
                  token c 0 ")" ] ];
          token c 0 "}" ] ].

End Samples.

(** * Properties *)

(** ** Traversals *)

Section NodeInduction.
Variable P : SyntaxNode -> Prop.
Hypothesis step : forall t a b nm f cs, Forall P cs -> P (Node t a b nm f cs).

Fixpoint SyntaxNode_forall_ind (n : SyntaxNode) : P n :=
  match n with
  | Node t a b nm f cs =>
      step t a b nm f cs
        ((fix all (l : list SyntaxNode) : Forall P l :=
            match l with
            | [] => @List.Forall_nil _ P
            | c :: r => @List.Forall_cons _ P c r (SyntaxNode_forall_ind c) (all r)
            end) cs)
  end.
End NodeInduction.

(** A traversal is a left fold of the callback over the pre-order list. *)
Lemma traverseTree_preorder {S : Type} (callback : list SyntaxNode -> SyntaxNode -> S -> S) :
  forall node parents s,
    traverseTree callback parents node s
    = fold_left (fun s pn => callback (fst pn) (snd pn) s) (preorder parents node) s.
Proof.
  induction node as [t a b nm f cs IH] using SyntaxNode_forall_ind.
  intros parents s. cbn [traverseTree preorder children fold_left fst snd].
  generalize (callback parents (Node t a b nm f cs) s) as s0.
  generalize (Node t a b nm f cs :: parents) as ps.
  induction IH as [|c r Hc _ IHr]; intros ps s0; [reflexivity|].
  rewrite fold_left_app, <- Hc. apply IHr.
Qed.

(** A callback that ignores the ancestors folds over the nodes alone. *)
Lemma traverseTree_nodes {S : Type} (f : SyntaxNode -> S -> S) node parents s :
  traverseTree (fun _ n s => f n s) parents node s
  = fold_left (fun s n => f n s) (Spec.nodes parents node) s.
Proof.
  rewrite traverseTree_preorder. unfold Spec.nodes.
  generalize (preorder parents node) as l. intros l. revert s.
  induction l as [|x l IH]; intros s; [reflexivity|]. cbn. apply IH.
Qed.

(** ** What [parseInt] reads from a decimal literal *)

Lemma digitValue_digit c :
  Spec.isDigit c = true ->
  Js.digitValue 10 c = Some (Z.of_nat (nat_of_ascii c) - 48)%Z.
Proof.
  unfold Spec.isDigit, Js.digitValue. intros H.
  apply andb_true_iff in H as [H1 H2]. apply Nat.leb_le in H1, H2.
  replace (48 <=? Z.of_nat (nat_of_ascii c))%Z with true by (symmetry; apply Z.leb_le; lia).
  replace (Z.of_nat (nat_of_ascii c) <=? 57)%Z with true by (symmetry; apply Z.leb_le; lia).
  cbn [andb].
  replace (Z.of_nat (nat_of_ascii c) - 48 <? 10)%Z with true
    by (symmetry; apply Z.ltb_lt; lia).
  reflexivity.
Qed.

Lemma readDigits_decimal (s : string) :
  forallb Spec.isDigit (list_ascii_of_string s) = true ->
  forall acc,
    Js.readDigits 10 s acc true
    = Some (fold_left (fun a c => (a * 10 + (Z.of_nat (nat_of_ascii c) - 48))%Z)
              (list_ascii_of_string s) acc).
Proof.
  induction s as [|c s IH]; intros H acc; [reflexivity|].
  cbn [list_ascii_of_string forallb] in H. apply andb_true_iff in H as [Hc Hs].
  cbn [Js.readDigits list_ascii_of_string fold_left].
  rewrite (digitValue_digit c Hc). apply IH, Hs.
Qed.

(** [parseInt] starts to read a text that begins with a decimal digit
    and holds decimal digits only at its first character, in base 10. *)
Lemma parseInt_digits (s : string) :
  Spec.isDecimal s = true ->
  Js.parseInt s
  = match Js.readDigits 10 s 0%Z false with
    | Some v => Some (1 * v)%Z
    | None => None
    end.
Proof.
  destruct s as [|c rest]; [discriminate|]. unfold Spec.isDecimal.
  cbn [list_ascii_of_string forallb]. intros H.
  apply andb_true_iff in H as [Hc Hrest].
  destruct c as [[] [] [] [] [] [] [] []]; try (cbv in Hc; discriminate Hc);
    try reflexivity.
  destruct rest as [|d rest]; [reflexivity|].
  cbn [list_ascii_of_string forallb] in Hrest.
  apply andb_true_iff in Hrest as [Hd _].
  destruct d as [[] [] [] [] [] [] [] []]; try (cbv in Hd; discriminate Hd);
    reflexivity.
Qed.

Lemma parseInt_decimal (s : string) :
  Spec.isDecimal s = true -> Js.parseInt s = Some (Spec.decimalValue s).
Proof.
  intros H. rewrite (parseInt_digits s H).
  destruct s as [|c rest]; [discriminate|]. unfold Spec.isDecimal in H.
  pose proof H as Hall. cbn [list_ascii_of_string forallb] in H.
  apply andb_true_iff in H as [Hc Hrest].
  cbn [Js.readDigits]. rewrite (digitValue_digit c Hc).
  rewrite (readDigits_decimal rest Hrest). unfold Spec.decimalValue.
  cbn [list_ascii_of_string fold_left]. f_equal. apply Z.mul_1_l.
Qed.

(** ** Enumerations (C4) *)

Example colorEnum_values :
  EnumInfo.values <$> Parser.extractEnumInfo [] Samples.colorEnum Samples.colorSource "root" ""
  = Some [ EnumValue.mk "RED" 0; EnumValue.mk "GREEN" 5;
           EnumValue.mk "BLUE" 2; EnumValue.mk "ALPHA" 16 ].
Proof. reflexivity. Qed.

Lemma enumConstantCallback_step content parents n acc :
  Parser.enumConstantCallback content parents n acc
  = if hasType "enum_constant" n && Js.truthy (Spec.constantName content n)
    then acc ++ [Spec.declaredValue content (length acc) n]
    else acc.
Proof.
  unfold Parser.enumConstantCallback, Spec.declaredValue, Spec.literalArgument, Spec.constantName.
  destruct (hasType "enum_constant" n); cbn [andb]; [|reflexivity].
  destruct (Js.truthy _); [|reflexivity].
  destruct (childForFieldName n "arguments") as [args|]; [|reflexivity].
  destruct (namedChildren args) as [|firstArg ?]; [reflexivity|].
  destruct (Js.parseInt _); reflexivity.
Qed.

Lemma enumConstantCallback_fold content (l : list SyntaxNode) :
  forall acc,
    fold_left (fun s n => Parser.enumConstantCallback content [] n s) l acc
    = acc ++ imap (fun i => Spec.declaredValue content (length acc + i))
               (List.filter
                  (fun c => hasType "enum_constant" c && Js.truthy (Spec.constantName content c))
                  l).
Proof.
  induction l as [|n l IH]; intros acc; cbn [fold_left List.filter].
  - cbn. now rewrite app_nil_r.
  - rewrite IH, enumConstantCallback_step.
    destruct (hasType "enum_constant" n && Js.truthy (Spec.constantName content n));
      [|reflexivity].
    cbn [imap]. rewrite <- app_assoc, Nat.add_0_r. cbn [app]. do 2 f_equal.
    apply imap_ext. intros i c _. cbn. rewrite length_app. cbn.
    f_equal. lia.
Qed.

Lemma extractEnumInfo_values parents node content category relPath info :
  Parser.extractEnumInfo parents node content category relPath = Some info ->
  EnumInfo.values info
  = imap (Spec.declaredValue content) (Spec.extractedConstants content parents node).
Proof.
  unfold Parser.extractEnumInfo, Spec.extractedConstants, Spec.bodyNodes.
  destruct (negb _); [discriminate|]. intros [= <-]. cbn [EnumInfo.values].
  destruct (childForFieldName node "body") as [body|]; [|reflexivity].
  change (Parser.enumConstantCallback content)
    with (fun (_ : list SyntaxNode) n s => Parser.enumConstantCallback content [] n s).
  rewrite traverseTree_nodes, enumConstantCallback_fold. reflexivity.
Qed.

Lemma literalArgument_eq content c :
  Spec.literalArgument content c
  = match Spec.firstNamedArgument content c with
    | Some text => Js.parseInt text
    | None => None
    end.
Proof.
  unfold Spec.literalArgument, Spec.firstNamedArgument.
  destruct (childForFieldName c "arguments") as [args|]; [|reflexivity].
  destruct (namedChildren args); reflexivity.
Qed.

(** C4, as the code has it.  In an extracted enum of ASCII source the
    [i]-th value belongs to the [i]-th extracted constant: it carries the
    constant's name.  Its value is the index [i] when the constant has no
    argument list or the list has no named child.  Otherwise it depends on
    the text of the first named child of the argument list, which is the
    first argument or a comment in front of it: the value is the number
    [parseInt] reads from that text (stored as it is up to a magnitude of
    [2^53]), which for a run of decimal digits is the number the digits
    denote, and it is the index [i] when [parseInt] reads no number. *)
Theorem enum_value_is_literal_or_index parents node content category relPath info :
  Spec.isAscii content = true ->
  Parser.extractEnumInfo parents node content category relPath = Some info ->
  length (EnumInfo.values info) = length (Spec.extractedConstants content parents node)
  /\ forall i c,
       Spec.extractedConstants content parents node !! i = Some c ->
       exists v,
         EnumInfo.values info !! i = Some v
         /\ EnumValue.name v = Spec.constantName content c
         /\ match Spec.firstNamedArgument content c with
            | None => EnumValue.value v = Z.of_nat i
            | Some text =>
                (Spec.isDecimal text = true ->
                 (Spec.decimalValue text <= 2 ^ 53)%Z ->
                 EnumValue.value v = Spec.decimalValue text)
                /\ (forall z, Js.parseInt text = Some z -> (Z.abs z <= 2 ^ 53)%Z ->
                               EnumValue.value v = z)
                /\ (Js.parseInt text = None -> EnumValue.value v = Z.of_nat i)
            end.
Proof.
  intros _ H. rewrite (extractEnumInfo_values _ _ _ _ _ _ H). split.
  - apply length_imap.
  - intros i c Hc. exists (Spec.declaredValue content i c).
    rewrite list_lookup_imap, Hc. split; [reflexivity|]. split; [reflexivity|].
    unfold Spec.declaredValue. cbn [EnumValue.value]. rewrite literalArgument_eq.
    destruct (Spec.firstNamedArgument content c) as [text|]; [|reflexivity].
    split; [|split].
    + intros Hd _. now rewrite (parseInt_decimal text Hd).
    + intros z -> _. reflexivity.
    + intros ->. reflexivity.
Qed.

Lemma enum_value_is_literal_or_index_witness :
  Spec.isAscii Samples.colorSource = true
  /\ exists info,
       Parser.extractEnumInfo [] Samples.colorEnum Samples.colorSource "root" "" = Some info
       /\ length (EnumInfo.values info)
          = length (Spec.extractedConstants Samples.colorSource [] Samples.colorEnum)
       /\ forall i c,
            Spec.extractedConstants Samples.colorSource [] Samples.colorEnum !! i = Some c ->
            exists v,
              EnumInfo.values info !! i = Some v
              /\ EnumValue.name v = Spec.constantName Samples.colorSource c
              /\ match Spec.firstNamedArgument Samples.colorSource c with
                 | None => EnumValue.value v = Z.of_nat i
                 | Some text =>
                     (Spec.isDecimal text = true ->
                      (Spec.decimalValue text <= 2 ^ 53)%Z ->
                      EnumValue.value v = Spec.decimalValue text)
                     /\ (forall z, Js.parseInt text = Some z -> (Z.abs z <= 2 ^ 53)%Z ->
                                    EnumValue.value v = z)
                     /\ (Js.parseInt text = None -> EnumValue.value v = Z.of_nat i)
                 end.
Proof.
  split; [vm_compute; reflexivity|].
  eexists. split; [reflexivity|].
  apply (enum_value_is_literal_or_index [] Samples.colorEnum Samples.colorSource "root" "").
  - vm_compute. reflexivity.
  - reflexivity.
Defined.

(** The claim as the specification words it fails on both constants of
    [Kind].  The first argument of [K] is the floating-point literal
    [1.9e3], no integer literal, yet the value of [K] is 1 and not its
    index 0.  The first argument of [E] is the integer literal 7, yet the
    value of [E] is its index 1: the comment in front of the literal is
    the first named child of the argument list. *)
Lemma enum_value_is_not_the_claimed_one :
  exists info k e,
    Parser.extractEnumInfo [] Samples.kindEnum Samples.kindSource "root" "" = Some info
    /\ Spec.extractedConstants Samples.kindSource [] Samples.kindEnum = [k; e]
    /\ EnumInfo.values info = [EnumValue.mk "K" 1; EnumValue.mk "E" 1]
    /\ (Spec.claimedValue Samples.kindSource 0 k 1 <-> 1%Z = 0%Z)
    /\ (Spec.claimedValue Samples.kindSource 1 e 1 <-> 1%Z = 7%Z)
    /\ ~ (forall i c v,
            Spec.extractedConstants Samples.kindSource [] Samples.kindEnum !! i = Some c ->
            EnumInfo.values info !! i = Some v ->
            Spec.claimedValue Samples.kindSource i c (EnumValue.value v)).
Proof.
  do 3 eexists. split; [reflexivity|]. split; [reflexivity|]. split; [reflexivity|].
  split; [vm_compute; tauto|].
  split; [vm_compute; split; [intros H; exact (H eq_refl)|intros H _; exact H]|].
  intros H. specialize (H 0%nat _ _ eq_refl eq_refl). vm_compute in H. discriminate H.
Qed.

(** ** Packet files (C10) *)

Section PacketFile.
Context {ext : Externals}.

Lemma packetFileCallback_fold content category (l : list (list SyntaxNode * SyntaxNode)) :
  forall acc,
    fold_left (fun s pn => Parser.packetFileCallback content category (fst pn) (snd pn) s) l acc
    = match last (List.filter
                    (fun pn => hasType "class_declaration" (snd pn)
                               && Js.truthy (getNodeText (childForFieldName (snd pn) "name") content))
                    l) with
      | Some pn => Some (Parser.extractPacketInfo (fst pn) (snd pn) content category)
      | None => acc
      end.
Proof.
  induction l as [|[ps n] l IH]; intros acc; [reflexivity|].
  cbn [fold_left List.filter fst snd]. rewrite IH.
  unfold Parser.packetFileCallback.
  destruct (hasType "class_declaration" n); cbn [andb]; [|reflexivity].
  destruct (Js.truthy _); [|reflexivity].
  destruct (List.filter _ l) as [|x xs]; [reflexivity|].
  rewrite last_cons_cons. destruct (last (x :: xs)) eqn:El; [reflexivity|].
  apply last_None in El. discriminate.
Qed.

(** C10. A packet file that can be read, is not blank and parses yields
    the packet extracted from the last class declaration (with a name)
    that the pre-order walk of its syntax tree visits, whether or not it
    is the top-level class; it yields nothing when there is none. *)
Theorem parsePacketFile_last_class content relPath rootNode :
  String.length (Js.trim content) <> 0%nat ->
  parse content = Some rootNode ->
  Parser.parsePacketFile (Some content) relPath
  = (fun pn => Parser.extractPacketInfo (fst pn) (snd pn) content
                 (Js.orElse (Js.replaceBackslashes relPath) "uncategorized"))
    <$> last (Spec.classDeclarations content rootNode).
Proof.
  intros Hblank Hparse. unfold Parser.parsePacketFile.
  destruct (Nat.eqb_spec (String.length (Js.trim content)) 0); [contradiction|].
  rewrite Hparse, traverseTree_preorder, packetFileCallback_fold.
  unfold Spec.classDeclarations. destruct (last _); reflexivity.
Qed.

End PacketFile.

Example nested_classes_visited :
  map (fun pn => getNodeText (childForFieldName (snd pn) "name") Samples.nestedSource)
    (Spec.classDeclarations Samples.nestedSource Samples.nestedRoot)
  = ["Outer"; "Inner"].
Proof. reflexivity. Qed.

Example nested_class_wins :
  PacketInfo.name <$> Parser.parsePacketFile (ext := Samples.sampleExternals) (Some Samples.nestedSource) ""
  = Some "Inner".
Proof. reflexivity. Qed.

Lemma parsePacketFile_last_class_witness :
  Parser.parsePacketFile (ext := Samples.sampleExternals) (Some Samples.nestedSource) "auth"
  = Some (Parser.extractPacketInfo (ext := Samples.sampleExternals) [Samples.nestedOuter; Samples.nestedRoot]
            Samples.nestedInner Samples.nestedSource "auth").
Proof.
  rewrite (parsePacketFile_last_class (ext := Samples.sampleExternals) Samples.nestedSource "auth" Samples.nestedRoot).
  - reflexivity.
  - vm_compute. discriminate.
  - reflexivity.
Defined.

(** ** Layout constants (C6) *)

Example ping_constants :
  let p := Parser.extractPacketInfo (ext := Samples.sampleExternals)
             [Samples.pingRoot] Samples.pingClass Samples.pingSource "uncategorized" in
  (PacketInfo.name p, PacketInfo.package p, PacketInfo.imports p,
   PacketInfo.packetId p, PacketInfo.isCompressed p,
   PacketInfo.fixedBlockSize p, PacketInfo.maxSize p, PacketInfo.variableFieldCount p)
  = ("Ping", "proto.packets", ["io.ByteBuf"], None, true, 12%Z, 16%Z, 0%Z).
Proof. reflexivity. Qed.

Example ping_declarations :
  Spec.constantDeclarations Samples.pingSource [Samples.pingRoot] Samples.pingClass
  = [("FIXED_BLOCK_SIZE", "9"); ("IS_COMPRESSED", "true"); ("MAX_SIZE", "0x10");
     ("FIXED_BLOCK_SIZE", "12")].
Proof. reflexivity. Qed.

(** A fold whose step overwrites a component with the value a selector
    finds, if any, leaves the last value found. *)
Lemma fold_left_last_default {S A B : Type} (step : A -> S -> S) (proj : S -> B)
    (sel : A -> option B) :
  (forall a s, proj (step a s) = default (proj s) (sel a)) ->
  forall l s,
    proj (fold_left (fun s a => step a s) l s) = default (proj s) (last (omap sel l)).
Proof.
  intros Hstep. induction l as [|a l IH]; intros s; [reflexivity|].
  cbn [fold_left omap list_omap]. rewrite IH, Hstep.
  change (omap sel (a :: l)) with
    (match sel a with Some b => b :: omap sel l | None => omap sel l end).
  destruct (sel a) as [b|]; [|reflexivity]. cbn [default].
  destruct (omap sel l) as [|x xs] eqn:E; [reflexivity|].
  rewrite last_cons_cons. destruct (last (x :: xs)) eqn:El; [reflexivity|].
  apply last_None in El. discriminate.
Qed.

Lemma fold_left_last_option {S A B : Type} (step : A -> S -> S) (proj : S -> option B)
    (sel : A -> option B) :
  (forall a s, proj (step a s) = match sel a with Some b => Some b | None => proj s end) ->
  forall l s,
    proj (fold_left (fun s a => step a s) l s)
    = match last (omap sel l) with Some b => Some b | None => proj s end.
Proof.
  intros Hstep. induction l as [|a l IH]; intros s; [reflexivity|].
  cbn [fold_left]. rewrite IH, Hstep.
  change (omap sel (a :: l)) with
    (match sel a with Some b => b :: omap sel l | None => omap sel l end).
  destruct (sel a) as [b|]; [|reflexivity].
  destruct (omap sel l) as [|x xs] eqn:E; [reflexivity|].
  rewrite last_cons_cons. destruct (last (x :: xs)) eqn:El; [reflexivity|].
  apply last_None in El. discriminate.
Qed.

Lemma fold_left_omap {S A D : Type} (g : A -> option D) (step : D -> S -> S) :
  forall l s,
    fold_left (fun s a => match g a with Some d => step d s | None => s end) l s
    = fold_left (fun s d => step d s) (omap g l) s.
Proof.
  induction l as [|a l IH]; intros s; [reflexivity|].
  cbn [fold_left]. rewrite IH.
  change (omap g (a :: l)) with
    (match g a with Some b => b :: omap g l | None => omap g l end).
  destruct (g a); reflexivity.
Qed.

Lemma fold_left_pointwise {S A : Type} (f g : S -> A -> S) :
  (forall s a, f s a = g s a) ->
  forall l s, fold_left f l s = fold_left g l s.
Proof.
  intros H. induction l as [|a l IH]; intros s; [reflexivity|].
  cbn. rewrite H. apply IH.
Qed.

Lemma omap_pointwise {A B : Type} (f g : A -> option B) :
  (forall a, f a = g a) -> forall l : list A, omap f l = omap g l.
Proof.
  intros H. induction l as [|a l IH]; [reflexivity|].
  change (omap f (a :: l)) with
    (match f a with Some b => b :: omap f l | None => omap f l end).
  change (omap g (a :: l)) with
    (match g a with Some b => b :: omap g l | None => omap g l end).
  now rewrite H, IH.
Qed.

Lemma declaredConstant_eq content n :
  Spec.declaredConstant content n = Parser.constantDeclaration content n.
Proof.
  unfold Spec.declaredConstant, Spec.isStaticFinal, Spec.firstDeclarator,
    Parser.constantDeclaration.
  destruct (hasType "field_declaration" n); [|reflexivity]. cbn [andb].
  destruct (Js.includes (modifiersText n content) "static" && _); [|reflexivity].
  destruct (List.find _ _) as [declarator|]; [|reflexivity].
  destruct (getNodeText (childForFieldName declarator "name") content); [reflexivity|].
  destruct (getNodeText (childForFieldName declarator "value") content); reflexivity.
Qed.

Lemma extractConstants_fold parents node content packet :
  Parser.extractConstants parents node content packet
  = fold_left (fun p decl => Parser.assignConstant (fst decl) (snd decl) p)
      (Spec.constantDeclarations content parents node) packet.
Proof.
  unfold Parser.extractConstants, Spec.constantDeclarations, Spec.bodyNodes.
  rewrite (omap_pointwise _ _ (declaredConstant_eq content)).
  destruct (childForFieldName node "body") as [body|]; [|reflexivity].
  change (Parser.constantCallback content) with
    (fun (_ : list SyntaxNode) n p => Parser.constantCallback content [] n p).
  rewrite traverseTree_nodes, <- fold_left_omap.
  apply fold_left_pointwise. intros p n. unfold Parser.constantCallback.
  destruct (Parser.constantDeclaration content n) as [[name value]|]; reflexivity.
Qed.

Ltac constant_cases :=
  intros [? ?] ?;
  unfold Parser.assignConstant, Parser.assignNumeric, Spec.numericLiteral, Spec.flagLiteral;
  cbn [fst snd];
  repeat match goal with
         | |- context [String.eqb ?a ?b] =>
             destruct (String.eqb_spec a b); subst; try discriminate
         end;
  try match goal with
      | |- context [Js.parseInt ?v] => destruct (Js.parseInt v)
      end;
  reflexivity.

Lemma assign_packetId decl p :
  PacketInfo.packetId (Parser.assignConstant (fst decl) (snd decl) p)
  = match Spec.numericLiteral "PACKET_ID" decl with
    | Some id => Some id
    | None => PacketInfo.packetId p
    end.
Proof. revert decl p. constant_cases. Qed.

Lemma assign_isCompressed decl p :
  PacketInfo.isCompressed (Parser.assignConstant (fst decl) (snd decl) p)
  = default (PacketInfo.isCompressed p) (Spec.flagLiteral decl).
Proof. revert decl p. constant_cases. Qed.

Lemma assign_nullableBitFieldSize decl p :
  PacketInfo.nullableBitFieldSize (Parser.assignConstant (fst decl) (snd decl) p)
  = default (PacketInfo.nullableBitFieldSize p)
      (Spec.numericLiteral "NULLABLE_BIT_FIELD_SIZE" decl).
Proof. revert decl p. constant_cases. Qed.

Lemma assign_fixedBlockSize decl p :
  PacketInfo.fixedBlockSize (Parser.assignConstant (fst decl) (snd decl) p)
  = default (PacketInfo.fixedBlockSize p) (Spec.numericLiteral "FIXED_BLOCK_SIZE" decl).
Proof. revert decl p. constant_cases. Qed.

Lemma assign_variableFieldCount decl p :
  PacketInfo.variableFieldCount (Parser.assignConstant (fst decl) (snd decl) p)
  = default (PacketInfo.variableFieldCount p)
      (Spec.numericLiteral "VARIABLE_FIELD_COUNT" decl).
Proof. revert decl p. constant_cases. Qed.

Lemma assign_variableBlockStart decl p :
  PacketInfo.variableBlockStart (Parser.assignConstant (fst decl) (snd decl) p)
  = default (PacketInfo.variableBlockStart p)
      (Spec.numericLiteral "VARIABLE_BLOCK_START" decl).
Proof. revert decl p. constant_cases. Qed.

Lemma assign_maxSize decl p :
  PacketInfo.maxSize (Parser.assignConstant (fst decl) (snd decl) p)
  = default (PacketInfo.maxSize p) (Spec.numericLiteral "MAX_SIZE" decl).
Proof. revert decl p. constant_cases. Qed.

Lemma fold_left_preserves {S A B : Type} (f : S -> A -> S) (proj : S -> B) :
  (forall s a, proj (f s a) = proj s) ->
  forall l s, proj (fold_left f l s) = proj s.
Proof.
  intros H. induction l as [|a l IH]; intros s; [reflexivity|].
  cbn. rewrite IH. apply H.
Qed.

Lemma extractFields_constants parents node content packet :
  Spec.constantsOf (Parser.extractFields parents node content packet)
  = Spec.constantsOf packet.
Proof.
  unfold Parser.extractFields.
  destruct (childForFieldName node "body") as [body|]; [|reflexivity].
  destruct (0 <? _)%nat; [reflexivity|].
  change (Parser.fieldDeclarationCallback content) with
    (fun (_ : list SyntaxNode) n p => Parser.fieldDeclarationCallback content [] n p).
  rewrite traverseTree_nodes. apply fold_left_preserves.
  intros p n. unfold Parser.fieldDeclarationCallback.
  destruct (hasType _ n); [|reflexivity].
  destruct (Js.includes _ _); [reflexivity|].
  destruct (Parser.extractFieldInfo n content); reflexivity.
Qed.

Section Constants.
Context {ext : Externals}.

Lemma extractLayout_constants parents node content packet :
  Spec.constantsOf (Parser.extractLayout parents node content packet)
  = Spec.constantsOf packet.
Proof.
  unfold Parser.extractLayout.
  destruct (childForFieldName node "body") as [body|]; [|reflexivity].
  destruct (traverseTree _ _ _ _); reflexivity.
Qed.

(** C6, as the code has it.  In ASCII source, six of the seven layout
    constants of an extracted packet hold what the last constant
    declaration of that name in the class body gives: the number
    [parseInt] reads from its initialiser (for the compression flag:
    whether the initialiser is the text [true]), and zero (false) when no
    declaration of that name has an initialiser that [parseInt] reads.  A
    constant declaration is a field declaration whose modifiers contain
    [static] and [final]; its name and initialiser are those of its first
    declarator.  The number is the one that is stored as long as its
    magnitude is at most [2^53].  The message identifier is read in the
    same way from the declarations of [PACKET_ID]; it is absent, not zero,
    when there is none to read.  What [parseInt] reads from an initialiser
    that is a run of decimal digits is the number the digits denote. *)
Theorem layout_constants_from_declarations parents node content category :
  Spec.isAscii content = true ->
  let packet := Parser.extractPacketInfo parents node content category in
  let decls := Spec.constantDeclarations content parents node in
  let read name := last (omap (Spec.numericLiteral name) decls) in
  (Spec.safe (read "PACKET_ID") -> PacketInfo.packetId packet = read "PACKET_ID")
  /\ PacketInfo.isCompressed packet = default false (last (omap Spec.flagLiteral decls))
  /\ (Spec.safe (read "NULLABLE_BIT_FIELD_SIZE") ->
      PacketInfo.nullableBitFieldSize packet
      = default 0%Z (read "NULLABLE_BIT_FIELD_SIZE"))
  /\ (Spec.safe (read "FIXED_BLOCK_SIZE") ->
      PacketInfo.fixedBlockSize packet = default 0%Z (read "FIXED_BLOCK_SIZE"))
  /\ (Spec.safe (read "VARIABLE_FIELD_COUNT") ->
      PacketInfo.variableFieldCount packet = default 0%Z (read "VARIABLE_FIELD_COUNT"))
  /\ (Spec.safe (read "VARIABLE_BLOCK_START") ->
      PacketInfo.variableBlockStart packet = default 0%Z (read "VARIABLE_BLOCK_START"))
  /\ (Spec.safe (read "MAX_SIZE") ->
      PacketInfo.maxSize packet = default 0%Z (read "MAX_SIZE"))
  /\ (forall name text,
        Spec.isDecimal text = true ->
        Spec.numericLiteral name (name, text) = Some (Spec.decimalValue text)).
Proof.
  intros _ packet decls read.
  assert (Hc : Spec.constantsOf packet
               = Spec.constantsOf
                   (fold_left (fun p decl => Parser.assignConstant (fst decl) (snd decl) p)
                      decls
                      (PacketInfo.mk
                         (Js.orElse (getNodeText (childForFieldName node "name") content) "Unknown")
                         (Parser.extractPackage content) category None false 0 0 0 0 0 []
                         (Parser.extractImports content) false false None))).
  { unfold packet, Parser.extractPacketInfo.
    rewrite extractLayout_constants, extractFields_constants, extractConstants_fold.
    reflexivity. }
  unfold Spec.constantsOf in Hc.
  injection Hc as -> -> -> -> -> -> ->. unfold read.
  split; [|split; [|split; [|split; [|split; [|split; [|split]]]]]].
  - intros _. rewrite (fold_left_last_option _ PacketInfo.packetId _ assign_packetId).
    destruct (last _); reflexivity.
  - exact (fold_left_last_default _ PacketInfo.isCompressed _ assign_isCompressed _ _).
  - intros _. exact (fold_left_last_default _ PacketInfo.nullableBitFieldSize _
             assign_nullableBitFieldSize _ _).
  - intros _. exact (fold_left_last_default _ PacketInfo.fixedBlockSize _
             assign_fixedBlockSize _ _).
  - intros _. exact (fold_left_last_default _ PacketInfo.variableFieldCount _
             assign_variableFieldCount _ _).
  - intros _. exact (fold_left_last_default _ PacketInfo.variableBlockStart _
             assign_variableBlockStart _ _).
  - intros _. exact (fold_left_last_default _ PacketInfo.maxSize _ assign_maxSize _ _).
  - intros name text Hd. unfold Spec.numericLiteral. cbn [fst snd].
    rewrite String.eqb_refl. now apply parseInt_decimal.
Qed.

End Constants.

(** ** Fields (C1) *)

Example chat_fields :
  map (fun f => (FieldInfo.name f, FieldInfo.javaType f, FieldInfo.nullable f))
    (PacketInfo.fields
       (Parser.extractPacketInfo (ext := Samples.sampleExternals)
          [Samples.chatRoot] Samples.chatClass Samples.chatSource "uncategorized"))
  = [("id", "int", false); ("text", "String", true)].
Proof. reflexivity. Qed.

Example chat_declared_fields :
  map FieldInfo.name
    (Spec.declaredFields Samples.chatSource [Samples.chatRoot] Samples.chatClass)
  = ["text"; "id"].
Proof. reflexivity. Qed.

Example chat_constructors :
  map Spec.parameterCount
    (Spec.constructors Samples.chatSource [Samples.chatRoot] Samples.chatClass)
  = [0; 2; 2]%nat.
Proof. reflexivity. Qed.

Example log_fields :
  map (fun f => (FieldInfo.name f, FieldInfo.javaType f, FieldInfo.nullable f))
    (PacketInfo.fields
       (Parser.extractPacketInfo (ext := Samples.sampleExternals)
          [Samples.logRoot] Samples.logClass Samples.logSource "uncategorized"))
  = [("level", "int", false)].
Proof. reflexivity. Qed.

Lemma fold_left_filter {S A : Type} (P : A -> bool) (f : S -> A -> S) :
  forall l s,
    fold_left (fun s a => if P a then f s a else s) l s = fold_left f (List.filter P l) s.
Proof.
  induction l as [|a l IH]; intros s; [reflexivity|].
  cbn [fold_left List.filter]. destruct (P a); apply IH.
Qed.

Lemma fold_left_map_arg {S A B : Type} (g : A -> B) (f : S -> B -> S) :
  forall l s, fold_left f (map g l) s = fold_left (fun s a => f s (g a)) l s.
Proof.
  induction l as [|a l IH]; intros s; [reflexivity|]. cbn. apply IH.
Qed.

Lemma constructorCallback_step content pn st :
  Parser.constructorCallback content (fst pn) (snd pn) st
  = if Spec.isCandidate content pn then Spec.keepFuller st (snd pn) else st.
Proof.
  destruct pn as [ps c].
  unfold Parser.constructorCallback, Spec.isCandidate, Spec.isCopy, Spec.keepFuller,
    Spec.parameterCount, Spec.parametersOf. cbn [fst snd].
  destruct (hasType "constructor_declaration" c); cbn [andb]; [|reflexivity].
  destruct (childForFieldName c "parameters") as [params|]; [|reflexivity].
  rewrite bool_decide_eq_true_2 by eauto. cbn [andb].
  destruct (Parser.isCopyConstructor content ps params); reflexivity.
Qed.

(** What the scan for the fullest constructor leaves in [bestConstructor]
    and [maxParams]. *)
Lemma keepFuller_fold (l : list SyntaxNode) :
  forall b m b' m',
    fold_left Spec.keepFuller l (b, m) = (b', m') ->
    (forall c, c ∈ l -> Spec.parameterCount c <= m')
    /\ ((b' = b /\ m' = m)
        \/ exists i c,
             l !! i = Some c /\ b' = Some c /\ m' = Spec.parameterCount c
             /\ m < Spec.parameterCount c
             /\ forall j c', l !! j = Some c' -> j < i ->
                  Spec.parameterCount c' < Spec.parameterCount c).
Proof.
  induction l as [|c0 l IH]; intros b m b' m' H.
  - cbn in H. injection H as <- <-. split; [|left; done].
    intros c Hc. inversion Hc.
  - cbn [fold_left] in H. unfold Spec.keepFuller at 2 in H. cbn [snd] in H.
    destruct (Nat.ltb_spec m (Spec.parameterCount c0)) as [Hlt|Hge].
    + destruct (IH _ _ _ _ H) as [Hall Hcase]. split.
      * intros c Hc. apply elem_of_cons in Hc as [->|Hc]; [|auto].
        destruct Hcase as [[_ ->]|(i & c1 & _ & _ & -> & Hm & _)]; lia.
      * right. destruct Hcase as [[-> ->]|(i & c1 & Hi & -> & -> & Hm & Hbefore)].
        -- exists 0%nat, c0. repeat split; try done. intros j c' _ Hj. lia.
        -- exists (S i), c1. repeat split; try done; [lia|].
           intros [|j] c' Hj Hlt'; cbn in Hj.
           ++ injection Hj as <-. lia.
           ++ apply (Hbefore j); [done|lia].
    + destruct (IH _ _ _ _ H) as [Hall Hcase]. split.
      * intros c Hc. apply elem_of_cons in Hc as [->|Hc]; [|auto].
        destruct Hcase as [[_ ->]|(i & c1 & _ & _ & -> & Hm & _)]; lia.
      * destruct Hcase as [[-> ->]|(i & c1 & Hi & -> & -> & Hm & Hbefore)]; [left; done|].
        right. exists (S i), c1. repeat split; try done.
        intros [|j] c' Hj Hlt'; cbn in Hj.
        -- injection Hj as <-. lia.
        -- apply (Hbefore j); [done|lia].
Qed.

Lemma parameter_loop content (l : list SyntaxNode) :
  forall acc,
    fold_left
      (fun fields param =>
         match Parser.parameterField content param with
         | Some f => fields ++ [f]
         | None => fields
         end) l acc
    = acc ++ omap (Parser.parameterField content) l.
Proof.
  induction l as [|p l IH]; intros acc; cbn [fold_left].
  - cbn. now rewrite app_nil_r.
  - rewrite IH.
    change (omap (Parser.parameterField content) (p :: l)) with
      (match Parser.parameterField content p with
       | Some b => b :: omap (Parser.parameterField content) l
       | None => omap (Parser.parameterField content) l
       end).
    destruct (Parser.parameterField content p); [|reflexivity].
    now rewrite <- app_assoc.
Qed.

Lemma fieldDeclaration_fold content (l : list SyntaxNode) :
  forall p,
    PacketInfo.fields
      (fold_left (fun p n => Parser.fieldDeclarationCallback content [] n p) l p)
    = PacketInfo.fields p ++ omap (Spec.instanceField content) l.
Proof.
  induction l as [|n l IH]; intros p; cbn [fold_left].
  - cbn. now rewrite app_nil_r.
  - rewrite IH.
    change (omap (Spec.instanceField content) (n :: l)) with
      (match Spec.instanceField content n with
       | Some b => b :: omap (Spec.instanceField content) l
       | None => omap (Spec.instanceField content) l
       end).
    unfold Parser.fieldDeclarationCallback, Spec.instanceField.
    destruct (hasType "field_declaration" n); cbn [andb]; [|reflexivity].
    destruct (Js.includes _ _); cbn [negb]; [reflexivity|].
    destruct (Parser.extractFieldInfo n content); [|reflexivity].
    cbn [PacketInfo.fields PacketInfo.set_fields]. now rewrite <- app_assoc.
Qed.

Lemma assignConstant_fields name value p :
  PacketInfo.fields (Parser.assignConstant name value p) = PacketInfo.fields p.
Proof.
  unfold Parser.assignConstant, Parser.assignNumeric.
  destruct (String.eqb name "IS_COMPRESSED"); [reflexivity|].
  destruct (Js.parseInt value); [|reflexivity].
  repeat match goal with
         | |- context [if ?b then _ else _] => destruct b; [reflexivity|]
         end.
  reflexivity.
Qed.

Lemma extractConstants_fields parents node content p :
  PacketInfo.fields (Parser.extractConstants parents node content p) = PacketInfo.fields p.
Proof.
  rewrite extractConstants_fold. apply fold_left_preserves.
  intros s a. apply assignConstant_fields.
Qed.

Lemma extractFieldsFromConstructor_spec parents node content body :
  childForFieldName node "body" = Some body ->
  let ctors := Spec.constructors content parents node in
  (Parser.extractFieldsFromConstructor (node :: parents) body content = []
   /\ forall c, c ∈ ctors -> Spec.parameterCount c = 0%nat)
  \/ exists i best,
       ctors !! i = Some best
       /\ 0 < Spec.parameterCount best
       /\ (forall j c, ctors !! j = Some c ->
             Spec.parameterCount c <= Spec.parameterCount best
             /\ (j < i -> Spec.parameterCount c < Spec.parameterCount best))
       /\ Parser.extractFieldsFromConstructor (node :: parents) body content
          = Spec.formalParameters content best.
Proof.
  intros Hbody ctors. unfold Parser.extractFieldsFromConstructor.
  rewrite traverseTree_preorder.
  rewrite (fold_left_pointwise _
             (fun st pn => if Spec.isCandidate content pn
                           then Spec.keepFuller st (snd pn) else st))
    by (intros; apply constructorCallback_step).
  rewrite (fold_left_filter (Spec.isCandidate content)
             (fun st pn => Spec.keepFuller st (snd pn))).
  rewrite <- (fold_left_map_arg snd Spec.keepFuller).
  assert (Hctors : map snd (List.filter (Spec.isCandidate content)
                              (preorder (node :: parents) body)) = ctors).
  { unfold ctors, Spec.constructors, Spec.bodyNodes. now rewrite Hbody. }
  rewrite Hctors.
  destruct (fold_left Spec.keepFuller ctors (None, 0%nat)) as [b m] eqn:E.
  destruct (keepFuller_fold _ _ _ _ _ E) as [Hall Hcase]. cbn [fst].
  destruct Hcase as [[-> ->]|(i & c & Hi & -> & -> & Hm & Hbefore)].
  - left. split; [reflexivity|]. intros c Hc. specialize (Hall c Hc). lia.
  - right. exists i, c. repeat split; try done.
    + apply Hall. eapply list_elem_of_lookup_2; eauto.
    + intros Hj. eapply Hbefore; eauto.
    + unfold Spec.formalParameters, Spec.parametersOf.
      destruct (childForFieldName c "parameters"); [|reflexivity].
      apply (parameter_loop content _ []).
Qed.

Section Fields.
Context {ext : Externals}.

Lemma extractLayout_fields parents node content p :
  PacketInfo.fields (Parser.extractLayout parents node content p) = PacketInfo.fields p.
Proof.
  unfold Parser.extractLayout.
  destruct (childForFieldName node "body") as [body|]; [|reflexivity].
  destruct (traverseTree _ _ _ _); reflexivity.
Qed.

(** What the field extraction computes.  The field list of an extracted
    packet comes from the non-copy constructors found in the class body.  When one of
    them has parameters, the first one with the largest parameter count
    [best] is chosen (every other has at most as many parameters, every
    earlier one fewer), and the field list is the list of its formal
    parameters (name, declared type, [@Nullable]) in order; a variadic
    parameter counts as a parameter but gives no field.  When no
    constructor has parameters, or the chosen one gives no field, the field
    list is that of the non-static field declarations in declaration
    order. *)
Theorem fields_from_fullest_constructor parents node content category :
  let fields := PacketInfo.fields (Parser.extractPacketInfo parents node content category) in
  let ctors := Spec.constructors content parents node in
  let declared := Spec.declaredFields content parents node in
  ((forall c, c ∈ ctors -> Spec.parameterCount c = 0%nat) /\ fields = declared)
  \/ exists i best,
       ctors !! i = Some best
       /\ 0 < Spec.parameterCount best
       /\ (forall j c, ctors !! j = Some c ->
             Spec.parameterCount c <= Spec.parameterCount best
             /\ (j < i -> Spec.parameterCount c < Spec.parameterCount best))
       /\ fields = match Spec.formalParameters content best with
                   | [] => declared
                   | f :: fs => f :: fs
                   end.
Proof.
  intros fields ctors declared. subst fields.
  unfold Parser.extractPacketInfo. rewrite extractLayout_fields.
  set (p0 := Parser.extractConstants parents node content _).
  assert (Hp0 : PacketInfo.fields p0 = []) by (unfold p0; now rewrite extractConstants_fields).
  unfold Parser.extractFields.
  destruct (childForFieldName node "body") as [body|] eqn:Hbody.
  - assert (Hfallback :
      PacketInfo.fields
        (traverseTree (Parser.fieldDeclarationCallback content) (node :: parents) body p0)
      = declared).
    { change (Parser.fieldDeclarationCallback content) with
        (fun (_ : list SyntaxNode) n p => Parser.fieldDeclarationCallback content [] n p).
      rewrite traverseTree_nodes, fieldDeclaration_fold, Hp0.
      unfold declared, Spec.declaredFields, Spec.bodyNodes. now rewrite Hbody. }
    destruct (extractFieldsFromConstructor_spec parents node content body Hbody)
      as [[Hnil Hzero]|(i & best & Hi & Hpos & Hmax & Hfields)].
    + left. split; [exact Hzero|]. rewrite Hnil. cbn [length Nat.ltb Nat.leb]. exact Hfallback.
    + right. exists i, best.
      split; [exact Hi|]. split; [exact Hpos|]. split; [exact Hmax|].
      rewrite Hfields.
      destruct (Spec.formalParameters content best) as [|f fs]; [exact Hfallback|].
      reflexivity.
  - left. unfold ctors, declared, Spec.constructors, Spec.declaredFields, Spec.bodyNodes.
    rewrite Hbody. split; [|exact Hp0]. intros c Hc. inversion Hc.
Qed.

End Fields.

(** C1.  The extraction at the class [Log], whose only constructor is
    [Log(int level, String... lines)]: this constructor is the one with
    the most parameters, the two parameters [level] and [lines], and the
    claim asks for exactly its parameter list.  The field list that is
    extracted has the one entry [level]: the count of parameters that
    picks the constructor includes the variadic parameter, the loop that
    makes the fields leaves it out. *)
Lemma variadic_parameter_is_dropped :
  let p := Parser.extractPacketInfo (ext := Samples.sampleExternals)
             [Samples.logRoot] Samples.logClass Samples.logSource "uncategorized" in
  Spec.constructors Samples.logSource [Samples.logRoot] Samples.logClass
  = [Samples.logConstructor]
  /\ Spec.parameterCount Samples.logConstructor = 2%nat
  /\ Spec.parameterNames Samples.logSource Samples.logConstructor = ["level"; "lines"]
  /\ map FieldInfo.name (PacketInfo.fields p) = ["level"]
  /\ length (PacketInfo.fields p) <> Spec.parameterCount Samples.logConstructor.
Proof. cbv zeta. repeat split. vm_compute. discriminate. Qed.

Lemma layout_constants_from_declarations_witness :
  let p := Parser.extractPacketInfo (ext := Samples.sampleExternals)
             [Samples.pingRoot] Samples.pingClass Samples.pingSource "uncategorized" in
  Spec.isAscii Samples.pingSource = true
  /\ PacketInfo.packetId p = None
  /\ PacketInfo.isCompressed p = true
  /\ PacketInfo.fixedBlockSize p = 12%Z
  /\ PacketInfo.maxSize p = 16%Z
  /\ PacketInfo.variableFieldCount p = 0%Z.
Proof.
  cbv zeta.
  assert (Hascii : Spec.isAscii Samples.pingSource = true) by (vm_compute; reflexivity).
  destruct (layout_constants_from_declarations (ext := Samples.sampleExternals)
              [Samples.pingRoot] Samples.pingClass Samples.pingSource "uncategorized" Hascii)
    as (Hid & Hflag & _ & Hfixed & Hcount & _ & Hmax & _).
  split; [exact Hascii|].
  split; [rewrite Hid; [vm_compute; reflexivity|vm_compute; exact I]|].
  split; [rewrite Hflag; vm_compute; reflexivity|].
  split; [rewrite Hfixed; [vm_compute; reflexivity|vm_compute; discriminate]|].
  split; [rewrite Hmax; [vm_compute; reflexivity|vm_compute; discriminate]|].
  rewrite Hcount; [vm_compute; reflexivity|vm_compute; exact I].
Defined.

(** The message identifier of [Ping], which declares none, is absent
    rather than zero. *)
Lemma packetId_absent_is_not_zero :
  let p := Parser.extractPacketInfo (ext := Samples.sampleExternals)
             [Samples.pingRoot] Samples.pingClass Samples.pingSource "uncategorized" in
  Spec.declares "PACKET_ID"
    (Spec.constantDeclarations Samples.pingSource [Samples.pingRoot] Samples.pingClass) = false
  /\ PacketInfo.packetId p = None
  /\ PacketInfo.packetId p <> Some 0%Z.
Proof. cbv zeta. repeat split. vm_compute. discriminate. Qed.

(** ** Directory walks *)

Section FsInduction.
Variable P : FsEntry -> Prop.
Hypothesis file_case : forall name content, P (File name content).
Hypothesis directory_case : forall name entries, Forall P entries -> P (Directory name entries).

Fixpoint FsEntry_forall_ind (e : FsEntry) : P e :=
  match e with
  | File name content => file_case name content
  | Directory name entries =>
      directory_case name entries
        ((fix all (l : list FsEntry) : Forall P l :=
            match l with
            | [] => @List.Forall_nil _ P
            | c :: r => @List.Forall_cons _ P c r (FsEntry_forall_ind c) (all r)
            end) entries)
  end.
End FsInduction.

Lemma relPathFrom_snoc pf base segments name :
  Spec.relPathFrom pf base (segments ++ [name])
  = Parser.join pf (Spec.relPathFrom pf base segments) name.
Proof. unfold Spec.relPathFrom. now rewrite fold_left_app. Qed.

Section Walks.
Context {ext : Externals}.
Variable pf : Platform.
Variable base : string.

(** Each of the three directory walks visits the [.java] files in the
    order of [Spec.filesOfEntry] and hands the file parser the relative path
    of the directory of the file. *)
Lemma parseEntityEntry_files entry :
  forall segments this,
    Parser.parseEntityEntry pf entry (Spec.relPathFrom pf base segments) this
    = fold_left
        (fun this f => Parser.parseEntityFile (snd f) (Spec.relPathFrom pf base (fst f)) this)
        (Spec.filesOfEntry true segments entry) this.
Proof.
  induction entry as [name content|name entries IH] using FsEntry_forall_ind;
    intros segments this; cbn [Parser.parseEntityEntry Spec.filesOfEntry andb].
  - destruct (Js.endsWith name ".java"); reflexivity.
  - destruct (String.eqb name "packets"); [reflexivity|].
    rewrite <- relPathFrom_snoc. generalize (segments ++ [name]) as segs. intros segs.
    revert this. induction IH as [|e r He _ IHr]; intros this; [reflexivity|].
    rewrite fold_left_app, <- He. apply IHr.
Qed.

Lemma parsePacketEntry_files entry :
  forall segments result,
    Parser.parsePacketEntry pf entry (Spec.relPathFrom pf base segments) result
    = fold_left
        (fun result f =>
           match Parser.parsePacketFile (snd f) (Spec.relPathFrom pf base (fst f)) with
           | Some packet => Parser.addPacket (Spec.relPathFrom pf base (fst f)) packet result
           | None => result
           end)
        (Spec.filesOfEntry false segments entry) result.
Proof.
  induction entry as [name content|name entries IH] using FsEntry_forall_ind;
    intros segments result; cbn [Parser.parsePacketEntry Spec.filesOfEntry andb].
  - destruct (Js.endsWith name ".java"); reflexivity.
  - rewrite <- relPathFrom_snoc. generalize (segments ++ [name]) as segs. intros segs.
    revert result. induction IH as [|e r He _ IHr]; intros result; [reflexivity|].
    rewrite fold_left_app, <- He. apply IHr.
Qed.

Lemma parseEnumsFromPacketsEntry_files entry :
  forall segments this,
    Parser.parseEnumsFromPacketsEntry pf entry (Spec.relPathFrom pf base segments) this
    = fold_left
        (fun this f => Parser.parseEnumsFromFile (snd f) (Spec.relPathFrom pf base (fst f)) this)
        (Spec.filesOfEntry false segments entry) this.
Proof.
  induction entry as [name content|name entries IH] using FsEntry_forall_ind;
    intros segments this; cbn [Parser.parseEnumsFromPacketsEntry Spec.filesOfEntry andb].
  - destruct (Js.endsWith name ".java"); reflexivity.
  - rewrite <- relPathFrom_snoc. generalize (segments ++ [name]) as segs. intros segs.
    revert this. induction IH as [|e r He _ IHr]; intros this; [reflexivity|].
    rewrite fold_left_app, <- He. apply IHr.
Qed.

End Walks.

Lemma fold_left_invariant {S A : Type} (Inv : S -> Prop) (f : S -> A -> S) (l : list A) :
  (forall s a, a ∈ l -> Inv s -> Inv (f s a)) ->
  forall s, Inv s -> Inv (fold_left f l s).
Proof.
  induction l as [|a l IH]; intros Hstep s Hs; [exact Hs|].
  cbn. apply IH.
  - intros s' a' Ha'. apply Hstep. now apply list_elem_of_further.
  - apply Hstep; [apply list_elem_of_here|exact Hs].
Qed.

Section Directories.
Context {ext : Externals}.
Variable pf : Platform.

Lemma parseEntityDirectory_files entries base this :
  Parser.parseEntityDirectory pf entries base this
  = fold_left
      (fun this f => Parser.parseEntityFile (snd f) (Spec.relPathFrom pf base (fst f)) this)
      (Spec.javaFiles true entries) this.
Proof.
  unfold Parser.parseEntityDirectory, Spec.javaFiles. revert this.
  induction entries as [|e r IH]; intros this; [reflexivity|].
  cbn [fold_left flat_map]. rewrite fold_left_app, IH.
  now rewrite <- (parseEntityEntry_files pf base e []).
Qed.

Lemma parsePacketDirectory_files entries base result :
  Parser.parsePacketDirectory pf entries base result
  = fold_left
      (fun result f =>
         match Parser.parsePacketFile (snd f) (Spec.relPathFrom pf base (fst f)) with
         | Some packet => Parser.addPacket (Spec.relPathFrom pf base (fst f)) packet result
         | None => result
         end)
      (Spec.javaFiles false entries) result.
Proof.
  unfold Parser.parsePacketDirectory, Spec.javaFiles. revert result.
  induction entries as [|e r IH]; intros result; [reflexivity|].
  cbn [fold_left flat_map]. rewrite fold_left_app, IH.
  now rewrite <- (parsePacketEntry_files pf base e []).
Qed.

Lemma parseEnumsFromPacketsDirectory_files entries base this :
  Parser.parseEnumsFromPacketsDirectory pf entries base this
  = fold_left
      (fun this f => Parser.parseEnumsFromFile (snd f) (Spec.relPathFrom pf base (fst f)) this)
      (Spec.javaFiles false entries) this.
Proof.
  unfold Parser.parseEnumsFromPacketsDirectory, Spec.javaFiles. revert this.
  induction entries as [|e r IH]; intros this; [reflexivity|].
  cbn [fold_left flat_map]. rewrite fold_left_app, IH.
  now rewrite <- (parseEnumsFromPacketsEntry_files pf base e []).
Qed.

(** *** The second pass never overwrites (C9) *)

Lemma enumsFileCallback_frame content category relPath parents node this name e :
  Parser.enums this !! name = Some e ->
  Parser.enums (Parser.enumsFileCallback content category relPath parents node this) !! name
  = Some e.
Proof.
  intros H. unfold Parser.enumsFileCallback.
  destruct (hasType "enum_declaration" node); [|exact H].
  destruct (Parser.extractEnumInfo _ _ _ _ _) as [info|]; [|exact H].
  destruct (bool_decide (is_Some (Parser.enums this !! EnumInfo.name info))) eqn:E;
    cbn [negb]; [exact H|].
  apply bool_decide_eq_false in E. cbn [Parser.enums].
  rewrite lookup_insert_ne; [exact H|].
  intros Heq. apply E. rewrite Heq, H. eauto.
Qed.

Lemma enumsFileCallback_dataClasses content category relPath parents node this :
  Parser.dataClasses (Parser.enumsFileCallback content category relPath parents node this)
  = Parser.dataClasses this.
Proof.
  unfold Parser.enumsFileCallback.
  destruct (hasType "enum_declaration" node); [|reflexivity].
  destruct (Parser.extractEnumInfo _ _ _ _ _) as [info|]; [|reflexivity].
  destruct (negb _); reflexivity.
Qed.

Lemma parseEnumsFromFile_frame file relPath this name e :
  Parser.enums this !! name = Some e ->
  Parser.enums (Parser.parseEnumsFromFile file relPath this) !! name = Some e.
Proof.
  intros H. unfold Parser.parseEnumsFromFile.
  destruct file as [content|]; [|exact H].
  destruct (_ =? 0)%nat; [exact H|].
  destruct (parse content) as [rootNode|]; [|exact H].
  rewrite traverseTree_preorder.
  apply (fold_left_invariant (fun this => Parser.enums this !! name = Some e)); [|exact H].
  intros s a _ Hs. now apply enumsFileCallback_frame.
Qed.

Lemma parseEnumsFromFile_dataClasses file relPath this :
  Parser.dataClasses (Parser.parseEnumsFromFile file relPath this) = Parser.dataClasses this.
Proof.
  unfold Parser.parseEnumsFromFile.
  destruct file as [content|]; [|reflexivity].
  destruct (_ =? 0)%nat; [reflexivity|].
  destruct (parse content) as [rootNode|]; [|reflexivity].
  rewrite traverseTree_preorder.
  apply (fold_left_invariant
           (fun s => Parser.dataClasses s = Parser.dataClasses this)); [|reflexivity].
  intros s a _ Hs. now rewrite enumsFileCallback_dataClasses.
Qed.

Lemma parseEnumsFromPacketsDirectory_frame entries relPath this name e :
  Parser.enums this !! name = Some e ->
  Parser.enums (Parser.parseEnumsFromPacketsDirectory pf entries relPath this) !! name
  = Some e.
Proof.
  intros H. rewrite parseEnumsFromPacketsDirectory_files.
  apply (fold_left_invariant (fun this => Parser.enums this !! name = Some e)); [|exact H].
  intros s a _ Hs. now apply parseEnumsFromFile_frame.
Qed.

(** In [parseAll] the second pass starts from the maps the pass over the
    protocol entities has filled, so every enum of that first pass is in
    the result unchanged. *)
Lemma parseAll_keeps_first_pass_enums root results name e :
  Parser.parseAll pf root = Some results ->
  Parser.enums (Parser.parseEntityDirectory pf root "" (Parser.mkMaps ∅ ∅)) !! name = Some e ->
  ParsedResults.enums results !! name = Some e.
Proof.
  intros Hall H. unfold Parser.parseAll in Hall.
  destruct (Parser.packetsDir root) as [packets|]; [|discriminate].
  injection Hall as <-. cbn [ParsedResults.enums].
  now apply parseEnumsFromPacketsDirectory_frame.
Qed.

(** C9. The pass over the packets directory keeps every entry of the enum
    map: an enum that is registered when the pass starts is still
    registered, with the same value, when it ends; the pass adds an enum
    only under a name that is not registered yet. *)
Theorem second_pass_keeps_registered_enums entries relPath this name e :
  Parser.enums this !! name = Some e ->
  Parser.enums (Parser.parseEnumsFromPacketsDirectory pf entries relPath this) !! name
  = Some e.
Proof.
  intros H. unfold Parser.parseEnumsFromPacketsDirectory.
  apply (fold_left_invariant (fun this => Parser.enums this !! name = Some e)); [|exact H].
  intros s entry _ Hs.
  rewrite <- (parseEnumsFromPacketsDirectory_frame [entry] relPath s name e Hs).
  reflexivity.
Qed.

End Directories.

Example protocolDir_enums :
  (fun r => map (fun kv => (fst kv, EnumInfo.category (snd kv),
                            map EnumValue.name (EnumInfo.values (snd kv))))
              (map_to_list (ParsedResults.enums r)))
  <$> Parser.parseAll (ext := Samples.sampleExternals) Posix Samples.protocolDir
  = Some [("Color", "root", ["RED"; "GREEN"; "BLUE"; "ALPHA"])].
Proof. vm_compute. reflexivity. Qed.

Example protocolDir_categories :
  (fun r => map (fun kv => (fst kv, map PacketInfo.name (snd kv)))
              (map_to_list (ParsedResults.packetsByCategory r)))
  <$> Parser.parseAll (ext := Samples.sampleExternals) Win32 Samples.protocolDir
  = Some [("uncategorized", ["Ping"]); ("Auth/v2", ["Inner"])].
Proof. vm_compute. reflexivity. Qed.

Lemma second_pass_keeps_registered_enums_witness :
  let this := Parser.parseEntityDirectory (ext := Samples.sampleExternals) Posix
                Samples.protocolDir "" (Parser.mkMaps ∅ ∅) in
  exists e,
    Parser.enums this !! "Color" = Some e
    /\ map EnumValue.name (EnumInfo.values e) = ["RED"; "GREEN"; "BLUE"; "ALPHA"]
    /\ Parser.enums
         (Parser.parseEnumsFromPacketsDirectory (ext := Samples.sampleExternals) Posix
            [File "Color.java" (Some Samples.otherColorSource)] "" this) !! "Color"
       = Some e.
Proof.
  cbv zeta. eexists. split; [vm_compute; reflexivity|]. split; [reflexivity|].
  apply (second_pass_keeps_registered_enums (ext := Samples.sampleExternals) Posix).
  vm_compute. reflexivity.
Defined.

(** ** Categories (C8) *)

Lemma extractEnumInfo_category parents node content category relPath info :
  Parser.extractEnumInfo parents node content category relPath = Some info ->
  EnumInfo.category info = category.
Proof.
  unfold Parser.extractEnumInfo. destruct (negb _); [discriminate|].
  now intros [= <-].
Qed.

Section Categories.
Context {ext : Externals}.

Lemma extractDataClassInfo_category parents node content category relPath info :
  Parser.extractDataClassInfo parents node content category relPath = Some info ->
  DataClassInfo.category info = category.
Proof.
  unfold Parser.extractDataClassInfo. destruct (negb _); [discriminate|].
  now intros [= <-].
Qed.

Lemma extractPacketInfo_category parents node content category :
  PacketInfo.category (Parser.extractPacketInfo parents node content category) = category.
Proof.
  unfold Parser.extractPacketInfo.
  assert (Hlayout : forall p,
    PacketInfo.category (Parser.extractLayout parents node content p) = PacketInfo.category p).
  { intros p. unfold Parser.extractLayout.
    destruct (childForFieldName node "body"); [|reflexivity].
    destruct (traverseTree _ _ _ _); reflexivity. }
  assert (Hfields : forall p,
    PacketInfo.category (Parser.extractFields parents node content p) = PacketInfo.category p).
  { intros p. unfold Parser.extractFields.
    destruct (childForFieldName node "body") as [body|]; [|reflexivity].
    destruct (0 <? _)%nat; [reflexivity|].
    change (Parser.fieldDeclarationCallback content) with
      (fun (_ : list SyntaxNode) n p => Parser.fieldDeclarationCallback content [] n p).
    rewrite traverseTree_nodes. apply fold_left_preserves.
    intros s n. unfold Parser.fieldDeclarationCallback.
    destruct (hasType _ n); [|reflexivity].
    destruct (Js.includes _ _); [reflexivity|].
    destruct (Parser.extractFieldInfo n content); reflexivity. }
  assert (Hconstants : forall p,
    PacketInfo.category (Parser.extractConstants parents node content p) = PacketInfo.category p).
  { intros p. rewrite extractConstants_fold. apply fold_left_preserves.
    intros s [name value]. cbn [fst snd].
    unfold Parser.assignConstant, Parser.assignNumeric.
    destruct (String.eqb name "IS_COMPRESSED"); [reflexivity|].
    destruct (Js.parseInt value); [|reflexivity].
    repeat match goal with
           | |- context [if ?b then _ else _] => destruct b; [reflexivity|]
           end.
    reflexivity. }
  now rewrite Hlayout, Hfields, Hconstants.
Qed.

Lemma parsePacketFile_category file relPath packet :
  Parser.parsePacketFile file relPath = Some packet ->
  PacketInfo.category packet = Js.orElse (Js.replaceBackslashes relPath) "uncategorized".
Proof.
  unfold Parser.parsePacketFile.
  destruct file as [content|]; [|discriminate].
  destruct (_ =? 0)%nat; [discriminate|].
  destruct (parse content) as [rootNode|]; [|discriminate].
  rewrite traverseTree_preorder, packetFileCallback_fold.
  destruct (last _) as [pn|]; [|discriminate].
  intros [= <-]. apply extractPacketInfo_category.
Qed.

(** What a file contributes to the maps was extracted from that file. *)
Lemma parseEntityFile_origin file relPath this
    (Qe : EnumInfo.t -> Prop) (Qd : DataClassInfo.t -> Prop) :
  (forall e, Spec.enumOfFile file relPath e -> Qe e) ->
  (forall d, Spec.dataClassOfFile file relPath d -> Qd d) ->
  map_Forall (fun _ => Qe) (Parser.enums this)
  /\ map_Forall (fun _ => Qd) (Parser.dataClasses this) ->
  map_Forall (fun _ => Qe) (Parser.enums (Parser.parseEntityFile file relPath this))
  /\ map_Forall (fun _ => Qd) (Parser.dataClasses (Parser.parseEntityFile file relPath this)).
Proof.
  intros HQe HQd H. unfold Parser.parseEntityFile.
  destruct file as [content|]; [|exact H].
  destruct (_ =? 0)%nat; [exact H|].
  destruct (parse content) as [rootNode|] eqn:Hparse; [|exact H].
  rewrite traverseTree_preorder.
  apply (fold_left_invariant
           (fun s => map_Forall (fun _ => Qe) (Parser.enums s)
                     /\ map_Forall (fun _ => Qd) (Parser.dataClasses s))); [|exact H].
  intros s pn Hpn [He Hd]. unfold Parser.entityFileCallback.
  destruct (hasType "enum_declaration" (snd pn)).
  - destruct (Parser.extractEnumInfo _ _ _ _ _) as [info|] eqn:E; [|now split].
    cbn [Parser.enums Parser.dataClasses]. split; [|exact Hd].
    apply map_Forall_insert_2; [|exact He].
    apply HQe. exists content, rootNode, pn. auto.
  - destruct (hasType "class_declaration" (snd pn)); [|now split].
    destruct (Parser.extractDataClassInfo _ _ _ _ _) as [info|] eqn:E; [|now split].
    destruct (negb _); [|now split].
    cbn [Parser.enums Parser.dataClasses]. split; [exact He|].
    apply map_Forall_insert_2; [|exact Hd].
    apply HQd. exists content, rootNode, pn. auto.
Qed.

Lemma parseEnumsFromFile_origin file relPath this (Qe : EnumInfo.t -> Prop) :
  (forall e, Spec.enumOfFile file relPath e -> Qe e) ->
  map_Forall (fun _ => Qe) (Parser.enums this) ->
  map_Forall (fun _ => Qe) (Parser.enums (Parser.parseEnumsFromFile file relPath this)).
Proof.
  intros HQe H. unfold Parser.parseEnumsFromFile.
  destruct file as [content|]; [|exact H].
  destruct (_ =? 0)%nat; [exact H|].
  destruct (parse content) as [rootNode|] eqn:Hparse; [|exact H].
  rewrite traverseTree_preorder.
  apply (fold_left_invariant (fun s => map_Forall (fun _ => Qe) (Parser.enums s))); [|exact H].
  intros s pn Hpn He. unfold Parser.enumsFileCallback.
  destruct (hasType "enum_declaration" (snd pn)); [|exact He].
  destruct (Parser.extractEnumInfo _ _ _ _ _) as [info|] eqn:E; [|exact He].
  destruct (negb _); [|exact He].
  cbn [Parser.enums]. apply map_Forall_insert_2; [|exact He].
  apply HQe. exists content, rootNode, pn. auto.
Qed.

Lemma enumOfFile_category file relPath e :
  Spec.enumOfFile file relPath e ->
  EnumInfo.category e = Js.orElse (Js.replaceBackslashes relPath) "root".
Proof.
  intros (content & rootNode & pn & _ & _ & _ & E).
  exact (extractEnumInfo_category _ _ _ _ _ _ E).
Qed.

Lemma dataClassOfFile_category file relPath d :
  Spec.dataClassOfFile file relPath d ->
  DataClassInfo.category d = Js.orElse (Js.replaceBackslashes relPath) "root".
Proof.
  intros (content & rootNode & pn & _ & _ & _ & E).
  exact (extractDataClassInfo_category _ _ _ _ _ _ E).
Qed.

Lemma addPacket_categories relPath packet result (Qp : string -> PacketInfo.t -> Prop) :
  Qp (Js.orElse (Js.replaceBackslashes relPath) "uncategorized") packet ->
  map_Forall (fun cat ps => Forall (Qp cat) ps) result ->
  map_Forall (fun cat ps => Forall (Qp cat) ps) (Parser.addPacket relPath packet result).
Proof.
  intros Hp H. unfold Parser.addPacket.
  set (category := Js.orElse (Js.replaceBackslashes relPath) "uncategorized") in *.
  assert (H' : map_Forall (fun cat ps => Forall (Qp cat) ps)
                 (if decide (is_Some (result !! category)) then result
                  else <[category := []]> result)).
  { destruct (decide _); [exact H|]. apply map_Forall_insert_2; [constructor|exact H]. }
  revert H'. generalize (if decide (is_Some (result !! category)) then result
                         else <[category := []]> result) as r. intros r Hr.
  apply map_Forall_insert_2; [|exact Hr].
  apply Forall_app. split; [|repeat constructor; exact Hp].
  destruct (r !! category) as [ps|] eqn:E; [exact (Hr _ _ E)|constructor].
Qed.

End Categories.

Section CategoryTheorem.
Context {ext : Externals}.
Variable pf : Platform.

(** C8, as the code has it.  Every enum, data class and packet that
    [parseAll] returns was extracted from a [.java] file found below the
    protocol directory (walked without the directories called [packets])
    or below its [packets] directory, and its category is the path of the
    directory of that file relative to the directory walked, with every
    backslash replaced by a slash and the case of the directory names kept;
    for a file at the top level it is [root] for enums and data classes
    and [uncategorized] for packets.  A packet is filed under its own
    category. *)
Theorem category_is_relative_directory root results :
  Parser.parseAll pf root = Some results ->
  exists packets,
    Parser.packetsDir root = Some packets
    /\ (forall name e,
          ParsedResults.enums results !! name = Some e ->
          exists segments file,
            ((segments, file) ∈ Spec.javaFiles true root
             \/ (segments, file) ∈ Spec.javaFiles false packets)
            /\ Spec.enumOfFile file (Spec.relPathFrom pf "" segments) e
            /\ EnumInfo.category e = Spec.categoryOf "root" pf segments)
    /\ (forall name d,
          ParsedResults.dataClasses results !! name = Some d ->
          exists segments file,
            (segments, file) ∈ Spec.javaFiles true root
            /\ Spec.dataClassOfFile file (Spec.relPathFrom pf "" segments) d
            /\ DataClassInfo.category d = Spec.categoryOf "root" pf segments)
    /\ (forall category packetList p,
          ParsedResults.packetsByCategory results !! category = Some packetList ->
          p ∈ packetList ->
          exists segments file,
            (segments, file) ∈ Spec.javaFiles false packets
            /\ Parser.parsePacketFile file (Spec.relPathFrom pf "" segments) = Some p
            /\ PacketInfo.category p = Spec.categoryOf "uncategorized" pf segments
            /\ category = PacketInfo.category p).
Proof.
  unfold Parser.parseAll.
  destruct (Parser.packetsDir root) as [packets|]; [|discriminate].
  intros [= <-]. exists packets. split; [reflexivity|].
  cbn [ParsedResults.enums ParsedResults.dataClasses ParsedResults.packetsByCategory].
  set (Qe := fun e : EnumInfo.t =>
    exists segments file,
      ((segments, file) ∈ Spec.javaFiles true root
       \/ (segments, file) ∈ Spec.javaFiles false packets)
      /\ Spec.enumOfFile file (Spec.relPathFrom pf "" segments) e
      /\ EnumInfo.category e = Spec.categoryOf "root" pf segments).
  set (Qd := fun d : DataClassInfo.t =>
    exists segments file,
      (segments, file) ∈ Spec.javaFiles true root
      /\ Spec.dataClassOfFile file (Spec.relPathFrom pf "" segments) d
      /\ DataClassInfo.category d = Spec.categoryOf "root" pf segments).
  set (Qp := fun (category : string) (p : PacketInfo.t) =>
    exists segments file,
      (segments, file) ∈ Spec.javaFiles false packets
      /\ Parser.parsePacketFile file (Spec.relPathFrom pf "" segments) = Some p
      /\ PacketInfo.category p = Spec.categoryOf "uncategorized" pf segments
      /\ category = PacketInfo.category p).
  set (this1 := Parser.parseEntityDirectory pf root "" (Parser.mkMaps ∅ ∅)).
  assert (H1 : map_Forall (fun _ => Qe) (Parser.enums this1)
               /\ map_Forall (fun _ => Qd) (Parser.dataClasses this1)).
  { unfold this1. rewrite parseEntityDirectory_files.
    apply (fold_left_invariant
             (fun s => map_Forall (fun _ => Qe) (Parser.enums s)
                       /\ map_Forall (fun _ => Qd) (Parser.dataClasses s))).
    - intros s [segments file] Hf Hs. cbn [fst snd].
      apply parseEntityFile_origin; [| |exact Hs].
      + intros e He. exists segments, file. split; [now left|]. split; [exact He|].
        exact (enumOfFile_category _ _ _ He).
      + intros d Hd. exists segments, file. split; [exact Hf|]. split; [exact Hd|].
        exact (dataClassOfFile_category _ _ _ Hd).
    - split; apply map_Forall_empty. }
  set (this2 := Parser.parseEnumsFromPacketsDirectory pf packets "" this1).
  assert (H2 : map_Forall (fun _ => Qe) (Parser.enums this2)
               /\ Parser.dataClasses this2 = Parser.dataClasses this1).
  { unfold this2. rewrite parseEnumsFromPacketsDirectory_files.
    apply (fold_left_invariant
             (fun s => map_Forall (fun _ => Qe) (Parser.enums s)
                       /\ Parser.dataClasses s = Parser.dataClasses this1)).
    - intros s [segments file] Hf [Hs Hd]. cbn [fst snd]. split.
      + apply parseEnumsFromFile_origin; [|exact Hs].
        intros e He. exists segments, file. split; [now right|]. split; [exact He|].
        exact (enumOfFile_category _ _ _ He).
      + now rewrite parseEnumsFromFile_dataClasses.
    - split; [apply H1|reflexivity]. }
  assert (H3 : map_Forall (fun cat ps => Forall (Qp cat) ps)
                 (Parser.parsePacketDirectory pf packets "" ∅)).
  { rewrite parsePacketDirectory_files.
    apply (fold_left_invariant (map_Forall (fun cat ps => Forall (Qp cat) ps))).
    - intros s [segments file] Hf Hs. cbn [fst snd].
      destruct (Parser.parsePacketFile _ _) as [p|] eqn:E; [|exact Hs].
      apply addPacket_categories; [|exact Hs].
      pose proof (parsePacketFile_category _ _ _ E) as Hc.
      exists segments, file. split; [exact Hf|]. split; [exact E|].
      split; [exact Hc|now rewrite Hc].
    - apply map_Forall_empty. }
  split; [|split].
  - intros name e He. exact (proj1 H2 _ _ He).
  - intros name d Hd. rewrite (proj2 H2) in Hd. exact (proj2 H1 _ _ Hd).
  - intros category packetList p Hl Hp.
    specialize (H3 _ _ Hl). rewrite Forall_forall in H3. now apply H3.
Qed.

End CategoryTheorem.

Lemma append_String x (a b : string) : (String x a ++ b = String x (a ++ b))%string.
Proof. reflexivity. Qed.

Lemma string_app_assoc (a b c : string) : ((a ++ b) ++ c = a ++ (b ++ c))%string.
Proof.
  induction a as [|x a IH]; [reflexivity|]. rewrite !append_String. congruence.
Qed.

Lemma replaceBackslashes_app (a b : string) :
  Js.replaceBackslashes (a ++ b) = (Js.replaceBackslashes a ++ Js.replaceBackslashes b)%string.
Proof.
  induction a as [|x a IH]; [reflexivity|].
  rewrite append_String. cbn [Js.replaceBackslashes]. rewrite append_String. congruence.
Qed.

Lemma join_fold_concat pf (segments : list string) :
  forall acc, acc <> "" ->
    fold_left (Parser.join pf) segments acc = String.concat (Parser.sep pf) (acc :: segments).
Proof.
  induction segments as [|s r IH]; intros acc Hacc; [reflexivity|].
  cbn [fold_left]. unfold Parser.join at 2.
  destruct acc as [|x acc]; [contradiction|]. cbn [Js.truthy].
  rewrite IH by discriminate.
  set (a := String x acc).
  change (String.concat (Parser.sep pf) (a :: s :: r))
    with (a ++ Parser.sep pf ++ String.concat (Parser.sep pf) (s :: r))%string.
  destruct r as [|t r]; [reflexivity|].
  change (String.concat (Parser.sep pf) ((a ++ Parser.sep pf ++ s)%string :: t :: r))
    with ((a ++ Parser.sep pf ++ s) ++ Parser.sep pf
          ++ String.concat (Parser.sep pf) (t :: r))%string.
  change (String.concat (Parser.sep pf) (s :: t :: r))
    with (s ++ Parser.sep pf ++ String.concat (Parser.sep pf) (t :: r))%string.
  now rewrite !string_app_assoc.
Qed.

Lemma replaceBackslashes_concat pf (segments : list string) :
  Forall Spec.plainName segments ->
  Js.replaceBackslashes (String.concat (Parser.sep pf) segments) = String.concat "/" segments.
Proof.
  induction 1 as [|s r [_ Hs] _ IH]; [reflexivity|].
  destruct r as [|t r]; [exact Hs|].
  change (String.concat (Parser.sep pf) (s :: t :: r))
    with (s ++ Parser.sep pf ++ String.concat (Parser.sep pf) (t :: r))%string.
  change (String.concat "/" (s :: t :: r))
    with (s ++ "/" ++ String.concat "/" (t :: r))%string.
  rewrite !replaceBackslashes_app, Hs, IH. now destruct pf.
Qed.

(** For directory names that are not empty and have no backslash, the
    category is the names joined with slashes, whatever the platform. *)
Lemma categoryOf_slash_joined fallback pf segments :
  Forall Spec.plainName segments ->
  Spec.categoryOf fallback pf segments
  = match segments with
    | [] => fallback
    | _ :: _ => String.concat "/" segments
    end.
Proof.
  intros H. unfold Spec.categoryOf, Spec.relPathFrom.
  destruct segments as [|s r]; [reflexivity|].
  cbn [fold_left]. change (Parser.join pf "" s) with s.
  pose proof (Forall_inv H) as [Hs _].
  rewrite join_fold_concat by exact Hs.
  rewrite replaceBackslashes_concat by exact H.
  destruct s as [|x s]; [contradiction|].
  destruct r; reflexivity.
Qed.

Lemma category_is_relative_directory_witness :
  exists results packets,
    Parser.parseAll (ext := Samples.sampleExternals) Win32 Samples.protocolDir = Some results
    /\ Parser.packetsDir Samples.protocolDir = Some packets
    /\ (forall category packetList p,
          ParsedResults.packetsByCategory results !! category = Some packetList ->
          p ∈ packetList ->
          exists segments file,
            (segments, file) ∈ Spec.javaFiles false packets
            /\ Parser.parsePacketFile (ext := Samples.sampleExternals) file
                 (Spec.relPathFrom Win32 "" segments) = Some p
            /\ PacketInfo.category p = Spec.categoryOf "uncategorized" Win32 segments
            /\ category = PacketInfo.category p).
Proof.
  destruct (Parser.parseAll (ext := Samples.sampleExternals) Win32 Samples.protocolDir)
    as [results|] eqn:E; [|vm_compute in E; discriminate].
  destruct (category_is_relative_directory (ext := Samples.sampleExternals)
              Win32 Samples.protocolDir results E) as (packets & Hp & _ & _ & H).
  exists results, packets. auto.
Defined.

(** The category keeps the case of the directory names: the packet found
    in [packets/Auth/v2] is filed under [Auth/v2], and the data class found
    in [Chat] has the category [Chat]. *)
Lemma category_is_not_lower_cased :
  exists results p d,
    Parser.parseAll (ext := Samples.sampleExternals) Posix Samples.protocolDir = Some results
    /\ ParsedResults.packetsByCategory results !! "Auth/v2" = Some [p]
    /\ PacketInfo.category p = "Auth/v2"
    /\ PacketInfo.category p <> Spec.toLowerCase (String.concat "/" ["Auth"; "v2"])
    /\ ParsedResults.dataClasses results !! "Chat" = Some d
    /\ DataClassInfo.category d = "Chat"
    /\ DataClassInfo.category d <> Spec.toLowerCase (String.concat "/" ["Chat"]).
Proof.
  do 3 eexists. split; [vm_compute; reflexivity|].
  split; [vm_compute; reflexivity|].
  split; [reflexivity|]. split; [vm_compute; discriminate|].
  split; [vm_compute; reflexivity|].
  split; [reflexivity|]. vm_compute. discriminate.
Qed.

(** ** The layout analyzer *)

Lemma ceilDiv_least n k :
  0 < k ->
  n <= Spec.ceilDiv n k * k /\ forall m, n <= m * k -> Spec.ceilDiv n k <= m.
Proof.
  intros Hk. unfold Spec.ceilDiv.
  pose proof (Nat.div_mod_eq (n + k - 1) k) as E.
  pose proof (Nat.mod_upper_bound (n + k - 1) k ltac:(lia)) as U.
  split; [nia|].
  intros m Hm. apply Nat.lt_succ_r, Nat.Div0.div_lt_upper_bound. nia.
Qed.

(** The constructor never leaves the limit at zero: an omitted limit and
    the limit 0 both become 5. *)
Lemma new_limit service limit :
  Analyzer.maxConcurrency (Analyzer.new service limit)
  = match limit with
    | Some k => if (k =? 0)%Z then 5%Z else k
    | None => 5%Z
    end
  /\ Analyzer.maxConcurrency (Analyzer.new service limit) <> 0%Z.
Proof.
  split; [reflexivity|]. cbn. destruct limit as [k|]; [|discriminate].
  destruct (Z.eqb_spec k 0); [discriminate|assumption].
Qed.

Lemma ceilDiv_0 k : Spec.ceilDiv 0 k = 0%nat.
Proof.
  unfold Spec.ceilDiv. destruct k as [|k]; [reflexivity|].
  apply Nat.div_small. lia.
Qed.

Lemma ceilDiv_step n k :
  0 < k -> 0 < n -> Spec.ceilDiv n k = S (Spec.ceilDiv (n - k) k).
Proof.
  intros Hk Hn. unfold Spec.ceilDiv.
  replace (n + k - 1)%nat with ((n - 1) + 1 * k)%nat by lia.
  rewrite Nat.div_add by lia. rewrite Nat.add_1_r. f_equal.
  destruct (Nat.le_gt_cases k n).
  - f_equal. lia.
  - replace (n - k + k - 1)%nat with (k - 1)%nat by lia.
    rewrite !Nat.div_small by lia. reflexivity.
Qed.

(** [analyzePacket] never throws: it issues no request for a packet
    without context, and one request otherwise. *)
Lemma analyzePacket_spec this packet w :
  Analyzer.analyzePacket this packet w
  = if Analyzer.hasContext packet
    then (Analyzer.Returned (Spec.answer this (length w) packet), w ++ [Spec.prompt packet])
    else (Analyzer.Returned None, w).
Proof.
  unfold Analyzer.analyzePacket, Spec.answer, Spec.prompt.
  destruct (Analyzer.hasContext packet); cbn [negb]; [|reflexivity].
  unfold Analyzer.tryCatch, Analyzer.bind, Analyzer.generateText, Analyzer.ret.
  destruct (Analyzer.service this (length w) _) as [message|[parsed|]]; reflexivity.
Qed.

Lemma answers_app this start (l1 l2 : list PacketInfo.t) :
  Spec.answers this start (l1 ++ l2)
  = Spec.answers this start l1 ++ Spec.answers this (start + length l1) l2.
Proof.
  unfold Spec.answers. rewrite imap_app. f_equal.
  apply imap_ext. intros i p _. cbn. do 2 f_equal. lia.
Qed.

Lemma answers_cons this start p (l : list PacketInfo.t) :
  Spec.answers this start (p :: l)
  = (PacketInfo.name p, Spec.answer this start p) :: Spec.answers this (S start) l.
Proof.
  unfold Spec.answers. cbn [imap]. rewrite Nat.add_0_r. f_equal.
  apply imap_ext. intros i q _. cbn. do 2 f_equal. lia.
Qed.

Lemma promiseAll_members this (batch : list PacketInfo.t) :
  Forall (fun p => Analyzer.hasContext p = true) batch ->
  forall w,
    Analyzer.promiseAll (map (Analyzer.analyzeMember this) batch) w
    = (Analyzer.Returned (Spec.answers this (length w) batch), w ++ map Spec.prompt batch).
Proof.
  induction 1 as [|p batch Hp _ IH]; intros w.
  - cbn. now rewrite app_nil_r.
  - cbn [map Analyzer.promiseAll].
    unfold Analyzer.analyzeMember at 1, Analyzer.bind.
    rewrite analyzePacket_spec, Hp. unfold Analyzer.ret.
    rewrite IH, length_app, answers_cons, <- app_assoc. cbn [length app].
    rewrite Nat.add_1_r. reflexivity.
Qed.

Lemma mergeBatch_app l1 l2 results :
  Analyzer.mergeBatch (l1 ++ l2) results
  = Analyzer.mergeBatch l2 (Analyzer.mergeBatch l1 results).
Proof. unfold Analyzer.mergeBatch. apply fold_left_app. Qed.

(** The loop of [analyzePackets], for a queue of packets with context:
    either the fuel runs out, or the loop ends with the merged answers of
    the whole queue, having cut it into groups. *)
Lemma drain_spec this fuel :
  forall queue results batches w,
    Forall (fun p => Analyzer.hasContext p = true) queue ->
    let k := Z.to_nat (Analyzer.maxConcurrency this) in
    (exists w',
        Analyzer.drain fuel this queue results batches w = (Analyzer.Returned None, w')
        /\ (0 < k -> fuel < length queue))
    \/ exists groups,
         Analyzer.drain fuel this queue results batches w
         = (Analyzer.Returned
              (Some (Analyzer.mergeBatch (Spec.answers this (length w) queue) results,
                     batches ++ groups)),
            w ++ map Spec.prompt queue)
         /\ concat groups = queue
         /\ Forall (fun g => 0 < length g <= k) groups
         /\ length groups = Spec.ceilDiv (length queue) k
         /\ (queue <> [] -> 0 < k).
Proof.
  induction fuel as [|fuel IH]; intros queue results batches w Hq k.
  - destruct queue as [|p q].
    + right. exists []. cbn. rewrite !app_nil_r. repeat split; try done.
      now rewrite ceilDiv_0.
    + left. exists w. split; [reflexivity|]. cbn. lia.
  - destruct queue as [|p q].
    + right. exists []. cbn. rewrite !app_nil_r. repeat split; try done.
      now rewrite ceilDiv_0.
    + set (queue := p :: q) in *.
      assert (Hdrain :
        Analyzer.drain (S fuel) this queue results batches w
        = Analyzer.drain fuel this (skipn k queue)
            (Analyzer.mergeBatch (Spec.answers this (length w) (firstn k queue)) results)
            (batches ++ [firstn k queue]) (w ++ map Spec.prompt (firstn k queue))).
      { unfold queue at 1. cbn [Analyzer.drain]. unfold Analyzer.splice0. fold k. fold queue.
        unfold Analyzer.bind at 1.
        rewrite promiseAll_members by (now apply Forall_take). reflexivity. }
      rewrite Hdrain.
      destruct (IH (skipn k queue)
                  (Analyzer.mergeBatch (Spec.answers this (length w) (firstn k queue)) results)
                  (batches ++ [firstn k queue]) (w ++ map Spec.prompt (firstn k queue))
                  ltac:(now apply Forall_drop))
        as [(w' & E & Hfuel)|(groups & E & Hcat & Hlen & Hcount & Hk)].
      * left. exists w'. split; [exact E|].
        intros Hpos. specialize (Hfuel Hpos). fold k in Hfuel.
        rewrite length_skipn in Hfuel. unfold queue in *. cbn [length] in *. lia.
      * fold k in Hlen, Hcount, Hk.
        assert (Hpos : 0 < k).
        { destruct k as [|k'] eqn:Ek; [|lia]. apply Hk. discriminate. }
        right. exists (firstn k queue :: groups). rewrite E.
        rewrite <- mergeBatch_app, length_app, length_map, <- answers_app.
        rewrite firstn_skipn, <- !app_assoc, <- map_app, firstn_skipn. cbn [app].
        split; [reflexivity|]. split; [cbn [concat]; now rewrite Hcat, firstn_skipn|].
        split; [|split; [|intros _; exact Hpos]].
        -- constructor; [|exact Hlen]. rewrite length_firstn.
           unfold queue. cbn [length]. lia.
        -- cbn [length]. rewrite Hcount, length_skipn.
           symmetry. apply ceilDiv_step; [exact Hpos|]. unfold queue. cbn. lia.
Qed.

Example samplePackets_batches :
  (fun r => match fst r with
            | Analyzer.Returned (Some (results, groups)) =>
                Some (map fst (map_to_list results), map (map PacketInfo.name) groups)
            | _ => None
            end)
    (Analyzer.analyzePackets 7 Samples.sampleAnalyzer Samples.samplePackets [])
  = Some (["Last"; "Pong"; "Ping"], [["Ping"; "Chat"]; ["Log"; "Pong"]; ["Last"]]).
Proof. vm_compute. reflexivity. Qed.

(** A negative limit makes [splice] remove nothing: on a queue that is
    not empty the loop never ends, whatever the fuel. *)
Lemma drain_negative_limit this fuel :
  (Analyzer.maxConcurrency this <= 0)%Z ->
  forall queue results batches w,
    queue <> [] ->
    Analyzer.drain fuel this queue results batches w = (Analyzer.Returned None, w).
Proof.
  intros HK. induction fuel as [|fuel IH]; intros queue results batches w Hq;
    destruct queue as [|p q]; try contradiction; [reflexivity|].
  cbn [Analyzer.drain]. unfold Analyzer.splice0.
  replace (Z.to_nat (Analyzer.maxConcurrency this)) with 0%nat by lia.
  cbn [firstn skipn map Analyzer.promiseAll]. unfold Analyzer.bind, Analyzer.ret.
  now apply IH.
Qed.

Example negative_limit_never_ends fuel :
  fst (Analyzer.analyzePackets fuel (Analyzer.new Samples.sampleService (Some (-1)%Z))
         Samples.samplePackets [])
  = Analyzer.Returned None.
Proof.
  unfold Analyzer.analyzePackets. now rewrite drain_negative_limit.
Qed.

(** After a batch is merged, the map holds for a name the last layout the
    batch has for it, or what it held before. *)
Lemma mergeBatch_lookup (l : list (string * option LayoutAnalysis.t)) results n :
  Analyzer.mergeBatch l results !! n
  = match last (omap (Spec.layoutFor n) l) with
    | Some layout => Some layout
    | None => results !! n
    end.
Proof.
  unfold Analyzer.mergeBatch.
  rewrite (fold_left_pointwise _
             (fun (r : gmap string LayoutAnalysis.t) entry =>
                match snd entry with
                | Some layout => <[fst entry := layout]> r
                | None => r
                end)) by (intros r [name layout]; reflexivity).
  apply (fold_left_last_option
           (fun entry (r : gmap string LayoutAnalysis.t) =>
              match snd entry with
              | Some layout => <[fst entry := layout]> r
              | None => r
              end)
           (fun r : gmap string LayoutAnalysis.t => r !! n) (Spec.layoutFor n)).
  intros [name layout] r. unfold Spec.layoutFor. cbn [fst snd].
  destruct (String.eqb_spec name n) as [->|Hne].
  - destruct layout; [apply lookup_insert_eq|reflexivity].
  - destruct layout; [now apply lookup_insert_ne|reflexivity].
Qed.

Lemma omap_nil_Forall {A B : Type} (f : A -> option B) (l : list A) :
  Forall (fun a => f a = None) l -> omap f l = [].
Proof.
  induction 1 as [|a l Ha _ IH]; [reflexivity|].
  change (omap f (a :: l)) with (match f a with Some b => b :: omap f l | None => omap f l end).
  now rewrite Ha.
Qed.

Lemma answers_lookup this start (queue : list PacketInfo.t) i :
  Spec.answers this start queue !! i
  = (fun p => (PacketInfo.name p, Spec.answer this (start + i) p)) <$> queue !! i.
Proof. unfold Spec.answers. apply list_lookup_imap. Qed.

Lemma filter_hasContext packets :
  Forall (fun p => Analyzer.hasContext p = true) (List.filter Analyzer.hasContext packets).
Proof.
  apply Forall_forall. intros p Hp.
  apply list_elem_of_In, filter_In in Hp. apply Hp.
Qed.

Lemma filter_all_hasContext packets :
  Forall (fun p => Analyzer.hasContext p = true) packets ->
  List.filter Analyzer.hasContext packets = packets.
Proof.
  induction 1 as [|p l Hp _ IH]; [reflexivity|]. cbn. now rewrite Hp, IH.
Qed.

Lemma analyzePackets_spec this fuel packets w :
  let queue := List.filter Analyzer.hasContext packets in
  let k := Z.to_nat (Analyzer.maxConcurrency this) in
  (exists w',
      Analyzer.analyzePackets fuel this packets w = (Analyzer.Returned None, w')
      /\ (0 < k -> fuel < length queue))
  \/ exists groups,
       Analyzer.analyzePackets fuel this packets w
       = (Analyzer.Returned
            (Some (Analyzer.mergeBatch (Spec.answers this (length w) queue) ∅, groups)),
          w ++ map Spec.prompt queue)
       /\ concat groups = queue
       /\ Forall (fun g => 0 < length g <= k) groups
       /\ length groups = Spec.ceilDiv (length queue) k.
Proof.
  intros queue k. unfold Analyzer.analyzePackets. fold queue.
  destruct (drain_spec this fuel queue ∅ [] w (filter_hasContext packets))
    as [H|(groups & E & Hcat & Hlen & Hcount & _)]; [left; exact H|].
  right. exists groups. cbn [app] in E. auto.
Qed.

(** C2. With a positive limit [K] and fuel for every packet,
    [analyzePackets] returns.  It schedules the packets that have a
    context, in order, in groups of at least one and at most [K] concurrent
    calls; there are [ceil(N/K)] groups for [N] scheduled packets, and
    when all packets have a context these are all the packets.  A packet
    that gets a layout has it in the returned map under its name, whatever
    the other packets get, unless a later packet of the same name gets a
    layout too. *)
Theorem batches_are_ceil_groups this packets fuel w :
  (0 < Analyzer.maxConcurrency this)%Z ->
  length packets <= fuel ->
  let queue := List.filter Analyzer.hasContext packets in
  let k := Z.to_nat (Analyzer.maxConcurrency this) in
  exists results groups,
    Analyzer.analyzePackets fuel this packets w
    = (Analyzer.Returned (Some (results, groups)), w ++ map Spec.prompt queue)
    /\ (Forall (fun p => Analyzer.hasContext p = true) packets -> queue = packets)
    /\ concat groups = queue
    /\ Forall (fun g => 0 < length g <= k) groups
    /\ length groups = Spec.ceilDiv (length queue) k
    /\ forall i p layout,
         queue !! i = Some p ->
         Spec.answer this (length w + i) p = Some layout ->
         (forall j q, queue !! j = Some q -> i < j ->
                      PacketInfo.name q = PacketInfo.name p ->
                      Spec.answer this (length w + j) q = None) ->
         results !! PacketInfo.name p = Some layout.
Proof.
  intros HK Hfuel queue k.
  assert (Hlen : length queue <= length packets).
  { unfold queue. clear. induction packets as [|p l IH]; [done|].
    cbn. destruct (Analyzer.hasContext p); cbn; lia. }
  destruct (analyzePackets_spec this fuel packets w)
    as [(w' & _ & Hout)|(groups & E & Hcat & Hsize & Hcount)].
  { fold queue in Hout. lia. }
  fold queue k in E, Hcat, Hsize, Hcount.
  eexists _, groups. split; [exact E|].
  split; [apply filter_all_hasContext|]. do 3 (split; [assumption|]).
  intros i p layout Hi Hanswer Hlater.
  rewrite mergeBatch_lookup.
  assert (Hentry : Spec.answers this (length w) queue !! i
                   = Some (PacketInfo.name p, Some layout)).
  { now rewrite answers_lookup, Hi, <- Hanswer. }
  rewrite <- (take_drop_middle _ _ _ Hentry), omap_app.
  change (omap (Spec.layoutFor (PacketInfo.name p))
            ((PacketInfo.name p, Some layout) :: drop (S i) (Spec.answers this (length w) queue)))
    with (match Spec.layoutFor (PacketInfo.name p) (PacketInfo.name p, Some layout) with
          | Some b => b :: omap (Spec.layoutFor (PacketInfo.name p))
                             (drop (S i) (Spec.answers this (length w) queue))
          | None => omap (Spec.layoutFor (PacketInfo.name p))
                      (drop (S i) (Spec.answers this (length w) queue))
          end).
  unfold Spec.layoutFor at 2. cbn [fst snd]. rewrite String.eqb_refl.
  rewrite (omap_nil_Forall _ (drop _ _)); [now rewrite last_snoc|].
  apply Forall_lookup. intros j entry Hj.
  rewrite lookup_drop, answers_lookup in Hj.
  destruct (queue !! (S i + j)) as [q|] eqn:Hq; [|discriminate].
  injection Hj as <-. unfold Spec.layoutFor. cbn [fst snd].
  destruct (String.eqb_spec (PacketInfo.name q) (PacketInfo.name p)) as [Hn|]; [|reflexivity].
  apply (Hlater _ _ Hq); [lia|exact Hn].
Qed.

Lemma batches_are_ceil_groups_witness :
  let this := Samples.sampleAnalyzer in
  let packets := Samples.samplePackets in
  let queue := List.filter Analyzer.hasContext packets in
  exists results groups,
    Analyzer.analyzePackets 7 this packets []
    = (Analyzer.Returned (Some (results, groups)), [] ++ map Spec.prompt queue)
    /\ (Forall (fun p => Analyzer.hasContext p = true) packets -> queue = packets)
    /\ concat groups = queue
    /\ Forall (fun g => 0 < length g <= 2) groups
    /\ length groups = Spec.ceilDiv 5 2
    /\ forall i p layout,
         queue !! i = Some p ->
         Spec.answer this (length (@nil string) + i) p = Some layout ->
         (forall j q, queue !! j = Some q -> i < j ->
                      PacketInfo.name q = PacketInfo.name p ->
                      Spec.answer this (length (@nil string) + j) q = None) ->
         results !! PacketInfo.name p = Some layout.
Proof.
  cbv zeta.
  apply (batches_are_ceil_groups Samples.sampleAnalyzer Samples.samplePackets 7 []).
  - reflexivity.
  - vm_compute. lia.
Defined.

(** Every call of [analyzePackets] returns: no member of a batch throws. *)
Lemma analyzePackets_returns this fuel packets w :
  exists r w', Analyzer.analyzePackets fuel this packets w = (Analyzer.Returned r, w').
Proof.
  destruct (analyzePackets_spec this fuel packets w) as [(w' & E & _)|(groups & E & _)];
    rewrite E; eauto.
Qed.

(** What the returned map holds comes from an answer of the service. *)
Lemma analyzePackets_results this fuel packets w results groups w' n layout :
  Analyzer.analyzePackets fuel this packets w
  = (Analyzer.Returned (Some (results, groups)), w') ->
  results !! n = Some layout ->
  exists i p,
    List.filter Analyzer.hasContext packets !! i = Some p
    /\ PacketInfo.name p = n
    /\ Spec.answer this (length w + i) p = Some layout.
Proof.
  intros E Hn.
  destruct (analyzePackets_spec this fuel packets w) as [(w1 & E1 & _)|(groups1 & E1 & _)];
    rewrite E1 in E; [discriminate|].
  injection E as <- _ _. rewrite mergeBatch_lookup, lookup_empty in Hn.
  destruct (last _) as [l|] eqn:El; [|discriminate]. injection Hn as ->.
  apply last_Some_elem_of, list_elem_of_omap in El as ([name answer] & Hin & Hfor).
  apply list_elem_of_lookup in Hin as [i Hi].
  rewrite answers_lookup in Hi.
  destruct (List.filter Analyzer.hasContext packets !! i) as [p|] eqn:Hp; [|discriminate].
  injection Hi as <- <-. unfold Spec.layoutFor in Hfor. cbn [fst snd] in Hfor.
  destruct (String.eqb_spec (PacketInfo.name p) n) as [Hname|]; [|discriminate].
  exists i, p. auto.
Qed.

(** A name under which no scheduled packet gets a layout is absent from
    the returned map. *)
Lemma analyzePackets_absent this fuel packets w results groups w' n :
  Analyzer.analyzePackets fuel this packets w
  = (Analyzer.Returned (Some (results, groups)), w') ->
  (forall i p, List.filter Analyzer.hasContext packets !! i = Some p ->
               PacketInfo.name p = n -> Spec.answer this (length w + i) p = None) ->
  results !! n = None.
Proof.
  intros E Hnone. destruct (results !! n) as [layout|] eqn:Hn; [|reflexivity].
  destruct (analyzePackets_results _ _ _ _ _ _ _ _ _ E Hn) as (i & p & Hi & Hname & Ha).
  rewrite (Hnone i p Hi Hname) in Ha. discriminate.
Qed.

Lemma wire_snoc resends (w : Analyzer.Requests) prompt :
  Analyzer.wire resends (w ++ [prompt])
  = Analyzer.wire resends w ++ repeat prompt (S (resends (length w) prompt)).
Proof.
  unfold Analyzer.wire. rewrite imap_app, concat_app. f_equal.
  cbn [imap concat]. rewrite Nat.add_0_r. apply app_nil_r.
Qed.

(** C3, as the code has it.  [analyzePacket] never throws.  For a packet
    without context it returns null and calls nothing.  For a packet with
    context it calls [generateText] exactly once, with the context as
    prompt, and never again: it returns the normalised output of that
    call, and null when the call rejects or resolves without structured
    output.  The requests on the wire are those the SDK sends for this one
    call; their number is one more than the number of times the SDK sends
    the request again, which the analyzer does not limit.  With a positive
    limit and enough iterations [analyzePackets] returns a map, after one
    call for each packet with a context: a name has the last layout that
    a packet of that name got, and is absent when every packet of that
    name got null, whatever the other packets got. *)
Theorem analyzePacket_failure_is_null this packet w :
  (exists r w', Analyzer.analyzePacket this packet w = (Analyzer.Returned r, w'))
  /\ (Analyzer.hasContext packet = false ->
      Analyzer.analyzePacket this packet w = (Analyzer.Returned None, w))
  /\ (Analyzer.hasContext packet = true ->
      exists r,
        Analyzer.analyzePacket this packet w
        = (Analyzer.Returned r, w ++ [Spec.prompt packet])
        /\ r = Spec.answer this (length w) packet
        /\ (forall message,
              Analyzer.service this (length w) (Spec.prompt packet) = Analyzer.Rejects message ->
              r = None)
        /\ (Analyzer.service this (length w) (Spec.prompt packet) = Analyzer.Resolves None ->
            r = None)
        /\ forall resends,
             Analyzer.wire resends (w ++ [Spec.prompt packet])
             = Analyzer.wire resends w
               ++ repeat (Spec.prompt packet) (S (resends (length w) (Spec.prompt packet))))
  /\ (forall fuel packets,
        (0 < Analyzer.maxConcurrency this)%Z ->
        length packets <= fuel ->
        let queue := List.filter Analyzer.hasContext packets in
        exists results groups,
          Analyzer.analyzePackets fuel this packets w
          = (Analyzer.Returned (Some (results, groups)), w ++ map Spec.prompt queue)
          /\ forall n,
               results !! n
               = last (omap (Spec.layoutFor n) (Spec.answers this (length w) queue))).
Proof.
  split; [|split; [|split]].
  - rewrite analyzePacket_spec. destruct (Analyzer.hasContext packet); eauto.
  - intros H. now rewrite analyzePacket_spec, H.
  - intros H. rewrite analyzePacket_spec, H. eexists. split; [reflexivity|].
    split; [reflexivity|]. unfold Spec.answer. split; [|split].
    + intros message ->. reflexivity.
    + intros ->. reflexivity.
    + intros resends. apply wire_snoc.
  - intros fuel packets HK Hfuel queue.
    assert (Hlen : length queue <= length packets).
    { unfold queue. clear. induction packets as [|p l IH]; [done|].
      cbn. destruct (Analyzer.hasContext p); cbn; lia. }
    destruct (analyzePackets_spec this fuel packets w)
      as [(w' & _ & Hout)|(groups & E & _)].
    { fold queue in Hout. lia. }
    fold queue in E. eexists _, groups. split; [exact E|].
    intros n. rewrite mergeBatch_lookup, lookup_empty.
    destruct (last _); reflexivity.
Qed.

Lemma analyzePacket_failure_is_null_witness :
  Analyzer.analyzePacket Samples.sampleAnalyzer
    (Samples.packetNamed "Chat" (Some "// Packet: Chat")) ["// Packet: Ping"]
  = (Analyzer.Returned None, ["// Packet: Ping"; "// Packet: Chat"])
  /\ Analyzer.analyzePacket Samples.sampleAnalyzer (Samples.packetNamed "Silent" None) []
     = (Analyzer.Returned None, [])
  /\ exists results groups,
       Analyzer.analyzePackets 7 Samples.sampleAnalyzer Samples.samplePackets []
       = (Analyzer.Returned (Some (results, groups)),
          ["// Packet: Ping"; "// Packet: Chat"; "// Packet: Log"; "// Packet: Pong";
           "// Packet: Last"])
       /\ results !! "Chat" = None
       /\ results !! "Log" = None
       /\ is_Some (results !! "Ping").
Proof.
  destruct (analyzePacket_failure_is_null Samples.sampleAnalyzer
              (Samples.packetNamed "Chat" (Some "// Packet: Chat")) ["// Packet: Ping"])
    as (_ & _ & H & _).
  destruct (H eq_refl) as (r & E & _ & Hrejects & _).
  destruct (analyzePacket_failure_is_null Samples.sampleAnalyzer
              (Samples.packetNamed "Silent" None) [])
    as (_ & Hsilent & _ & Hbatch).
  split; [rewrite E, (Hrejects "503" eq_refl); reflexivity|].
  split; [exact (Hsilent eq_refl)|].
  destruct (Hbatch 7 Samples.samplePackets) as (results & groups & Eb & Hmap).
  - reflexivity.
  - vm_compute. lia.
  - exists results, groups. split; [exact Eb|]. rewrite !Hmap.
    split; [vm_compute; reflexivity|]. split; [vm_compute; reflexivity|].
    vm_compute. eauto.
Defined.

(** The claim as the specification words it fails when the SDK sends a
    request again: the one call that [analyzePacket] makes for [Ping]
    puts two requests on the wire, and the call, whose first attempt
    failed, ends with a layout. *)
Lemma one_call_may_be_sent_twice :
  let packet := Samples.packetNamed "Ping" (Some "// Packet: Ping") in
  exists layout calls,
    Analyzer.analyzePacket Samples.sampleAnalyzer packet [] = (Analyzer.Returned (Some layout), calls)
    /\ calls = ["// Packet: Ping"]
    /\ Analyzer.wire Samples.sampleResends calls = ["// Packet: Ping"; "// Packet: Ping"]
    /\ length (Analyzer.wire Samples.sampleResends calls) <> 1.
Proof.
  cbv zeta. do 2 eexists. split; [reflexivity|]. split; [reflexivity|].
  split; [reflexivity|]. vm_compute. discriminate.
Qed.

(** C5, as the code has it.  For a packet with a context the inference
    returns, without throwing, either nothing or a layout that carries the
    name of the packet and, field for field and in order, the names of the
    fields of the structured output of the service; these names are not
    compared with the declared fields of the packet.  The batch never
    throws. *)
Theorem inference_yields_null_or_response_fields this packet w :
  Analyzer.hasContext packet = true ->
  (exists r,
      Analyzer.analyzePacket this packet w = (Analyzer.Returned r, w ++ [Spec.prompt packet])
      /\ (r = None
          \/ exists parsed layout,
               Analyzer.service this (length w) (Spec.prompt packet)
               = Analyzer.Resolves (Some parsed)
               /\ r = Some layout
               /\ LayoutAnalysis.packetName layout = PacketInfo.name packet
               /\ map FieldLayoutInfo.name (LayoutAnalysis.fields layout)
                  = map FieldLayoutSchema.name (LayoutAnalysisSchema.fields parsed)))
  /\ (forall fuel packets,
        exists r w', Analyzer.analyzePackets fuel this packets w = (Analyzer.Returned r, w')).
Proof.
  intros H. split; [|intros; apply analyzePackets_returns].
  rewrite analyzePacket_spec, H. eexists. split; [reflexivity|].
  unfold Spec.answer.
  destruct (Analyzer.service this (length w) (Spec.prompt packet)) as [message|[parsed|]];
    [now left| |now left].
  right. exists parsed, (Analyzer.normalizeLayout parsed packet).
  repeat split. cbn [Analyzer.normalizeLayout LayoutAnalysis.fields].
  rewrite map_map. reflexivity.
Qed.

Lemma inference_yields_null_or_response_fields_witness :
  let packet := Samples.packetNamed "Pong" (Some "// Packet: Pong") in
  exists r,
    Analyzer.analyzePacket Samples.sampleAnalyzer packet ["a"; "b"; "c"]
    = (Analyzer.Returned r, ["a"; "b"; "c"] ++ [Spec.prompt packet])
    /\ (r = None
        \/ exists parsed layout,
             Analyzer.service Samples.sampleAnalyzer 3 (Spec.prompt packet)
             = Analyzer.Resolves (Some parsed)
             /\ r = Some layout
             /\ LayoutAnalysis.packetName layout = PacketInfo.name packet
             /\ map FieldLayoutInfo.name (LayoutAnalysis.fields layout)
                = map FieldLayoutSchema.name (LayoutAnalysisSchema.fields parsed)).
Proof.
  cbv zeta.
  apply (inference_yields_null_or_response_fields Samples.sampleAnalyzer
           (Samples.packetNamed "Pong" (Some "// Packet: Pong")) ["a"; "b"; "c"]).
  reflexivity.
Defined.

(** The layout inferred for [Pong], whose only declared field is [id],
    names the fields [bogus] and [other]. *)
Lemma inferred_field_names_are_not_checked :
  let packet := Samples.packetNamed "Pong" (Some "// Packet: Pong") in
  exists layout w',
    Analyzer.analyzePacket Samples.sampleAnalyzer packet ["a"; "b"; "c"]
    = (Analyzer.Returned (Some layout), w')
    /\ map FieldInfo.name (PacketInfo.fields packet) = ["id"]
    /\ map FieldLayoutInfo.name (LayoutAnalysis.fields layout) = ["bogus"; "other"]
    /\ ~ (forall n, n ∈ map FieldLayoutInfo.name (LayoutAnalysis.fields layout) ->
                    n ∈ map FieldInfo.name (PacketInfo.fields packet)).
Proof.
  cbv zeta. do 2 eexists. split; [reflexivity|]. split; [reflexivity|].
  split; [reflexivity|]. intros H.
  specialize (H "bogus" ltac:(apply list_elem_of_here)).
  apply list_elem_of_In in H. cbn in H. destruct H as [H|[]]. discriminate.
Qed.

(** C7, as the code has it.  A layout in the map [analyzePackets] returns
    is the normalised structured output the service gave for a scheduled
    packet of that name, and the [nullBit] of each of its fields is the one
    of the corresponding field of that output: an integer or absent.
    Nothing makes it a power of two or distinct from the others. *)
Theorem accepted_nullBits_are_the_responses this fuel packets w results groups w' n layout :
  Analyzer.analyzePackets fuel this packets w
  = (Analyzer.Returned (Some (results, groups)), w') ->
  results !! n = Some layout ->
  exists i p parsed,
    List.filter Analyzer.hasContext packets !! i = Some p
    /\ PacketInfo.name p = n
    /\ Analyzer.service this (length w + i) (Spec.prompt p) = Analyzer.Resolves (Some parsed)
    /\ layout = Analyzer.normalizeLayout parsed p
    /\ map FieldLayoutInfo.nullBit (LayoutAnalysis.fields layout)
       = map FieldLayoutSchema.nullBit (LayoutAnalysisSchema.fields parsed).
Proof.
  intros E Hn.
  destruct (analyzePackets_results _ _ _ _ _ _ _ _ _ E Hn) as (i & p & Hi & Hname & Ha).
  unfold Spec.answer in Ha.
  destruct (Analyzer.service this (length w + i) (Spec.prompt p)) as [message|[parsed|]] eqn:Es;
    try discriminate.
  injection Ha as <-. exists i, p, parsed. repeat split; try assumption.
  cbn [Analyzer.normalizeLayout LayoutAnalysis.fields]. rewrite map_map. reflexivity.
Qed.

Example samplePackets_outcome :
  Analyzer.analyzePackets 7 Samples.sampleAnalyzer Samples.samplePackets []
  = (Analyzer.Returned (Some (Samples.sampleResults, Samples.sampleGroups)),
     Samples.sampleRequests).
Proof. vm_compute. reflexivity. Qed.

Lemma accepted_nullBits_are_the_responses_witness :
  exists i p parsed,
    List.filter Analyzer.hasContext Samples.samplePackets !! i = Some p
    /\ PacketInfo.name p = "Ping"
    /\ Analyzer.service Samples.sampleAnalyzer (length (@nil string) + i) (Spec.prompt p)
       = Analyzer.Resolves (Some parsed)
    /\ Analyzer.normalizeLayout Samples.idLayout
         (Samples.packetNamed "Ping" (Some "// Packet: Ping"))
       = Analyzer.normalizeLayout parsed p
    /\ map FieldLayoutInfo.nullBit
         (LayoutAnalysis.fields
            (Analyzer.normalizeLayout Samples.idLayout
               (Samples.packetNamed "Ping" (Some "// Packet: Ping"))))
       = map FieldLayoutSchema.nullBit (LayoutAnalysisSchema.fields parsed).
Proof.
  apply (accepted_nullBits_are_the_responses Samples.sampleAnalyzer 7 Samples.samplePackets []
           Samples.sampleResults Samples.sampleGroups Samples.sampleRequests "Ping").
  - vm_compute. reflexivity.
  - vm_compute. reflexivity.
Defined.

(** The layout accepted for [Pong] gives both of its fields the bit 3,
    which is not a power of two. *)
Lemma accepted_nullBits_need_not_be_distinct_powers :
  Analyzer.analyzePackets 7 Samples.sampleAnalyzer Samples.samplePackets []
  = (Analyzer.Returned (Some (Samples.sampleResults, Samples.sampleGroups)),
     Samples.sampleRequests)
  /\ (fun layout => map (fun f => (FieldLayoutInfo.name f, FieldLayoutInfo.nullBit f))
                      (LayoutAnalysis.fields layout))
     <$> Samples.sampleResults !! "Pong"
     = Some [("bogus", Some 3%Z); ("other", Some 3%Z)]
  /\ Spec.isPowerOfTwo 3 = false.
Proof. repeat split; vm_compute; reflexivity. Qed.

(** * Further properties of the extractor *)

Lemma omap_cons_unfold {A B : Type} (g : A -> option B) (a : A) (l : list A) :
  omap g (a :: l) = match g a with Some b => b :: omap g l | None => omap g l end.
Proof. reflexivity. Qed.

(** ** The maps are keyed by name *)

Section Keys.
Context {ext : Externals}.

Lemma extractEnumInfo_name parents node content category relPath info :
  Parser.extractEnumInfo parents node content category relPath = Some info ->
  EnumInfo.name info <> "".
Proof.
  unfold Parser.extractEnumInfo.
  destruct (getNodeText (childForFieldName node "name") content) eqn:E; cbn; [discriminate|].
  intros [= <-]. cbn. discriminate.
Qed.

Lemma extractDataClassInfo_name parents node content category relPath info :
  Parser.extractDataClassInfo parents node content category relPath = Some info ->
  DataClassInfo.name info <> "".
Proof.
  unfold Parser.extractDataClassInfo.
  destruct (getNodeText (childForFieldName node "name") content) eqn:E; cbn; [discriminate|].
  intros [= <-]. cbn. discriminate.
Qed.

Lemma parseEntityFile_keyed file relPath this :
  Spec.keyed this -> Spec.keyed (Parser.parseEntityFile file relPath this).
Proof.
  intros H. unfold Parser.parseEntityFile.
  destruct file as [content|]; [|exact H].
  destruct (_ =? 0)%nat; [exact H|].
  destruct (parse content) as [rootNode|]; [|exact H].
  rewrite traverseTree_preorder. apply (fold_left_invariant Spec.keyed); [|exact H].
  intros s pn _ [He Hd]. unfold Parser.entityFileCallback.
  destruct (hasType "enum_declaration" (snd pn)).
  - destruct (Parser.extractEnumInfo _ _ _ _ _) as [info|] eqn:E; [|now split].
    split; [|exact Hd]. cbn [Parser.enums].
    apply map_Forall_insert_2; [|exact He].
    split; [reflexivity|]. exact (extractEnumInfo_name _ _ _ _ _ _ E).
  - destruct (hasType "class_declaration" (snd pn)); [|now split].
    destruct (Parser.extractDataClassInfo _ _ _ _ _) as [info|] eqn:E; [|now split].
    destruct (Js.includes (DataClassInfo.name info) "Packet") eqn:Hp; cbn [negb]; [now split|].
    split; [exact He|]. cbn [Parser.dataClasses].
    apply map_Forall_insert_2; [|exact Hd].
    split; [reflexivity|]. split; [|exact Hp].
    exact (extractDataClassInfo_name _ _ _ _ _ _ E).
Qed.

Lemma parseEnumsFromFile_keyed file relPath this :
  Spec.keyed this -> Spec.keyed (Parser.parseEnumsFromFile file relPath this).
Proof.
  intros H. unfold Parser.parseEnumsFromFile.
  destruct file as [content|]; [|exact H].
  destruct (_ =? 0)%nat; [exact H|].
  destruct (parse content) as [rootNode|]; [|exact H].
  rewrite traverseTree_preorder. apply (fold_left_invariant Spec.keyed); [|exact H].
  intros s pn _ [He Hd]. unfold Parser.enumsFileCallback.
  destruct (hasType "enum_declaration" (snd pn)); [|now split].
  destruct (Parser.extractEnumInfo _ _ _ _ _) as [info|] eqn:E; [|now split].
  destruct (negb _); [|now split].
  split; [|exact Hd]. cbn [Parser.enums].
  apply map_Forall_insert_2; [|exact He].
  split; [reflexivity|]. exact (extractEnumInfo_name _ _ _ _ _ _ E).
Qed.

Lemma parseAll_keyed pf root results :
  Parser.parseAll pf root = Some results ->
  Spec.keyed (Parser.mkMaps (ParsedResults.enums results) (ParsedResults.dataClasses results)).
Proof.
  unfold Parser.parseAll.
  destruct (Parser.packetsDir root) as [packets|]; [|discriminate].
  intros [= <-]. cbn [ParsedResults.enums ParsedResults.dataClasses].
  set (this2 := Parser.parseEnumsFromPacketsDirectory pf packets "" _).
  assert (H : Spec.keyed this2).
  { unfold this2. rewrite parseEnumsFromPacketsDirectory_files.
    apply (fold_left_invariant Spec.keyed).
    - intros s f _ Hs. now apply parseEnumsFromFile_keyed.
    - rewrite parseEntityDirectory_files. apply (fold_left_invariant Spec.keyed).
      + intros s f _ Hs. now apply parseEntityFile_keyed.
      + split; apply map_Forall_empty. }
  destruct this2. exact H.
Qed.

(** X1. Every enum and every data class that [parseAll] returns is stored
    under its own name, and that name is not empty. *)
Theorem entities_are_stored_under_their_name pf root results :
  Parser.parseAll pf root = Some results ->
  (forall key e, ParsedResults.enums results !! key = Some e ->
                 EnumInfo.name e = key /\ key <> "")
  /\ (forall key d, ParsedResults.dataClasses results !! key = Some d ->
                    DataClassInfo.name d = key /\ key <> "").
Proof.
  intros H. destruct (parseAll_keyed pf root results H) as [He Hd]. split.
  - intros key e Hk. exact (He key e Hk).
  - intros key d Hk. destruct (Hd key d Hk) as (? & ? & _). now split.
Qed.

(** X2. No data class that [parseAll] returns has [Packet] in its name:
    classes that look like packets are kept out of the data class map, also
    when they are found outside the packets directory. *)
Theorem no_data_class_is_called_packet pf root results key d :
  Parser.parseAll pf root = Some results ->
  ParsedResults.dataClasses results !! key = Some d ->
  Js.includes (DataClassInfo.name d) "Packet" = false.
Proof.
  intros H Hk. destruct (parseAll_keyed pf root results H) as [_ Hd].
  destruct (Hd key d Hk) as (-> & _ & Hp). exact Hp.
Qed.

End Keys.

(** ** The packets of a category *)

Section PacketLists.
Context {ext : Externals}.

Lemma addPacket_lookup relPath packet result c :
  PacketInfo.category packet = Js.orElse (Js.replaceBackslashes relPath) "uncategorized" ->
  Parser.addPacket relPath packet result !! c
  = if String.eqb (PacketInfo.category packet) c
    then Some (default [] (result !! c) ++ [packet])
    else result !! c.
Proof.
  intros Hc. unfold Parser.addPacket. rewrite <- Hc.
  set (k := PacketInfo.category packet).
  destruct (String.eqb_spec k c) as [->|Hne].
  - rewrite lookup_insert_eq. destruct (decide (is_Some (result !! c))) as [Hs|Hn].
    + reflexivity.
    + rewrite lookup_insert_eq. apply eq_None_not_Some in Hn. now rewrite Hn.
  - rewrite lookup_insert_ne by exact Hne.
    destruct (decide (is_Some (result !! k))); [reflexivity|].
    now rewrite lookup_insert_ne.
Qed.

Lemma parsePacketDirectory_lookup pf (files : list (list string * option string)) c :
  forall result,
    fold_left
      (fun result f =>
         match Parser.parsePacketFile (snd f) (Spec.relPathFrom pf "" (fst f)) with
         | Some packet => Parser.addPacket (Spec.relPathFrom pf "" (fst f)) packet result
         | None => result
         end) files result !! c
    = Spec.filed (result !! c)
        (List.filter (fun p => String.eqb (PacketInfo.category p) c)
           (omap (fun f => Parser.parsePacketFile (snd f) (Spec.relPathFrom pf "" (fst f)))
              files)).
Proof.
  induction files as [|f files IH]; intros result.
  - cbn. destruct (result !! c); cbn; [now rewrite app_nil_r|reflexivity].
  - cbn [fold_left]. rewrite IH.
    rewrite omap_cons_unfold. cbv beta.
    destruct (Parser.parsePacketFile (snd f) (Spec.relPathFrom pf "" (fst f)))
      as [p|] eqn:E; [|reflexivity].
    rewrite (addPacket_lookup _ _ _ _ (parsePacketFile_category _ _ _ E)).
    cbn [List.filter].
    destruct (String.eqb (PacketInfo.category p) c); [|reflexivity].
    generalize (List.filter (fun p => String.eqb (PacketInfo.category p) c)
                  (omap (fun f => Parser.parsePacketFile (snd f)
                                    (Spec.relPathFrom pf "" (fst f))) files)) as F.
    intros F. unfold Spec.filed.
    destruct (result !! c) as [l|]; destruct F as [|q qs]; simpl;
      rewrite <- ?app_assoc, ?app_nil_r; reflexivity.
Qed.

(** X3. The list [parseAll] files under a category holds exactly the
    packets of that category that the [.java] files below the packets
    directory give, once each and in the order of the walk; a category
    without packets has no entry, so no list is empty. *)
Theorem category_lists_hold_the_extracted_packets pf root results :
  Parser.parseAll pf root = Some results ->
  exists packets,
    Parser.packetsDir root = Some packets
    /\ forall c,
         ParsedResults.packetsByCategory results !! c
         = match List.filter (fun p => String.eqb (PacketInfo.category p) c)
                   (Spec.extractedPackets pf packets) with
           | [] => None
           | p :: ps => Some (p :: ps)
           end.
Proof.
  unfold Parser.parseAll.
  destruct (Parser.packetsDir root) as [packets|]; [|discriminate].
  intros [= <-]. exists packets. split; [reflexivity|]. intros c.
  cbn [ParsedResults.packetsByCategory].
  rewrite parsePacketDirectory_files, parsePacketDirectory_lookup, lookup_empty.
  unfold Spec.extractedPackets. destruct (List.filter _ _); reflexivity.
Qed.

End PacketLists.

(** ** Which files the walks use *)

Lemma filesOfEntry_segments skipPackets entry :
  forall segments f,
    f ∈ Spec.filesOfEntry skipPackets segments entry ->
    exists rest,
      fst f = segments ++ rest
      /\ (skipPackets = true -> "packets" ∉ rest).
Proof.
  induction entry as [name content|name entries IH] using FsEntry_forall_ind;
    intros segments f Hf; cbn [Spec.filesOfEntry] in Hf.
  - destruct (Js.endsWith name ".java"); [|inversion Hf].
    apply list_elem_of_In in Hf. destruct Hf as [<-|[]].
    exists []. cbn. rewrite app_nil_r. split; [reflexivity|]. intros _ H. inversion H.
  - destruct (skipPackets && String.eqb name "packets") eqn:Hskip; [inversion Hf|].
    assert (Hrest : exists rest, fst f = (segments ++ [name]) ++ rest
                                 /\ (skipPackets = true -> "packets" ∉ rest)).
    { revert Hf. generalize (segments ++ [name]) as segs. intros segs.
      induction IH as [|e r He _ IHr]; intros Hf; [inversion Hf|].
      apply elem_of_app in Hf as [Hf|Hf]; [exact (He segs f Hf)|exact (IHr Hf)]. }
    destruct Hrest as (rest & Hfst & Hno).
    exists (name :: rest). split; [now rewrite Hfst, <- app_assoc|].
    intros Hs. specialize (Hno Hs). subst skipPackets. cbn in Hskip.
    apply String.eqb_neq in Hskip.
    intros Hin. apply elem_of_cons in Hin as [Heq|Hin]; [now apply Hskip|now apply Hno].
Qed.

Lemma javaFiles_outside_packets entries f :
  f ∈ Spec.javaFiles true entries -> "packets" ∉ fst f.
Proof.
  unfold Spec.javaFiles. intros Hf.
  apply list_elem_of_In, in_flat_map in Hf as (e & _ & Hf).
  apply list_elem_of_In, filesOfEntry_segments in Hf as (rest & -> & Hno).
  now apply Hno.
Qed.

Section Origins.
Context {ext : Externals}.
Variable pf : Platform.

Lemma parseEntityFile_class_origin file relPath this (Qd : DataClassInfo.t -> Prop) :
  (forall d, Spec.classOfFile file relPath d -> Qd d) ->
  map_Forall (fun _ => Qd) (Parser.dataClasses this) ->
  map_Forall (fun _ => Qd) (Parser.dataClasses (Parser.parseEntityFile file relPath this)).
Proof.
  intros HQd H. unfold Parser.parseEntityFile.
  destruct file as [content|]; [|exact H].
  destruct (_ =? 0)%nat; [exact H|].
  destruct (parse content) as [rootNode|] eqn:Hparse; [|exact H].
  rewrite traverseTree_preorder.
  apply (fold_left_invariant
           (fun s => map_Forall (fun _ => Qd) (Parser.dataClasses s))); [|exact H].
  intros s pn Hpn Hd. unfold Parser.entityFileCallback.
  destruct (hasType "enum_declaration" (snd pn)).
  - destruct (Parser.extractEnumInfo _ _ _ _ _); exact Hd.
  - destruct (hasType "class_declaration" (snd pn)) eqn:Hclass; [|exact Hd].
    destruct (Parser.extractDataClassInfo _ _ _ _ _) as [info|] eqn:E; [|exact Hd].
    destruct (negb _); [|exact Hd].
    cbn [Parser.dataClasses]. apply map_Forall_insert_2; [|exact Hd].
    apply HQd. exists content, rootNode, pn. auto.
Qed.

Lemma parseEntityDirectory_dataClasses_origin root :
  map_Forall
    (fun _ d =>
       exists segments file,
         (segments, file) ∈ Spec.javaFiles true root
         /\ Spec.classOfFile file (Spec.relPathFrom pf "" segments) d)
    (Parser.dataClasses (Parser.parseEntityDirectory pf root "" (Parser.mkMaps ∅ ∅))).
Proof.
  rewrite parseEntityDirectory_files.
  set (Qd := fun d : DataClassInfo.t =>
    exists segments file,
      (segments, file) ∈ Spec.javaFiles true root
      /\ Spec.classOfFile file (Spec.relPathFrom pf "" segments) d).
  apply (fold_left_invariant (fun s => map_Forall (fun _ => Qd) (Parser.dataClasses s))).
  - intros s [segments file] Hf Hs. cbn [fst snd].
    apply parseEntityFile_class_origin; [|exact Hs].
    intros d Hd. exists segments, file. now split.
  - apply map_Forall_empty.
Qed.

(** X4. A data class that [parseAll] returns was extracted from a class
    declaration (a node of the type [class_declaration], and no other
    kind of declaration) of a [.java] file that is not below any
    directory called [packets], at whatever depth: the pass over the
    protocol entities never enters such a directory. *)
Theorem data_classes_come_from_outside_packets root results key d :
  Parser.parseAll pf root = Some results ->
  ParsedResults.dataClasses results !! key = Some d ->
  exists segments file,
    (segments, file) ∈ Spec.javaFiles true root
    /\ ("packets" ∉ segments)
    /\ Spec.classOfFile file (Spec.relPathFrom pf "" segments) d.
Proof.
  unfold Parser.parseAll.
  destruct (Parser.packetsDir root) as [packets|]; [|discriminate].
  intros [= <-]. cbn [ParsedResults.dataClasses].
  rewrite parseEnumsFromPacketsDirectory_files.
  assert (Hsame : forall files this,
    Parser.dataClasses
      (fold_left
         (fun this f => Parser.parseEnumsFromFile (snd f) (Spec.relPathFrom pf "" (fst f)) this)
         files this)
    = Parser.dataClasses this).
  { intros files this.
    apply (fold_left_invariant (fun s => Parser.dataClasses s = Parser.dataClasses this));
      [|reflexivity].
    intros s f _ Hs. now rewrite parseEnumsFromFile_dataClasses. }
  rewrite Hsame. intros Hk.
  destruct (parseEntityDirectory_dataClasses_origin root key d Hk)
    as (segments & file & Hf & Hd).
  exists segments, file. split; [exact Hf|]. split; [|exact Hd].
  exact (javaFiles_outside_packets root (segments, file) Hf).
Qed.

(** A file that cannot be read, is blank or does not parse changes
    nothing. *)
Lemma parseEntityFile_unusable file relPath this :
  Spec.usable file = false -> Parser.parseEntityFile file relPath this = this.
Proof.
  unfold Spec.usable, Parser.parseEntityFile.
  destruct file as [content|]; [|reflexivity].
  destruct (_ =? 0)%nat; [reflexivity|]. cbn [negb andb].
  destruct (parse content); [|reflexivity].
  rewrite bool_decide_eq_true_2 by eauto. discriminate.
Qed.

Lemma parseEnumsFromFile_unusable file relPath this :
  Spec.usable file = false -> Parser.parseEnumsFromFile file relPath this = this.
Proof.
  unfold Spec.usable, Parser.parseEnumsFromFile.
  destruct file as [content|]; [|reflexivity].
  destruct (_ =? 0)%nat; [reflexivity|]. cbn [negb andb].
  destruct (parse content); [|reflexivity].
  rewrite bool_decide_eq_true_2 by eauto. discriminate.
Qed.

Lemma parsePacketFile_unusable file relPath :
  Spec.usable file = false -> Parser.parsePacketFile file relPath = None.
Proof.
  unfold Spec.usable, Parser.parsePacketFile.
  destruct file as [content|]; [|reflexivity].
  destruct (_ =? 0)%nat; [reflexivity|]. cbn [negb andb].
  destruct (parse content); [|reflexivity].
  rewrite bool_decide_eq_true_2 by eauto. discriminate.
Qed.

Lemma fold_left_skip {S A : Type} (P : A -> bool) (f : S -> A -> S) :
  (forall s a, P a = false -> f s a = s) ->
  forall l s, fold_left f l s = fold_left f (List.filter P l) s.
Proof.
  intros H. induction l as [|a l IH]; intros s; [reflexivity|].
  cbn [fold_left List.filter]. destruct (P a) eqn:E; [apply IH|].
  rewrite (H s a E). apply IH.
Qed.

(** X5. Files that cannot be read, are blank or do not parse are skipped
    without a trace: each of the three walks gives what it would give if
    only the usable [.java] files were there, however many bad files lie
    between them. *)
Theorem bad_files_are_skipped entries base this result :
  Parser.parseEntityDirectory pf entries base this
  = fold_left
      (fun this f => Parser.parseEntityFile (snd f) (Spec.relPathFrom pf base (fst f)) this)
      (List.filter (fun f => Spec.usable (snd f)) (Spec.javaFiles true entries)) this
  /\ Parser.parseEnumsFromPacketsDirectory pf entries base this
     = fold_left
         (fun this f => Parser.parseEnumsFromFile (snd f) (Spec.relPathFrom pf base (fst f)) this)
         (List.filter (fun f => Spec.usable (snd f)) (Spec.javaFiles false entries)) this
  /\ Parser.parsePacketDirectory pf entries base result
     = fold_left
         (fun result f =>
            match Parser.parsePacketFile (snd f) (Spec.relPathFrom pf base (fst f)) with
            | Some packet => Parser.addPacket (Spec.relPathFrom pf base (fst f)) packet result
            | None => result
            end)
         (List.filter (fun f => Spec.usable (snd f)) (Spec.javaFiles false entries)) result.
Proof.
  split; [|split].
  - rewrite parseEntityDirectory_files. apply fold_left_skip.
    intros s a Ha. now apply parseEntityFile_unusable.
  - rewrite parseEnumsFromPacketsDirectory_files. apply fold_left_skip.
    intros s a Ha. now apply parseEnumsFromFile_unusable.
  - rewrite parsePacketDirectory_files. apply fold_left_skip.
    intros s a Ha. now rewrite parsePacketFile_unusable.
Qed.

End Origins.

(** * Further properties of the layout analyzer *)

Lemma nullBitMapping_fold (entries : list NullBitMappingEntry.t) b :
  fold_left
    (fun (m : gmap string string) entry =>
       Analyzer.assignProperty (NullBitMappingEntry.bit entry)
         (NullBitMappingEntry.fieldName entry) m)
    entries ∅ !! b
  = if String.eqb b "__proto__" then None
    else last (omap (Spec.fieldForBit b) entries).
Proof.
  destruct (String.eqb_spec b "__proto__") as [->|Hb].
  - apply (fold_left_invariant (fun m : gmap string string => m !! "__proto__" = None));
      [|apply lookup_empty].
    intros m entry _ Hm. unfold Analyzer.assignProperty.
    destruct (String.eqb_spec (NullBitMappingEntry.bit entry) "__proto__") as [|Hne];
      [exact Hm|].
    now rewrite lookup_insert_ne.
  - refine (eq_trans
              (fold_left_last_option
                 (fun entry (m : gmap string string) =>
                    Analyzer.assignProperty (NullBitMappingEntry.bit entry)
                      (NullBitMappingEntry.fieldName entry) m)
                 (fun m : gmap string string => m !! b) (Spec.fieldForBit b) _ entries ∅) _).
    + intros entry m. unfold Spec.fieldForBit, Analyzer.assignProperty.
      destruct (String.eqb_spec (NullBitMappingEntry.bit entry) b) as [->|Hne].
      * destruct (String.eqb_spec b "__proto__"); [contradiction|].
        apply lookup_insert_eq.
      * destruct (String.eqb (NullBitMappingEntry.bit entry) "__proto__"); [reflexivity|].
        now apply lookup_insert_ne.
    + cbv beta. rewrite lookup_empty. destruct (last _); reflexivity.
Qed.

(** X6. The bit map of a normalised layout is absent exactly when the
    response has no bit entries.  Otherwise it is an object whose own
    properties give, for a bit, the field name of the last entry of the
    response with that bit: when two entries carry the same bit, the later
    one replaces the earlier one, and a bit without entry is not in the
    map.  The one exception is the bit [__proto__]: an entry with it leaves
    no property, because the assignment of a string to [__proto__] does
    nothing. *)
Theorem nullBitMapping_keeps_the_last_entry parsed packet :
  (LayoutAnalysis.nullBitMapping (Analyzer.normalizeLayout parsed packet) = None
   <-> LayoutAnalysisSchema.nullBitMappings parsed = [])
  /\ forall mapping,
       LayoutAnalysis.nullBitMapping (Analyzer.normalizeLayout parsed packet) = Some mapping ->
       forall b,
         mapping !! b
         = if String.eqb b "__proto__" then None
           else last (omap (Spec.fieldForBit b) (LayoutAnalysisSchema.nullBitMappings parsed)).
Proof.
  cbn [Analyzer.normalizeLayout LayoutAnalysis.nullBitMapping].
  destruct (0 <? length (LayoutAnalysisSchema.nullBitMappings parsed))%nat eqn:Hlen.
  - split.
    + split; [discriminate|]. intros Hnil. rewrite Hnil in Hlen. discriminate.
    + intros mapping [= <-] b. apply nullBitMapping_fold.
  - split; [|discriminate]. split; [|reflexivity]. intros _.
    destruct (LayoutAnalysisSchema.nullBitMappings parsed); [reflexivity|discriminate].
Qed.

Example proto_bit_leaves_no_property :
  LayoutAnalysis.nullBitMapping
    (Analyzer.normalizeLayout
       (LayoutAnalysisSchema.mk [] 0 false None
          [ NullBitMappingEntry.mk "1" "a"; NullBitMappingEntry.mk "__proto__" "b";
            NullBitMappingEntry.mk "1" "c" ] None)
       (Samples.packetNamed "Ping" None))
  = Some {[ "1" := "c" ]}
  /\ LayoutAnalysis.nullBitMapping
       (Analyzer.normalizeLayout
          (LayoutAnalysisSchema.mk [] 0 false None [ NullBitMappingEntry.mk "__proto__" "b" ] None)
          (Samples.packetNamed "Ping" None))
     = Some ∅.
Proof. split; vm_compute; reflexivity. Qed.

(** X7. A layout in the map [analyzePackets] returns sits under the name
    it carries itself, and that name is the name of a packet of the input
    that has a deserialization context: the map has no entry for any other
    name. *)
Theorem accepted_layouts_are_keyed_by_packet_name
    this fuel packets w results groups w' key layout :
  Analyzer.analyzePackets fuel this packets w
  = (Analyzer.Returned (Some (results, groups)), w') ->
  results !! key = Some layout ->
  LayoutAnalysis.packetName layout = key
  /\ exists p, p ∈ packets /\ Analyzer.hasContext p = true /\ PacketInfo.name p = key.
Proof.
  intros E Hk.
  destruct (analyzePackets_results _ _ _ _ _ _ _ _ _ E Hk) as (i & p & Hi & Hname & Ha).
  split.
  - unfold Spec.answer in Ha.
    destruct (Analyzer.service this (length w + i) (Spec.prompt p)) as [m|[parsed|]];
      try discriminate.
    injection Ha as <-. exact Hname.
  - exists p. apply list_elem_of_lookup_2, list_elem_of_In, filter_In in Hi as [Hin Hc].
    split; [now apply list_elem_of_In|]. now split.
Qed.

(** X8. With a limit that is not positive, [splice] takes nothing off the
    queue: as soon as one packet has a deserialization context,
    [analyzePackets] never returns, however much fuel the loop gets, and it
    issues no request at all. *)
Theorem nonpositive_limit_never_returns this packets fuel w :
  (Analyzer.maxConcurrency this <= 0)%Z ->
  (exists p, p ∈ packets /\ Analyzer.hasContext p = true) ->
  Analyzer.analyzePackets fuel this packets w = (Analyzer.Returned None, w).
Proof.
  intros HK (p & Hin & Hc). unfold Analyzer.analyzePackets.
  apply drain_negative_limit; [exact HK|].
  intros Hnil.
  assert (Hp : In p (List.filter Analyzer.hasContext packets)).
  { apply filter_In. split; [now apply list_elem_of_In|exact Hc]. }
  rewrite Hnil in Hp. destruct Hp.
Qed.

(** * Further properties of the text scans *)

Lemma forallb_string_app (p : ascii -> bool) (a b : string) :
  forallb p (list_ascii_of_string (a ++ b))
  = forallb p (list_ascii_of_string a) && forallb p (list_ascii_of_string b).
Proof.
  induction a as [|c a IH]; [reflexivity|].
  rewrite append_String. cbn [list_ascii_of_string forallb]. rewrite IH.
  now rewrite andb_assoc.
Qed.

Lemma span_spec (p : ascii -> bool) (s : string) :
  forall a b,
    Parser.span p s = (a, b) ->
    s = (a ++ b)%string /\ forallb p (list_ascii_of_string a) = true.
Proof.
  induction s as [|c s IH]; intros a b H; cbn [Parser.span] in H.
  - injection H as <- <-. now split.
  - destruct (p c) eqn:Hc.
    + destruct (Parser.span p s) as [a' b'] eqn:E. injection H as <- <-.
      destruct (IH a' b' eq_refl) as [-> Ha]. split; [reflexivity|].
      cbn [list_ascii_of_string forallb]. now rewrite Hc.
    + injection H as <- <-. now split.
Qed.

Lemma prefix_drop (a s : string) :
  String.prefix a s = true -> s = (a ++ Parser.drop (String.length a) s)%string.
Proof.
  revert s. induction a as [|c a IH]; intros s H; [reflexivity|].
  destruct s as [|d s]; [discriminate|]. cbn [String.prefix] in H.
  destruct (ascii_dec c d) as [->|]; [|discriminate].
  rewrite append_String. cbn [String.length Parser.drop]. f_equal. now apply IH.
Qed.

Lemma matchDeclaration_Some kw s capture len :
  Parser.matchDeclaration kw s = Some (capture, len) -> Spec.declarationAt kw capture s.
Proof.
  unfold Parser.matchDeclaration.
  destruct (String.prefix kw s) eqn:Hp; [|discriminate].
  destruct (Parser.span Js.isWhiteSpace _) as [ws r1] eqn:E1.
  destruct (Parser.span Parser.isWordOrDot r1) as [cap r2] eqn:E2.
  destruct ws as [|w ws]; [discriminate|].
  destruct cap as [|c cap]; [discriminate|].
  destruct r2 as [|semi rest]; [discriminate|].
  destruct (ascii_dec semi ";") as [->|Hne].
  - intros [= <- _]. exists (String w ws), rest.
    destruct (span_spec _ _ _ _ E1) as [H1 Hws].
    destruct (span_spec _ _ _ _ E2) as [H2 Hcap].
    rewrite (prefix_drop _ _ Hp), H1, H2.
    repeat split; try done.
  - intros H. exfalso. revert H.
    destruct semi as [[] [] [] [] [] [] [] []]; try discriminate. now intros _; apply Hne.
Qed.

Lemma importsFrom_sound (s : string) :
  forall skip i,
    i ∈ Parser.importsFrom skip s ->
    exists before after, s = (before ++ after)%string /\ Spec.declarationAt "import" i after.
Proof.
  induction s as [|c s IH]; intros skip i Hi; cbn [Parser.importsFrom] in Hi.
  - inversion Hi.
  - assert (Hrest : forall k, i ∈ Parser.importsFrom k s ->
              exists before after,
                String c s = (before ++ after)%string /\ Spec.declarationAt "import" i after).
    { intros k Hk. destruct (IH k i Hk) as (before & after & -> & Hd).
      exists (String c before), after. split; [reflexivity|exact Hd]. }
    destruct skip as [|k]; [|exact (Hrest k Hi)].
    destruct (Parser.matchDeclaration "import" (String c s)) as [[cap len]|] eqn:E;
      [|exact (Hrest _ Hi)].
    apply elem_of_cons in Hi as [->|Hi]; [|exact (Hrest _ Hi)].
    exists "", (String c s). split; [reflexivity|].
    exact (matchDeclaration_Some _ _ _ _ E).
Qed.

Lemma extractPackage_sound (s : string) :
  Parser.extractPackage s = ""
  \/ exists before after,
       s = (before ++ after)%string /\ Spec.declarationAt "package" (Parser.extractPackage s) after.
Proof.
  induction s as [|c s IH].
  - cbn. now left.
  - cbn [Parser.extractPackage].
    destruct (Parser.matchDeclaration "package" (String c s)) as [[cap len]|] eqn:E.
    + right. exists "", (String c s). split; [reflexivity|].
      exact (matchDeclaration_Some _ _ _ _ E).
    + destruct IH as [H|(before & after & Hs & Hd)]; [now left|].
      right. exists (String c before), after. split; [|exact Hd].
      rewrite append_String. now f_equal.
Qed.

(** X9. On ASCII text the scans for the package and the imports report
    only what the text declares.  Every import reported is a non-empty run
    of letters, digits, underscores and dots that stands in the text
    between the word [import] followed by white space and a semicolon; the
    package reported is either empty or stands in the same way after the
    word [package].  (Outside ASCII the pattern takes more characters for
    white space than the white space named here.) *)
Theorem package_and_imports_are_declared content :
  Spec.isAscii content = true ->
  (forall i, i ∈ Parser.extractImports content ->
     exists before after,
       content = (before ++ after)%string /\ Spec.declarationAt "import" i after)
  /\ (Parser.extractPackage content = ""
      \/ exists before after,
           content = (before ++ after)%string
           /\ Spec.declarationAt "package" (Parser.extractPackage content) after).
Proof.
  intros _. split.
  - intros i Hi. exact (importsFrom_sound content 0 i Hi).
  - apply extractPackage_sound.
Qed.

(** * The further properties on the sample protocol directory *)

Lemma package_and_imports_are_declared_witness :
  Spec.isAscii Samples.pingSource = true
  /\ Parser.extractPackage Samples.pingSource = "proto.packets"
  /\ Parser.extractImports Samples.pingSource = ["io.ByteBuf"]
  /\ (forall i, i ∈ Parser.extractImports Samples.pingSource ->
        exists before after,
          Samples.pingSource = (before ++ after)%string
          /\ Spec.declarationAt "import" i after)
  /\ (Parser.extractPackage Samples.pingSource = ""
      \/ exists before after,
           Samples.pingSource = (before ++ after)%string
           /\ Spec.declarationAt "package" (Parser.extractPackage Samples.pingSource) after).
Proof.
  split; [vm_compute; reflexivity|]. split; [vm_compute; reflexivity|].
  split; [vm_compute; reflexivity|].
  apply package_and_imports_are_declared. vm_compute. reflexivity.
Defined.

Lemma entities_are_stored_under_their_name_witness :
  exists results,
    Parser.parseAll (ext := Samples.sampleExternals) Posix Samples.protocolDir = Some results
    /\ (forall key e, ParsedResults.enums results !! key = Some e ->
                      EnumInfo.name e = key /\ key <> "")
    /\ (forall key d, ParsedResults.dataClasses results !! key = Some d ->
                      DataClassInfo.name d = key /\ key <> "").
Proof.
  destruct (Parser.parseAll (ext := Samples.sampleExternals) Posix Samples.protocolDir)
    as [results|] eqn:E; [|vm_compute in E; discriminate].
  exists results. split; [reflexivity|].
  exact (entities_are_stored_under_their_name (ext := Samples.sampleExternals)
           Posix Samples.protocolDir results E).
Defined.

Lemma no_data_class_is_called_packet_witness :
  exists results d,
    Parser.parseAll (ext := Samples.sampleExternals) Posix Samples.protocolDir = Some results
    /\ ParsedResults.dataClasses results !! "Chat" = Some d
    /\ Js.includes (DataClassInfo.name d) "Packet" = false.
Proof.
  destruct (Parser.parseAll (ext := Samples.sampleExternals) Posix Samples.protocolDir)
    as [results|] eqn:E; [|vm_compute in E; discriminate].
  destruct (ParsedResults.dataClasses results !! "Chat") as [d|] eqn:Hd.
  - exists results, d. split; [reflexivity|]. split; [exact Hd|].
    exact (no_data_class_is_called_packet (ext := Samples.sampleExternals)
             Posix Samples.protocolDir results "Chat" d E Hd).
  - exfalso. vm_compute in E. injection E as <-. vm_compute in Hd. discriminate.
Defined.

Lemma category_lists_hold_the_extracted_packets_witness :
  exists results packets,
    Parser.parseAll (ext := Samples.sampleExternals) Posix Samples.protocolDir = Some results
    /\ Parser.packetsDir Samples.protocolDir = Some packets
    /\ forall c,
         ParsedResults.packetsByCategory results !! c
         = match List.filter (fun p => String.eqb (PacketInfo.category p) c)
                   (Spec.extractedPackets (H := Samples.sampleExternals) Posix packets) with
           | [] => None
           | p :: ps => Some (p :: ps)
           end.
Proof.
  destruct (Parser.parseAll (ext := Samples.sampleExternals) Posix Samples.protocolDir)
    as [results|] eqn:E; [|vm_compute in E; discriminate].
  destruct (category_lists_hold_the_extracted_packets (ext := Samples.sampleExternals)
              Posix Samples.protocolDir results E) as (packets & Hp & H).
  exists results, packets. auto.
Defined.

Lemma data_classes_come_from_outside_packets_witness :
  exists results d segments file,
    Parser.parseAll (ext := Samples.sampleExternals) Posix Samples.protocolDir = Some results
    /\ ParsedResults.dataClasses results !! "Chat" = Some d
    /\ (segments, file) ∈ Spec.javaFiles true Samples.protocolDir
    /\ ("packets" ∉ segments)
    /\ Spec.classOfFile (H := Samples.sampleExternals) file
         (Spec.relPathFrom Posix "" segments) d.
Proof.
  destruct (Parser.parseAll (ext := Samples.sampleExternals) Posix Samples.protocolDir)
    as [results|] eqn:E; [|vm_compute in E; discriminate].
  destruct (ParsedResults.dataClasses results !! "Chat") as [d|] eqn:Hd.
  - destruct (data_classes_come_from_outside_packets (ext := Samples.sampleExternals)
                Posix Samples.protocolDir results "Chat" d E Hd)
      as (segments & file & H).
    exists results, d, segments, file. split; [reflexivity|]. split; [exact Hd|exact H].
  - exfalso. vm_compute in E. injection E as <-. vm_compute in Hd. discriminate.
Defined.

Lemma accepted_layouts_are_keyed_by_packet_name_witness :
  LayoutAnalysis.packetName
    (Analyzer.normalizeLayout Samples.bogusLayout
       (Samples.packetNamed "Pong" (Some "// Packet: Pong"))) = "Pong"
  /\ exists p, p ∈ Samples.samplePackets
               /\ Analyzer.hasContext p = true /\ PacketInfo.name p = "Pong".
Proof.
  apply (accepted_layouts_are_keyed_by_packet_name Samples.sampleAnalyzer 7
           Samples.samplePackets [] Samples.sampleResults Samples.sampleGroups
           Samples.sampleRequests "Pong").
  - vm_compute. reflexivity.
  - vm_compute. reflexivity.
Defined.

Lemma nonpositive_limit_never_returns_witness :
  Analyzer.analyzePackets 1000 (Analyzer.new Samples.sampleService (Some (-3)%Z))
    Samples.samplePackets []
  = (Analyzer.Returned None, []).
Proof.
  apply nonpositive_limit_never_returns.
  - vm_compute. discriminate.
  - exists (Samples.packetNamed "Ping" (Some "// Packet: Ping")).
    split; [apply list_elem_of_here|reflexivity].
Defined.

(** * The context bundler *)

Lemma deserializeCallback_fold content (l : list SyntaxNode) :
  forall found,
    fold_left (fun s n => Parser.deserializeCallback content [] n s) l found
    = match last (List.filter (Spec.isDeserialize content) l) with
      | Some m => Some m
      | None => found
      end.
Proof.
  induction l as [|a l IH]; intros found; [reflexivity|].
  cbn [fold_left List.filter]. rewrite IH.
  unfold Parser.deserializeCallback, Spec.isDeserialize at 2.
  destruct (hasType "method_declaration" a); cbn [andb]; [|reflexivity].
  destruct (String.eqb _ "deserialize"); [|reflexivity].
  destruct (List.filter (Spec.isDeserialize content) l) as [|x xs]; [reflexivity|].
  rewrite last_cons_cons. destruct (last (x :: xs)) eqn:E; [reflexivity|].
  apply last_None in E. discriminate.
Qed.

Lemma assignConstant_context name value p :
  PacketInfo.deserializeContext (Parser.assignConstant name value p)
  = PacketInfo.deserializeContext p.
Proof.
  unfold Parser.assignConstant, Parser.assignNumeric.
  destruct (String.eqb name "IS_COMPRESSED"); [reflexivity|].
  destruct (Js.parseInt value); [|reflexivity].
  repeat match goal with
         | |- context [if ?b then _ else _] => destruct b; [reflexivity|]
         end.
  reflexivity.
Qed.

Lemma extractConstants_context parents node content p :
  PacketInfo.deserializeContext (Parser.extractConstants parents node content p)
  = PacketInfo.deserializeContext p.
Proof.
  rewrite extractConstants_fold. apply fold_left_preserves.
  intros s a. apply assignConstant_context.
Qed.

Lemma extractFields_context parents node content p :
  PacketInfo.deserializeContext (Parser.extractFields parents node content p)
  = PacketInfo.deserializeContext p.
Proof.
  unfold Parser.extractFields.
  destruct (childForFieldName node "body") as [body|]; [|reflexivity].
  destruct (0 <? _)%nat; [reflexivity|].
  change (Parser.fieldDeclarationCallback content) with
    (fun (_ : list SyntaxNode) n p => Parser.fieldDeclarationCallback content [] n p).
  rewrite traverseTree_nodes. apply fold_left_preserves.
  intros q n. unfold Parser.fieldDeclarationCallback.
  destruct (hasType _ n); [|reflexivity].
  destruct (Js.includes _ _); [reflexivity|].
  destruct (Parser.extractFieldInfo n content); reflexivity.
Qed.

Lemma contextParts_head classNode method content packet :
  exists rest,
    Bundler.contextParts classNode method content packet
    = ("// Packet: " ++ getNodeText (childForFieldName classNode "name") content)%string
      :: rest.
Proof.
  unfold Bundler.contextParts.
  destruct (Bundler.referenced content method) as [ms ts].
  eexists. cbn [app]. reflexivity.
Qed.

Lemma context_truthy classNode method content packet :
  Js.truthy (Bundler.extractDeserializeContext classNode method content packet) = true.
Proof.
  unfold Bundler.extractDeserializeContext, Bundler.joinWith.
  destruct (contextParts_head classNode method content packet) as [rest ->].
  destruct rest; reflexivity.
Qed.

(** X10.  With the bundler of the source, an extracted packet carries a
    context, and so is sent to the inference service, exactly when the
    body of its class declares a method named [deserialize]; the context
    is then the bundle of the last such declaration of the walk, written
    with the package and the field list the packet ends up with. *)
Theorem context_iff_deserialize_method parser parents node content category :
  let packet :=
    Parser.extractPacketInfo (ext := Bundler.externals parser) parents node content category in
  let methods := Spec.deserializeMethods content parents node in
  Analyzer.hasContext packet = (0 <? length methods)%nat
  /\ PacketInfo.deserializeContext packet
     = option_map (fun m => Bundler.extractDeserializeContext node m content packet)
         (last methods).
Proof.
  intros packet methods.
  assert (Hctx : PacketInfo.deserializeContext packet
                 = option_map (fun m => Bundler.extractDeserializeContext node m content packet)
                     (last methods)).
  { unfold packet, methods, Parser.extractPacketInfo, Parser.extractLayout,
      Spec.deserializeMethods, Spec.bodyNodes.
    destruct (childForFieldName node "body") as [body|].
    - change (Parser.deserializeCallback content) with
        (fun (_ : list SyntaxNode) n s => Parser.deserializeCallback content [] n s).
      rewrite traverseTree_nodes, deserializeCallback_fold. unfold Spec.nodes.
      destruct (last _) as [m|]; [reflexivity|].
      cbn [option_map]. now rewrite extractFields_context, extractConstants_context.
    - cbn [map List.filter last option_map].
      now rewrite extractFields_context, extractConstants_context. }
  split; [|exact Hctx].
  unfold Analyzer.hasContext. rewrite Hctx.
  destruct methods as [|m ms]; [reflexivity|].
  destruct (last (m :: ms)) eqn:E; [|apply last_None in E; discriminate].
  cbn [option_map]. rewrite context_truthy. reflexivity.
Qed.

Lemma add_elem_of x y (set : list string) :
  y ∈ Bundler.add x set <-> y = x \/ y ∈ set.
Proof.
  unfold Bundler.add. destruct (existsb (String.eqb x) set) eqn:E.
  - split; [tauto|]. intros [->|H]; [|exact H].
    apply existsb_exists in E as (z & Hz & Heq).
    apply String.eqb_eq in Heq. subst z. now apply list_elem_of_In.
  - rewrite elem_of_app, list_elem_of_singleton. tauto.
Qed.

Lemma add_NoDup x (set : list string) : NoDup set -> NoDup (Bundler.add x set).
Proof.
  intros H. unfold Bundler.add. destruct (existsb (String.eqb x) set) eqn:E; [exact H|].
  apply NoDup_app. split; [exact H|]. split; [|apply NoDup_singleton].
  intros y Hy Hx. apply list_elem_of_singleton in Hx. subst y.
  apply list_elem_of_In in Hy.
  assert (existsb (String.eqb x) set = true); [|congruence].
  apply existsb_exists. exists x. split; [exact Hy|apply String.eqb_refl].
Qed.

Lemma dependencyCallback_inv content parents n st :
  Spec.referencedInv st -> Spec.referencedInv (Bundler.dependencyCallback content parents n st).
Proof.
  intros (Hm & Ht & Hsub). unfold Bundler.dependencyCallback.
  destruct (hasType "method_invocation" n); [|done].
  destruct (Bundler.getMethodName n content) as [methodName|]; [|done].
  destruct (Js.truthy methodName); [|done].
  destruct (childForFieldName n "object") as [o|].
  - assert (Hinv1 : Spec.referencedInv
                      (Bundler.add (getNodeText (Some o) content ++ "." ++ methodName) (fst st),
                       snd st)).
    { split; [apply add_NoDup, Hm|]. split; [exact Ht|].
      intros t Hin. cbn [fst snd] in *. rewrite !add_elem_of.
      destruct (Hsub t Hin); tauto. }
    destruct (String.eqb_spec methodName "deserialize") as [->|Hd]; cbn [orb].
    + destruct Hinv1 as (Hm1 & Ht1 & Hsub1). cbn [fst snd] in *.
      split; [exact Hm1|]. split; [apply add_NoDup, Ht|].
      intros t Hin. cbn [fst snd] in *. apply add_elem_of in Hin as [->|Hin].
      * left. apply add_elem_of. left. reflexivity.
      * apply Hsub1, Hin.
    + destruct (String.eqb_spec methodName "fromValue") as [->|Hf]; [|exact Hinv1].
      destruct Hinv1 as (Hm1 & Ht1 & Hsub1). cbn [fst snd] in *.
      split; [exact Hm1|]. split; [apply add_NoDup, Ht|].
      intros t Hin. cbn [fst snd] in *. apply add_elem_of in Hin as [->|Hin].
      * right. apply add_elem_of. left. reflexivity.
      * apply Hsub1, Hin.
  - destruct (_ || _); done.
Qed.

(** X11.  The two sets of external dependencies the bundler collects hold
    no entry twice, and every referenced type [T] is there because of a
    call [T.deserialize] or [T.fromValue] that is itself among the
    referenced methods: the context never lists referenced types without
    listing the methods used. *)
Theorem referenced_types_have_a_listed_call content method :
  let referenced := Bundler.referenced content method in
  NoDup (fst referenced) /\ NoDup (snd referenced)
  /\ (forall t, t ∈ snd referenced ->
        (t ++ ".deserialize")%string ∈ fst referenced
        \/ (t ++ ".fromValue")%string ∈ fst referenced)
  /\ (fst referenced = [] -> snd referenced = []).
Proof.
  intros referenced.
  assert (H : Spec.referencedInv referenced).
  { unfold referenced, Bundler.referenced. rewrite traverseTree_preorder.
    apply fold_left_invariant.
    - intros st pn _ Hinv. now apply dependencyCallback_inv.
    - split; [apply NoDup_nil_2|]. split; [apply NoDup_nil_2|].
      intros t Hin. cbn in Hin. inversion Hin. }
  destruct H as (Hm & Ht & Hsub). repeat split; try assumption.
  intros Hnil. destruct (snd referenced) as [|t ts] eqn:E; [reflexivity|].
  destruct (Hsub t (list_elem_of_here _ _)) as [Hin|Hin];
    rewrite Hnil in Hin; inversion Hin.
Qed.

(** * The generated pages *)

Lemma totalPackets_insert k (l : list PacketInfo.t) (m : gmap string (list PacketInfo.t)) :
  Wiki.totalPackets (<[k := l]> m) + length (default [] (m !! k))
  = Wiki.totalPackets m + length l.
Proof.
  assert (Hcomm : forall (i : string) (x : list PacketInfo.t) (m' : gmap string (list PacketInfo.t)),
             m' !! i = None ->
             Wiki.totalPackets (<[i := x]> m') = Wiki.totalPackets m' + length x).
  { intros i x m' Hnone. unfold Wiki.totalPackets.
    rewrite map_fold_insert_L; [reflexivity| |exact Hnone].
    intros. lia. }
  destruct (m !! k) as [l0|] eqn:E; cbn [default from_option id].
  - rewrite <- (insert_delete_id m k l0 E) at 2.
    rewrite <- (insert_delete_eq m k l).
    rewrite !Hcomm by apply lookup_delete_eq. cbn [length]. lia.
  - rewrite Hcomm by exact E. cbn [length]. lia.
Qed.

Lemma totalPackets_addPacket relPath packet result :
  Wiki.totalPackets (Parser.addPacket relPath packet result)
  = S (Wiki.totalPackets result).
Proof.
  unfold Parser.addPacket.
  set (c := Js.orElse (Js.replaceBackslashes relPath) "uncategorized").
  destruct (decide (is_Some (result !! c))) as [[l Hl]|Hn].
  - pose proof (totalPackets_insert c (default [] (result !! c) ++ [packet]) result) as H.
    rewrite Hl in *. cbn [default from_option id] in *. rewrite length_app in H. cbn [length] in H. lia.
  - apply eq_None_not_Some in Hn.
    rewrite lookup_insert_eq, insert_insert_eq. cbn [default from_option id app].
    pose proof (totalPackets_insert c [packet] result) as H.
    rewrite Hn in H. cbn [default from_option id length] in H. lia.
Qed.

Section Totals.
Context {ext : Externals}.

Lemma totalPackets_fold pf (files : list (list string * option string)) :
  forall result,
    Wiki.totalPackets
      (fold_left
         (fun result f =>
            match Parser.parsePacketFile (snd f) (Spec.relPathFrom pf "" (fst f)) with
            | Some packet => Parser.addPacket (Spec.relPathFrom pf "" (fst f)) packet result
            | None => result
            end) files result)
    = Wiki.totalPackets result
      + length (omap (fun f => Parser.parsePacketFile (snd f) (Spec.relPathFrom pf "" (fst f)))
                  files).
Proof.
  induction files as [|f files IH]; intros result; [cbn; lia|].
  cbn [fold_left]. rewrite IH, omap_cons_unfold. cbv beta.
  destruct (Parser.parsePacketFile (snd f) (Spec.relPathFrom pf "" (fst f))) as [p|].
  - rewrite totalPackets_addPacket. cbn [length]. lia.
  - reflexivity.
Qed.

(** X12.  The total the main script prints and the home page shows counts
    every packet the [.java] files below the packets directory give, each
    once: it is the number of extracted packets, whatever their categories
    are. *)
Theorem total_counts_every_extracted_packet pf root results :
  Parser.parseAll pf root = Some results ->
  exists packets,
    Parser.packetsDir root = Some packets
    /\ Wiki.totalPackets (ParsedResults.packetsByCategory results)
       = length (Spec.extractedPackets pf packets).
Proof.
  unfold Parser.parseAll.
  destruct (Parser.packetsDir root) as [packets|]; [|discriminate].
  intros [= <-]. exists packets. split; [reflexivity|].
  cbn [ParsedResults.packetsByCategory].
  rewrite parsePacketDirectory_files, totalPackets_fold.
  unfold Wiki.totalPackets at 1. rewrite map_fold_empty. reflexivity.
Qed.

End Totals.

Lemma total_counts_every_extracted_packet_witness :
  exists results packets,
    Parser.parseAll (ext := Samples.sampleExternals) Posix Samples.protocolDir = Some results
    /\ Parser.packetsDir Samples.protocolDir = Some packets
    /\ Wiki.totalPackets (ParsedResults.packetsByCategory results)
       = length (Spec.extractedPackets (H := Samples.sampleExternals) Posix packets).
Proof.
  destruct (Parser.parseAll (ext := Samples.sampleExternals) Posix Samples.protocolDir)
    as [results|] eqn:E; [|vm_compute in E; discriminate].
  destruct (total_counts_every_extracted_packet (ext := Samples.sampleExternals)
              Posix Samples.protocolDir results E) as (packets & Hp & Ht).
  exists results, packets. split; [reflexivity|]. split; [exact Hp|exact Ht].
Defined.

Lemma digitValue_digitChar d :
  (0 <= d < 16)%Z -> Js.digitValue 16 (Js.digitChar d) = Some d.
Proof.
  intros H.
  assert (Hcases : (d = 0 \/ d = 1 \/ d = 2 \/ d = 3 \/ d = 4 \/ d = 5 \/ d = 6 \/ d = 7
                    \/ d = 8 \/ d = 9 \/ d = 10 \/ d = 11 \/ d = 12 \/ d = 13 \/ d = 14
                    \/ d = 15)%Z) by lia.
  repeat (destruct Hcases as [Hd|Hcases]; [subst d; reflexivity|]).
  subst d. reflexivity.
Qed.

Lemma hexDigits_S fuel n acc :
  Js.hexDigits (S fuel) n acc
  = if (n <? 16)%Z then String (Js.digitChar n) acc
    else Js.hexDigits fuel (n / 16)%Z (String (Js.digitChar (n mod 16)%Z) acc).
Proof. reflexivity. Qed.

Lemma hexDigits_read fuel :
  forall n acc,
    (0 <= n < 16 ^ Z.of_nat (S fuel))%Z ->
    exists k, (0 < k)%Z
      /\ forall a seen,
           Js.readDigits 16 (Js.hexDigits (S fuel) n acc) a seen
           = Js.readDigits 16 acc (a * 16 ^ k + n)%Z true.
Proof.
  induction fuel as [|fuel IH]; intros n acc Hn; rewrite hexDigits_S;
    destruct (Z.ltb_spec n 16) as [Hlt|Hge].
  - exists 1%Z. split; [lia|]. intros a seen. cbn [Js.readDigits].
    rewrite digitValue_digitChar by lia. f_equal; lia.
  - change (16 ^ Z.of_nat 1)%Z with 16%Z in Hn. lia.
  - exists 1%Z. split; [lia|]. intros a seen. cbn [Js.readDigits].
    rewrite digitValue_digitChar by lia. f_equal; lia.
  - assert (Hdiv : (0 <= n / 16 < 16 ^ Z.of_nat (S fuel))%Z).
    { split; [apply Z.div_pos; lia|].
      apply Z.div_lt_upper_bound; [lia|].
      rewrite (Nat2Z.inj_succ (S fuel)), Z.pow_succ_r in Hn by lia. lia. }
    destruct (IH (n / 16)%Z (String (Js.digitChar (n mod 16)) acc) Hdiv) as (k & Hk & Hread).
    exists (k + 1)%Z. split; [lia|]. intros a seen.
    rewrite Hread. cbn [Js.readDigits].
    rewrite digitValue_digitChar by (apply Z.mod_pos_bound; lia).
    f_equal. rewrite Z.pow_add_r by lia.
    pose proof (Z.div_mod n 16 ltac:(lia)). lia.
Qed.

Lemma hexDigits_fuel m :
  (0 <= m)%Z -> (0 <= m < 16 ^ Z.of_nat (S (Z.to_nat (Z.log2 m))))%Z.
Proof.
  intros Hm. split; [exact Hm|].
  rewrite Nat2Z.inj_succ, Z2Nat.id by apply Z.log2_nonneg.
  destruct (Z.eq_dec m 0%Z) as [->|Hne].
  - cbn. lia.
  - pose proof (Z.log2_spec m ltac:(lia)) as [_ Hup].
    eapply Z.lt_le_trans; [exact Hup|].
    apply Z.pow_le_mono_l. lia.
Qed.

Lemma hexDigits_length fuel :
  forall n acc, (String.length acc < String.length (Js.hexDigits (S fuel) n acc))%nat.
Proof.
  induction fuel as [|fuel IH]; intros n acc; rewrite hexDigits_S;
    destruct (n <? 16)%Z; cbn [String.length]; try lia.
  - cbn [Js.hexDigits String.length]. lia.
  - specialize (IH (n / 16)%Z (String (Js.digitChar (n mod 16)) acc)).
    cbn [String.length] in IH. lia.
Qed.

Lemma digitValue_upper radix c :
  Js.digitValue radix
    (let n := nat_of_ascii c in
     if ((97 <=? n) && (n <=? 122))%nat then ascii_of_nat (n - 32) else c)
  = Js.digitValue radix c.
Proof.
  unfold Js.digitValue.
  destruct c as [[] [] [] [] [] [] [] []]; reflexivity.
Qed.

Lemma readDigits_toUpperCase radix s :
  forall a seen,
    Js.readDigits radix (Js.toUpperCase s) a seen = Js.readDigits radix s a seen.
Proof.
  induction s as [|c s IH]; intros a seen; [reflexivity|].
  cbn [Js.toUpperCase Js.readDigits]. rewrite digitValue_upper.
  destruct (Js.digitValue radix c); [apply IH|reflexivity].
Qed.

Lemma readDigits_padStart s n :
  Js.readDigits 16 (Js.padStart n "0" s) 0 false
  = Js.readDigits 16 s 0 (negb (n - String.length s =? 0)%nat).
Proof.
  unfold Js.padStart.
  generalize (n - String.length s)%nat as k. intros k.
  destruct k as [|k]; [reflexivity|].
  cbn [Nat.eqb negb Js.repeatChar]. rewrite append_String.
  cbn [Js.readDigits]. change (Js.digitValue 16 "0") with (Some 0%Z). cbv iota.
  change (0 * 16 + 0)%Z with 0%Z.
  induction k as [|k IH]; [reflexivity|].
  cbn [Js.repeatChar]. rewrite append_String. cbn [Js.readDigits].
  change (Js.digitValue 16 "0") with (Some 0%Z). cbv iota. exact IH.
Qed.

Lemma parseInt_0x (h : string) :
  Js.parseInt (String "0" (String "x" h))
  = match Js.readDigits 16 h 0%Z false with
    | Some v => Some (1 * v)%Z
    | None => None
    end.
Proof. reflexivity. Qed.

Lemma toUpperCase_length s : String.length (Js.toUpperCase s) = String.length s.
Proof. induction s as [|c s IH]; [reflexivity|]. cbn [Js.toUpperCase String.length]. now rewrite IH. Qed.

Lemma string_app_length (a b : string) :
  String.length (a ++ b) = (String.length a + String.length b)%nat.
Proof.
  induction a as [|c a IH]; [reflexivity|].
  rewrite append_String. cbn [String.length]. now rewrite IH.
Qed.

Lemma repeatChar_length n c : String.length (Js.repeatChar n c) = n.
Proof. induction n as [|n IH]; [reflexivity|]. cbn [Js.repeatChar String.length]. now rewrite IH. Qed.

Lemma padStart_length n c s : (n <= String.length (Js.padStart n c s))%nat.
Proof.
  unfold Js.padStart. rewrite string_app_length, repeatChar_length. lia.
Qed.

(** X13.  The identifier the pages write for a packet is at least two
    characters long, and for an identifier that is not negative it reads
    back: [parseInt] of [0x] followed by the written digits is the
    identifier.  A negative identifier is written with a minus sign after
    the [0x], which [parseInt] does not read as a number. *)
Theorem hex_id_reads_back packetId :
  (2 <= String.length (Wiki.hexId packetId))%nat
  /\ Js.parseInt ("0x" ++ Wiki.hexId packetId)
     = if (0 <=? packetId)%Z then Some packetId else None.
Proof.
  split.
  - unfold Wiki.hexId. rewrite toUpperCase_length. apply padStart_length.
  - change ("0x" ++ Wiki.hexId packetId)%string
      with (String "0" (String "x" (Wiki.hexId packetId))).
    rewrite parseInt_0x. unfold Wiki.hexId.
    rewrite readDigits_toUpperCase, readDigits_padStart. unfold Js.toStringHex.
    destruct (Z.leb_spec 0 packetId) as [Hpos|Hneg].
    + destruct (Z.ltb_spec packetId 0) as [Hlt|_]; [lia|].
      rewrite Z.abs_eq by exact Hpos.
      destruct (hexDigits_read (Z.to_nat (Z.log2 packetId)) packetId EmptyString
                  (hexDigits_fuel packetId Hpos)) as (k & _ & Hread).
      rewrite Hread. cbn [Js.readDigits]. f_equal. lia.
    + destruct (Z.ltb_spec packetId 0) as [_|Hge]; [|lia].
      pose proof (hexDigits_length (Z.to_nat (Z.log2 (Z.abs packetId)))
                    (Z.abs packetId) EmptyString) as Hlen.
      cbn [String.length] in *.
      replace (2 - S (String.length (Js.hexDigits (S (Z.to_nat (Z.log2 (Z.abs packetId))))
                                       (Z.abs packetId) EmptyString)))%nat
        with 0%nat by lia.
      reflexivity.
Qed.

(** * The bundler and the pages on samples *)

Example auth_referenced :
  Bundler.referenced Samples.authSource Samples.authDeserialize
  = ([ "VarInt.peek"; "HostAddress.deserialize" ], [ "HostAddress" ]).
Proof. vm_compute. reflexivity. Qed.

Example auth_context :
  let packet :=
    Parser.extractPacketInfo (ext := Bundler.externals Samples.sampleParse)
      [] Samples.authClass Samples.authSource "uncategorized" in
  PacketInfo.packetId packet = Some 7%Z
  /\ Analyzer.hasContext packet = true
  /\ List.firstn 17
       (Bundler.contextParts Samples.authClass Samples.authDeserialize Samples.authSource packet)
     = [ "// Packet: Auth"; "// Package: proto.packets"; "";
         "// === CONSTANTS ==="; "public static final int PACKET_ID = 7;"; "";
         "// === FIELDS ==="; "@Nonnull HostAddress host;"; "";
         "// === DESERIALIZE METHOD ==="; Samples.authMethod; "";
         "// === STATIC HELPER METHODS (same class) ===";
         Samples.authMethod; Samples.authHelper; "";
         "// === EXTERNAL DEPENDENCIES ===" ].
Proof. vm_compute. repeat split. Qed.

Example hexId_samples :
  map Wiki.hexId [ 0; 7; 10; 255; 4096; -5 ]%Z = [ "00"; "07"; "0A"; "FF"; "1000"; "-5" ].
Proof. vm_compute. reflexivity. Qed.
